(** * buwis-friend: tax breakdown, income tax schedule and filing session

    A shallow embedding of the computational core of the TypeScript
    sources

      - [src/business-invoice.ts]       (class [DigitalInvoice]),
      - [src/business-buwis-friend.ts]  (class [BuwisFriend]),
      - [src/finance/utils-bir-tax.ts]  ([computeGraduatedIncomeTax]),
      - [src/finance/utils-finance.ts]  ([getQuarterDateRange]),
      - [src/finance/finance-money.ts]  (class [Money]),

    followed by the properties proved about it.

    Numbers.  In the classes, a JavaScript [number] is modelled by an
    exact rational ([Q]); the operators [+ - * /] are the exact ones and
    [==] is equality of rationals.  NaN, the infinities and the rounding
    error of binary64 arithmetic are outside that model, so a statement
    about its amounts is a statement about the arithmetic the code
    writes down, evaluated exactly.  The only division of the engine,
    [netSales / (1 + vatRate)], is therefore meaningful when
    [1 + vatRate] is not zero.  What the program computes on binary64
    numbers is the subject of the module [Binary64], which holds
    [computeBreakdown] and [round] once more, on the primitive binary64
    numbers: the two agree except where a result turns on the rounding
    error of a product or a quotient, as the second decimal of a
    rounded output can. *)

From Stdlib Require Import ZArith QArith Qround Lia Lqa.
From Stdlib Require Import String Ascii List.
From Stdlib Require Import DecimalString DecimalZ DecimalPos.
From Stdlib Require Import Sorted.
From Stdlib Require Floats.
From stdpp Require Import base gmap sets strings.
Import ListNotations.

Set Default Proof Using "Type".

(* ===================================================================== *)
(** * JavaScript primitives used by the sources                          *)
(* ===================================================================== *)

Module JS.

Local Open Scope Q_scope.

(** [x || d] on numbers: [0] is falsy, every other number is truthy. *)
Definition num_or (x d : Q) : Q := if Qeq_bool x 0 then d else x.

(** [Math.round(x)]: the nearest integer, a tie going to the larger
    one, that is [floor (x + 1/2)]. *)
Definition Math_round (x : Q) : Z := Qfloor (x + (1 # 2)).

(** [Math.floor(x)]. *)
Definition Math_floor (x : Q) : Z := Qfloor x.

(** White space removed by [String.prototype.trim], restricted to the
    code units below 128: TAB, LF, VT, FF, CR and SPACE. *)
Definition is_white_space (c : ascii) : bool :=
  let n := nat_of_ascii c in
  ((9 <=? n)%nat && (n <=? 13)%nat) || (n =? 32)%nat.

Fixpoint trimStart (s : string) : string :=
  match s with
  | EmptyString => EmptyString
  | String c rest => if is_white_space c then trimStart rest else s
  end.

Definition string_rev (s : string) : string :=
  string_of_list_ascii (List.rev (list_ascii_of_string s)).

Definition trimEnd (s : string) : string :=
  string_rev (trimStart (string_rev s)).

Definition trim (s : string) : string := trimEnd (trimStart s).

(** The one-character string holding a double quote. *)
Definition dquote : string := String (ascii_of_nat 34) EmptyString.

(** Truthiness of a string: only the empty string is falsy. *)
Definition truthy_string (s : string) : bool :=
  match s with EmptyString => false | String _ _ => true end.

(** [s || d] on strings. *)
Definition string_or (s d : string) : string :=
  if truthy_string s then s else d.

(** Truthiness of an optional string ([undefined] and the empty string are falsy). *)
Definition truthy_opt_string (o : option string) : bool :=
  match o with None => false | Some s => truthy_string s end.

End JS.

(* ===================================================================== *)
(** * Methods that mutate [this] and may throw                            *)
(* ===================================================================== *)

(** A method of a class with state [S] either returns normally or throws
    an [Error] carrying a message.  In both cases the receiver is left in
    some state: the one reached when the method returned or when the
    exception left it. *)
Inductive completion (S : Type) : Type :=
| Returned (s : S)
| Thrown (message : string) (s : S).

Arguments Returned {S} s.
Arguments Thrown {S} message s.

Definition state_after {S : Type} (c : completion S) : S :=
  match c with Returned s => s | Thrown _ s => s end.

Definition throws {S : Type} (c : completion S) : bool :=
  match c with Returned _ => false | Thrown _ _ => true end.

(** Sequencing of two method calls on the same receiver: the second one
    runs only when the first returned. *)
Definition and_then {S : Type} (c : completion S) (k : S -> completion S)
  : completion S :=
  match c with Returned s => k s | Thrown m s => Thrown m s end.

Notation "c >>> k" := (and_then c k) (at level 50, left associativity).

(* ===================================================================== *)
(** * business-invoice.ts                                                 *)
(* ===================================================================== *)

Module Invoice.

Local Open Scope Q_scope.

Inductive InvoiceVATType := NON_VAT | VAT.

Inductive VATSubType := STANDARD | EXEMPT | ZERO_RATED.

Inductive InvoicePaymentMethod := CASH | BANK | EWALLET | CHECK.

Inductive InvoiceType := SALES | SERVICE | COMMERCIAL.

Record BIRMetadata := {
  formNumber : string;
  invoiceNumber : string;
  series : string;
  rdo : string;
  type : InvoiceVATType;
  category : InvoiceType;
  companyLogo : option string
}.

Record OrderMetadata := {
  label : string;
  description : option string;
  quantity : Q;
  unit : string;
  unitPrice : Q;
  amount : Q
}.

Record InvoiceDiscount := {
  scPWD : Q;
  other : Q;
  totalDiscount : Q
}.

(** [vatSubtype] is optional at run time: the constructor's fallback
    order leaves it out and [computeBreakdown] reads it through
    [|| VATSubType.STANDARD]. *)
Record VATMetadata := {
  vat_rate : Q;
  vatSubtype : option VATSubType;
  isVATInclusive : bool;
  totalVAT : Q;
  salesVATable : Q;
  vatExemptSales : Q;
  vatZeroRatedSales : Q;
  totalSalesVATInclusive : Q
}.

Record PercentageTaxMetadata := {
  pt_rate : Q;
  totalPercentageTax : Q
}.

Record WithholdingTaxMetadata := {
  wht_rate : Q;
  totalWithheldTax : Q
}.

Record InvoiceBreakdown := {
  totalSales : Q;
  netReceivable : Q;
  discount : InvoiceDiscount;
  totalAmountDue : Q;
  salesPT : Q;
  exemptSales : Q;
  vat : VATMetadata;
  percentageTax : PercentageTaxMetadata;
  withholdingTax : WithholdingTaxMetadata
}.

(** [orders] holds the order lines; [undefined] is identified with the
    empty array, the two being treated alike by [computeBreakdown]. *)
Record OrderInformation := {
  currency : string;
  orders : list OrderMetadata;
  breakdown : InvoiceBreakdown
}.

Record BankInformation := {
  bank_name : string;
  bank_accountNumber : string;
  bank_branch : string;
  bank_code : string;
  bank_address : string
}.

Record CheckInformation := {
  check_number : string;
  check_date : string
}.

Record PaymentInformation := {
  method : InvoicePaymentMethod;
  bank : option BankInformation;
  check : option CheckInformation;
  referenceNumber : option string
}.

(** types-business.d.ts *)
Record LegalEntity := {
  name : string;
  tin : string;
  address : string;
  businessName : string;
  contactNumber : option string;
  emailAddress : option string;
  website : option string;
  oscaPWDNumber : option string
}.

Record DigitalInvoice := {
  id : string;
  metadata : BIRMetadata;
  customer : LegalEntity;
  issuer : LegalEntity;
  order : OrderInformation;
  payment : PaymentInformation;
  timestamp : string
}.

(** ** Constants *)

Record DefaultTaxRates := {
  default_vat : Q;
  default_percentageTax : Q;
  default_withholdingTax : Q
}.

Definition defaultTaxRates : DefaultTaxRates :=
  {| default_vat := 0.12;
     default_percentageTax := 0.03;
     default_withholdingTax := 0.05 |}.

Definition defaultSCPWDDiscount : Q := 0.2.

(** [const round = (num) => Math.round(num * 100) / 100], evaluated
    exactly; [Binary64.round] is the same helper on binary64 numbers,
    where [num * 100] is itself rounded. *)
Definition round (num : Q) : Q := inject_Z (JS.Math_round (num * 100)) / 100.

(** ** Functional updates of the nested records *)

Definition with_breakdown (b : InvoiceBreakdown) (inv : DigitalInvoice)
  : DigitalInvoice :=
  {| id := id inv; metadata := metadata inv; customer := customer inv;
     issuer := issuer inv;
     order := {| currency := currency (order inv);
                 orders := orders (order inv);
                 breakdown := b |};
     payment := payment inv; timestamp := timestamp inv |}.

Definition with_orders (l : list OrderMetadata) (inv : DigitalInvoice)
  : DigitalInvoice :=
  {| id := id inv; metadata := metadata inv; customer := customer inv;
     issuer := issuer inv;
     order := {| currency := currency (order inv);
                 orders := l;
                 breakdown := breakdown (order inv) |};
     payment := payment inv; timestamp := timestamp inv |}.

Definition with_customer (c : LegalEntity) (inv : DigitalInvoice)
  : DigitalInvoice :=
  {| id := id inv; metadata := metadata inv; customer := c;
     issuer := issuer inv; order := order inv;
     payment := payment inv; timestamp := timestamp inv |}.

Definition with_oscaPWDNumber (o : option string) (c : LegalEntity)
  : LegalEntity :=
  {| name := name c; tin := tin c; address := address c;
     businessName := businessName c; contactNumber := contactNumber c;
     emailAddress := emailAddress c; website := website c;
     oscaPWDNumber := o |}.

Definition with_vat (v : VATMetadata) (b : InvoiceBreakdown)
  : InvoiceBreakdown :=
  {| totalSales := totalSales b; netReceivable := netReceivable b;
     discount := discount b; totalAmountDue := totalAmountDue b;
     salesPT := salesPT b; exemptSales := exemptSales b;
     vat := v; percentageTax := percentageTax b;
     withholdingTax := withholdingTax b |}.

Definition with_percentageTax (p : PercentageTaxMetadata)
  (b : InvoiceBreakdown) : InvoiceBreakdown :=
  {| totalSales := totalSales b; netReceivable := netReceivable b;
     discount := discount b; totalAmountDue := totalAmountDue b;
     salesPT := salesPT b; exemptSales := exemptSales b;
     vat := vat b; percentageTax := p;
     withholdingTax := withholdingTax b |}.

Definition with_withholdingTax (w : WithholdingTaxMetadata)
  (b : InvoiceBreakdown) : InvoiceBreakdown :=
  {| totalSales := totalSales b; netReceivable := netReceivable b;
     discount := discount b; totalAmountDue := totalAmountDue b;
     salesPT := salesPT b; exemptSales := exemptSales b;
     vat := vat b; percentageTax := percentageTax b;
     withholdingTax := w |}.

Definition with_vat_rate (r : Q) (v : VATMetadata) : VATMetadata :=
  {| vat_rate := r; vatSubtype := vatSubtype v;
     isVATInclusive := isVATInclusive v; totalVAT := totalVAT v;
     salesVATable := salesVATable v; vatExemptSales := vatExemptSales v;
     vatZeroRatedSales := vatZeroRatedSales v;
     totalSalesVATInclusive := totalSalesVATInclusive v |}.

Definition with_isVATInclusive (f : bool) (v : VATMetadata) : VATMetadata :=
  {| vat_rate := vat_rate v; vatSubtype := vatSubtype v;
     isVATInclusive := f; totalVAT := totalVAT v;
     salesVATable := salesVATable v; vatExemptSales := vatExemptSales v;
     vatZeroRatedSales := vatZeroRatedSales v;
     totalSalesVATInclusive := totalSalesVATInclusive v |}.

Definition with_pt_rate (r : Q) (p : PercentageTaxMetadata)
  : PercentageTaxMetadata :=
  {| pt_rate := r; totalPercentageTax := totalPercentageTax p |}.

Definition with_wht_rate (r : Q) (w : WithholdingTaxMetadata)
  : WithholdingTaxMetadata :=
  {| wht_rate := r; totalWithheldTax := totalWithheldTax w |}.

End Invoice.

(* ===================================================================== *)
(** * [DigitalInvoice.computeBreakdown]                                   *)
(* ===================================================================== *)

(** The local constants of [computeBreakdown], each under the name it has
    in the source, as functions of the invoice the method is called on.
    [Invoice.breakdown (Invoice.order inv)] is [this.order.breakdown] as
    it stands when the method is entered, that is the breakdown left by
    the previous pass (or by the constructor). *)
Module Breakdown.

Import Invoice.
Local Open Scope Q_scope.

(** [!!this.customer?.oscaPWDNumber?.trim()] *)
Definition isEligibleForScPwdDiscount (inv : DigitalInvoice) : bool :=
  match oscaPWDNumber (customer inv) with
  | None => false
  | Some s => JS.truthy_string (JS.trim s)
  end.

Section Locals.

Variable inv : DigitalInvoice.

Definition stored : InvoiceBreakdown := breakdown (order inv).

Definition isVAT : bool :=
  match type (metadata inv) with VAT => true | NON_VAT => false end.

Definition isVATInclusive : bool := Invoice.isVATInclusive (vat stored).

(** [orders.reduce((acc, item) => acc + item.amount, 0)] *)
Definition totalSales : Q :=
  fold_left (fun acc item => acc + amount item) (orders (order inv)) 0.

Definition otherDiscounts : Q := other (discount stored).

Definition netSales : Q := totalSales - otherDiscounts.

Definition vatRate : Q :=
  if isVAT then JS.num_or (vat_rate (vat stored)) (default_vat defaultTaxRates)
  else 0.

Definition vatMultiplier : Q := 1 + vatRate.

Definition vatSubtype : VATSubType :=
  match Invoice.vatSubtype (vat stored) with
  | Some t => t
  | None => STANDARD
  end.

(** [discount.scPWD] after the eligibility step: overwritten for an
    eligible customer, otherwise still the value found in the stored
    discount object. *)
Definition discount_scPWD : Q :=
  if isEligibleForScPwdDiscount inv then
    if isVAT && isVATInclusive then
      let baseAmount := netSales / (1 + vatRate) in
      baseAmount * defaultSCPWDDiscount
    else
      netSales * defaultSCPWDDiscount
  else scPWD (discount stored).

Definition discount_other : Q := other (discount stored).

Definition totalDiscount : Q := discount_scPWD + discount_other.

Definition salesLessScPwdDiscounts : Q := netSales - discount_scPWD.

Definition whtRate : Q := JS.num_or (wht_rate (withholdingTax stored)) 0.

Definition totalWithheldTaxNonVAT : Q := netSales * whtRate.

Definition ptRate : Q :=
  JS.num_or (pt_rate (percentageTax stored))
            (default_percentageTax defaultTaxRates).

Definition totalPercentageTax : Q := salesLessScPwdDiscounts * ptRate.

Definition netReceivableNonVAT : Q :=
  netSales - totalWithheldTaxNonVAT - totalPercentageTax.

Definition totalAmountPayableNonVAT : Q := netSales - totalWithheldTaxNonVAT.

(** The [let] variables of the VAT branch. *)
Record vat_vars := {
  salesVATable : Q;
  vatExemptSales : Q;
  vatZeroRatedSales : Q;
  totalVAT : Q;
  baseAmount : Q
}.

(** [discount.scPWD || 0] *)
Definition scPWDDiscount : Q := JS.num_or discount_scPWD 0.

(** The [switch (vatSubtype)], starting from all five variables at 0. *)
Definition vat_switch : vat_vars :=
  match vatSubtype with
  | EXEMPT =>
      {| salesVATable := 0; vatExemptSales := netSales;
         vatZeroRatedSales := 0; totalVAT := 0; baseAmount := 0 |}
  | ZERO_RATED =>
      {| salesVATable := 0; vatExemptSales := 0;
         vatZeroRatedSales := netSales; totalVAT := 0; baseAmount := 0 |}
  | STANDARD =>
      if isVATInclusive then
        let baseAmount := netSales / vatMultiplier in
        let vatExemptSales := scPWDDiscount in
        let salesVATable := baseAmount - vatExemptSales in
        let totalVAT := salesVATable * vatRate in
        {| salesVATable := salesVATable; vatExemptSales := vatExemptSales;
           vatZeroRatedSales := 0; totalVAT := totalVAT;
           baseAmount := baseAmount |}
      else
        let baseAmount := netSales - scPWDDiscount in
        let salesVATable := baseAmount in
        let totalVAT := salesVATable * vatRate in
        {| salesVATable := salesVATable; vatExemptSales := 0;
           vatZeroRatedSales := 0; totalVAT := totalVAT;
           baseAmount := baseAmount |}
  end.

Definition totalSalesVATInclusive : Q :=
  if isVATInclusive then netSales
  else salesVATable vat_switch + totalVAT vat_switch.

Definition totalWithheldTaxVAT : Q := baseAmount vat_switch * whtRate.

Definition netReceivableVAT : Q := baseAmount vat_switch - totalWithheldTaxVAT.

Definition totalAmountDuePayable : Q :=
  totalSalesVATInclusive - totalWithheldTaxVAT.

(** The three object literals assigned to [this.order.breakdown]. *)

Definition breakdown_no_items : InvoiceBreakdown :=
  {| Invoice.totalSales := 0;
     netReceivable := 0;
     discount := {| scPWD := 0; other := 0; Invoice.totalDiscount := 0 |};
     withholdingTax :=
       {| wht_rate := wht_rate (withholdingTax stored);
          totalWithheldTax := 0 |};
     totalAmountDue := 0;
     salesPT := 0;
     exemptSales := 0;
     vat :=
       {| vat_rate := if isVAT then default_vat defaultTaxRates else 0;
          Invoice.isVATInclusive := isVATInclusive;
          Invoice.vatSubtype := Some STANDARD;
          Invoice.totalVAT := 0;
          Invoice.salesVATable := 0;
          Invoice.vatExemptSales := 0;
          Invoice.vatZeroRatedSales := 0;
          Invoice.totalSalesVATInclusive := 0 |};
     percentageTax :=
       {| pt_rate :=
            if isVAT then 0 else default_percentageTax defaultTaxRates;
          Invoice.totalPercentageTax := 0 |} |}.

Definition breakdown_non_vat : InvoiceBreakdown :=
  {| Invoice.totalSales := round totalSales;
     discount :=
       {| scPWD := round discount_scPWD;
          other := round discount_other;
          Invoice.totalDiscount := round totalDiscount |};
     netReceivable := round netReceivableNonVAT;
     withholdingTax :=
       {| wht_rate := whtRate;
          totalWithheldTax := round totalWithheldTaxNonVAT |};
     totalAmountDue := round totalAmountPayableNonVAT;
     salesPT :=
       if negb (Qle_bool discount_scPWD 0)
       then round salesLessScPwdDiscounts else round netSales;
     exemptSales := 0;
     vat :=
       {| vat_rate := 0;
          Invoice.isVATInclusive := Invoice.isVATInclusive (vat stored);
          Invoice.vatSubtype := Some STANDARD;
          Invoice.totalVAT := 0;
          Invoice.salesVATable := 0;
          Invoice.vatExemptSales := 0;
          Invoice.vatZeroRatedSales := 0;
          Invoice.totalSalesVATInclusive := 0 |};
     percentageTax :=
       {| pt_rate := ptRate;
          Invoice.totalPercentageTax := round totalPercentageTax |} |}.

Definition breakdown_vat : InvoiceBreakdown :=
  {| Invoice.totalSales := round totalSales;
     discount :=
       {| scPWD := round discount_scPWD;
          other := round discount_other;
          Invoice.totalDiscount := round totalDiscount |};
     netReceivable := round netReceivableVAT;
     withholdingTax :=
       {| wht_rate := whtRate;
          totalWithheldTax := round totalWithheldTaxVAT |};
     totalAmountDue := round totalAmountDuePayable;
     salesPT := 0;
     exemptSales := 0;
     vat :=
       {| vat_rate := vatRate;
          Invoice.isVATInclusive := isVATInclusive;
          Invoice.vatSubtype := Invoice.vatSubtype (vat stored);
          Invoice.totalVAT := round (totalVAT vat_switch);
          Invoice.salesVATable := round (salesVATable vat_switch);
          Invoice.vatExemptSales := round (vatExemptSales vat_switch);
          Invoice.vatZeroRatedSales := round (vatZeroRatedSales vat_switch);
          Invoice.totalSalesVATInclusive := round totalSalesVATInclusive |};
     percentageTax :=
       {| pt_rate := 0; Invoice.totalPercentageTax := 0 |} |}.

(** The breakdown [computeBreakdown] leaves in [this.order.breakdown]. *)
Definition newBreakdown : InvoiceBreakdown :=
  match orders (order inv) with
  | [] => breakdown_no_items
  | _ :: _ => if negb isVAT then breakdown_non_vat else breakdown_vat
  end.

End Locals.

(** [private computeBreakdown(): void] *)
Definition computeBreakdown (inv : DigitalInvoice) : DigitalInvoice :=
  with_breakdown (newBreakdown inv) inv.

End Breakdown.

(* ===================================================================== *)
(** * The wall clock                                                      *)
(* ===================================================================== *)

(** What [Date] answers at the moment of a call: [Date.now()] in
    milliseconds since the epoch, and [new Date().toISOString()]. *)
Record Clock := {
  Date_now : Z;
  Date_toISOString : string
}.

(* ===================================================================== *)
(** * The public methods of [DigitalInvoice] that touch the breakdown     *)
(* ===================================================================== *)

Module Methods.

Import Invoice.
Export Breakdown.
Local Open Scope Q_scope.
Local Open Scope string_scope.

(** ** [autogenerateID] *)

(** [toLowerCase] on one code unit below 128: the letters A to Z are
    the only ones it changes there. *)
Definition toLowerCase_char (c : ascii) : ascii :=
  let n := nat_of_ascii c in
  if ((65 <=? n)%nat && (n <=? 90)%nat)%bool then ascii_of_nat (n + 32) else c.

(** Membership in the character class [a-z0-9]. *)
Definition is_slug_char (c : ascii) : bool :=
  let n := nat_of_ascii c in
  ((97 <=? n)%nat && (n <=? 122)%nat) || ((48 <=? n)%nat && (n <=? 57)%nat).

(** [.replace(/[^a-z0-9]+/g, "-")]; [in_run] tells that the previous
    character already belonged to the run being replaced. *)
Fixpoint replace_runs (in_run : bool) (l : list ascii) : list ascii :=
  match l with
  | [] => []
  | c :: rest =>
      if is_slug_char c then c :: replace_runs false rest
      else if in_run then replace_runs true rest
           else "-"%char :: replace_runs true rest
  end.

Fixpoint drop_dashes (l : list ascii) : list ascii :=
  match l with
  | [] => []
  | c :: rest => if Ascii.eqb c "-" then drop_dashes rest else l
  end.

(** The second [replace]: leading and trailing runs of dashes are removed. *)
Definition strip_dashes (l : list ascii) : list ascii :=
  List.rev (drop_dashes (List.rev (drop_dashes l))).

Definition titleText (input : string) : string :=
  string_of_list_ascii
    (strip_dashes
       (replace_runs false
          (List.map toLowerCase_char (list_ascii_of_string input)))).

(** The decimal numeral of an integer, as a template literal prints it. *)
Definition Z_toString (n : Z) : string :=
  DecimalString.NilZero.string_of_int (Z.to_int n).

Definition autogenerateID (clock : Clock) (input : string) : string :=
  let unixTime := JS.Math_floor (inject_Z (Date_now clock) / 1000) in
  "invoice-" ++ titleText input ++ "-" ++ Z_toString unixTime.

(** ** The constructor, called with every object argument present *)

Definition new_DigitalInvoice (clock : Clock)
    (id : option string) (metadata : BIRMetadata)
    (customer issuer : LegalEntity) (order : OrderInformation)
    (payment : PaymentInformation) (timestamp : option string)
  : DigitalInvoice :=
  {| Invoice.id :=
       if JS.truthy_opt_string id then default EmptyString id
       else autogenerateID clock
              (JS.string_or (invoiceNumber metadata) "bir-invoice");
     Invoice.timestamp :=
       if JS.truthy_opt_string timestamp then default EmptyString timestamp
       else Date_toISOString clock;
     Invoice.metadata := metadata;
     Invoice.customer := customer;
     Invoice.issuer := issuer;
     Invoice.order := order;
     Invoice.payment := payment |}.

(** ** [static initialize(type = NON_VAT)] *)

Definition initialize (clock : Clock) (type : InvoiceVATType) : DigitalInvoice :=
  let defaultMetadata :=
    {| formNumber := "2703"; Invoice.type := type; category := SALES;
       series := "January 2020 (ENCS)"; rdo := "000";
       invoiceNumber := "1000A0001001"; companyLogo := None |} in
  let defaultCustomer :=
    {| name := "Customer XYZ"; tin := "100000000000";
       address := "123 ABC St., Brgy. DEF, Manila City, NCR, Philippines";
       businessName := "The Zelijah World";
       contactNumber := None; emailAddress := None; website := None;
       oscaPWDNumber := None |} in
  let defaultSeller :=
    {| name := "Taxpayer ABC"; tin := "100000000000";
       address := "123 XYZ St., Brgy. DEF, Makati City, NCR, Philippines";
       businessName := "The Zelijah World";
       contactNumber := None; emailAddress := None; website := None;
       oscaPWDNumber := None |} in
  let defaultOrder :=
    {| orders := [];
       breakdown :=
         {| Invoice.totalSales := 0;
            netReceivable := 0;
            discount := {| scPWD := 0; other := 0; Invoice.totalDiscount := 0 |};
            totalAmountDue := 0;
            salesPT := 0;
            exemptSales := 0;
            vat :=
              {| vat_rate :=
                   match type with
                   | VAT => default_vat defaultTaxRates
                   | NON_VAT => 0
                   end;
                 Invoice.isVATInclusive := true;
                 Invoice.vatSubtype := Some STANDARD;
                 Invoice.totalVAT := 0;
                 Invoice.salesVATable := 0;
                 Invoice.vatExemptSales := 0;
                 Invoice.vatZeroRatedSales := 0;
                 Invoice.totalSalesVATInclusive := 0 |};
            percentageTax :=
              {| pt_rate :=
                   match type with
                   | NON_VAT => default_percentageTax defaultTaxRates
                   | VAT => 0
                   end;
                 Invoice.totalPercentageTax := 0 |};
            withholdingTax :=
              {| wht_rate := default_withholdingTax defaultTaxRates;
                 totalWithheldTax := 0 |} |};
       currency := "PHP" |} in
  let defaultPayment :=
    {| method := CASH; bank := None; check := None;
       referenceNumber := None |} in
  new_DigitalInvoice clock None defaultMetadata defaultCustomer
    defaultSeller defaultOrder defaultPayment None.

(** ** Setters *)

Definition modify_breakdown (f : InvoiceBreakdown -> InvoiceBreakdown)
    (inv : DigitalInvoice) : DigitalInvoice :=
  with_breakdown (f (breakdown (order inv))) inv.

Definition set_vat_rate (r : Q) : DigitalInvoice -> DigitalInvoice :=
  modify_breakdown (fun b => with_vat (with_vat_rate r (vat b)) b).

Definition set_pt_rate (r : Q) : DigitalInvoice -> DigitalInvoice :=
  modify_breakdown
    (fun b => with_percentageTax (with_pt_rate r (percentageTax b)) b).

Definition set_wht_rate (r : Q) : DigitalInvoice -> DigitalInvoice :=
  modify_breakdown
    (fun b => with_withholdingTax (with_wht_rate r (withholdingTax b)) b).

(** [setCustomerOSCAPWDNumber(input)]: the assignment of [undefined]
    made for a blank input is overwritten by the one that follows. *)
Definition setCustomerOSCAPWDNumber (input : string) (inv : DigitalInvoice)
  : completion DigitalInvoice :=
  let inv1 :=
    if negb (JS.truthy_string input) || negb (JS.truthy_string (JS.trim input))
    then with_customer (with_oscaPWDNumber None (customer inv)) inv
    else inv in
  let inv2 := with_customer (with_oscaPWDNumber (Some input) (customer inv1)) inv1 in
  Returned (computeBreakdown inv2).

(** [setRateVAT(input)] *)
Definition setRateVAT (input : Q) (inv : DigitalInvoice)
  : completion DigitalInvoice :=
  match type (metadata inv) with
  | NON_VAT =>
      Thrown "This invoice type does not support VAT rates."
             (set_vat_rate 0 inv)
  | VAT =>
      let inv1 :=
        if Qeq_bool input 0
        then set_vat_rate (default_vat defaultTaxRates) inv else inv in
      Returned (computeBreakdown (set_vat_rate input inv1))
  end.

(** [setRatePercentageTax(input)] *)
Definition setRatePercentageTax (input : Q) (inv : DigitalInvoice)
  : completion DigitalInvoice :=
  match type (metadata inv) with
  | VAT =>
      Thrown "This invoice type does not support Percentage Tax rates."
             (set_pt_rate 0 inv)
  | NON_VAT =>
      let inv1 :=
        if Qeq_bool input 0
        then set_pt_rate (default_percentageTax defaultTaxRates) inv
        else inv in
      Returned (computeBreakdown (set_pt_rate input inv1))
  end.

(** [setRateWithholding(input)] *)
Definition setRateWithholding (input : Q) (inv : DigitalInvoice)
  : completion DigitalInvoice :=
  let inv1 := if Qeq_bool input 0 then set_wht_rate 0 inv else inv in
  Returned (computeBreakdown (set_wht_rate input inv1)).

(** [disableWithholdingTax()] *)
Definition disableWithholdingTax (inv : DigitalInvoice)
  : completion DigitalInvoice :=
  Returned (computeBreakdown (set_wht_rate 0 inv)).

(** [disablePercentageTax()]: "Clears and disables the invoice's
    Percentage Tax." *)
Definition disablePercentageTax (inv : DigitalInvoice)
  : completion DigitalInvoice :=
  Returned (computeBreakdown (set_pt_rate 0 inv)).

(** [resetPercentageTax()] *)
Definition resetPercentageTax (inv : DigitalInvoice)
  : completion DigitalInvoice :=
  Returned
    (computeBreakdown
       (set_pt_rate (default_percentageTax defaultTaxRates) inv)).

(** [setListOrders(list)] *)
Definition setListOrders (list : list OrderMetadata) (inv : DigitalInvoice)
  : completion DigitalInvoice :=
  let inv1 := match list with [] => with_orders [] inv | _ => inv end in
  Returned (computeBreakdown (with_orders list inv1)).

(** [clearListOrders()] *)
Definition clearListOrders (inv : DigitalInvoice) : completion DigitalInvoice :=
  Returned (computeBreakdown (with_orders [] inv)).

(** [toggleVATInclusive(bool?)]: [None] is the call without argument. *)
Definition toggleVATInclusive (bool : option bool) (inv : DigitalInvoice)
  : completion DigitalInvoice :=
  match type (metadata inv) with
  | NON_VAT =>
      Thrown "This invoice VAT type does not support this method." inv
  | VAT =>
      let current := Invoice.isVATInclusive (vat (breakdown (order inv))) in
      let flag := default false bool || negb current in
      Returned
        (computeBreakdown
           (modify_breakdown
              (fun b => with_vat (with_isVATInclusive flag (vat b)) b) inv))
  end.

(** [getNetReceivables()] *)
Definition getNetReceivables (inv : DigitalInvoice) : Q :=
  netReceivable (breakdown (order inv)).

(** ** Serialization *)

(** The plain object exchanged with [toJSON] and [parseFromJSON]; a
    property that is absent is [None]. *)
Record InvoiceJSON := {
  json_id : option string;
  json_metadata : option BIRMetadata;
  json_customer : option LegalEntity;
  json_issuer : option LegalEntity;
  json_order : option OrderInformation;
  json_payment : option PaymentInformation;
  json_timestamp : option string
}.

(** [toJSON()] *)
Definition toJSON (inv : DigitalInvoice) : InvoiceJSON :=
  {| json_id := Some (id inv);
     json_metadata := Some (metadata inv);
     json_customer := Some (customer inv);
     json_issuer := Some (issuer inv);
     json_order := Some (order inv);
     json_payment := Some (payment inv);
     json_timestamp := Some (timestamp inv) |}.

(** The outcome of a static method: a value or a thrown [Error]. *)
Inductive result (A : Type) : Type :=
| Value (a : A)
| Error (message : string).
Arguments Value {A} a.
Arguments Error {A} message.

(** [static parseFromJSON(json)], on an object argument. *)
Definition parseFromJSON (clock : Clock) (parsedData : InvoiceJSON)
  : result DigitalInvoice :=
  if negb (JS.truthy_opt_string (json_id parsedData)) then
    Error "Missing required property: 'id'"
  else
    match json_metadata parsedData with
    | None => Error "Missing required property: 'metadata'"
    | Some metadata =>
    match json_customer parsedData with
    | None => Error "Missing required property: 'customer'"
    | Some customer =>
    match json_issuer parsedData with
    | None => Error "Missing required property: 'issuer'"
    | Some issuer =>
    match json_order parsedData with
    | None => Error "Missing required property: 'order'"
    | Some order =>
    match json_payment parsedData with
    | None => Error "Missing required property: 'payment'"
    | Some payment =>
        Value (new_DigitalInvoice clock None metadata customer issuer
                 order payment (json_timestamp parsedData))
    end end end end end.

End Methods.

(* ===================================================================== *)
(** * finance/utils-bir-tax.ts                                            *)
(* ===================================================================== *)

Module IncomeTax.

Local Open Scope Q_scope.

Inductive IncomeTaxType := GRADUATED | FLAT.

(** [a > b] and [a <= b] on numbers. *)
Definition gt (a b : Q) : bool := negb (Qle_bool a b).
Definition le (a b : Q) : bool := Qle_bool a b.

Definition computeGraduatedIncomeTax (income : Q) (type : IncomeTaxType) : Q :=
  let FLAT_TAX_THRESHOLD := 250000 in
  let FLAT_TAX_RATE := 0.08 in
  match type with
  | FLAT =>
      let threshold := FLAT_TAX_THRESHOLD in
      if gt income threshold then (income - threshold) * FLAT_TAX_RATE else 0
  | GRADUATED =>
      if le income 250000 then 0
      else if le income 400000 then (income - 250000) * 0.15
      else if le income 800000 then 22500 + (income - 400000) * 0.2
      else if le income 2000000 then 102500 + (income - 800000) * 0.25
      else if le income 8000000 then 402500 + (income - 2000000) * 0.3
      else 2202500 + (income - 8000000) * 0.35
  end.

End IncomeTax.

(* ===================================================================== *)
(** * finance/utils-finance.ts                                            *)
(* ===================================================================== *)

Module Finance.

Import Methods.
Local Open Scope Z_scope.

Inductive QuarterPeriod := Q1 | Q2 | Q3 | Q4.

(** Days between 1970-01-01 and the given day of the proleptic Gregorian
    calendar, the day number behind an ISO date-time string. *)
Definition days_from_civil (y m d : Z) : Z :=
  let y' := if m <=? 2 then y - 1 else y in
  let era := y' / 400 in
  let yoe := y' - era * 400 in
  let mp := if 2 <? m then m - 3 else m + 9 in
  let doy := (153 * mp + 2) / 5 + d - 1 in
  let doe := yoe * 365 + yoe / 4 - yoe / 100 + doy in
  era * 146097 + doe - 719468.

(** The time value of [new Date("YYYY-MM-DDThh:mm:ss.sssZ")]. *)
Definition Date_UTC (y m d hh mm ss ms : Z) : Z :=
  days_from_civil y m d * 86400000 + hh * 3600000 + mm * 60000 + ss * 1000 + ms.

(** [getQuarterDateRange(quarter, year)] called with a year; the result
    is the pair of time values of the two [Date] objects. *)
Definition getQuarterDateRange (quarter : QuarterPeriod) (year : Z)
  : result (Z * Z) :=
  let targetYear := year in
  if (targetYear <? 1800) || (3000 <? targetYear) then
    Error ("Invalid year " ++ JS.dquote ++ Z_toString year ++ JS.dquote
           ++ ". Year must be a number between 1800 and 3000.")%string
  else
    match quarter with
    | Q1 => Value (Date_UTC targetYear 1 1 0 0 0 0,
                   Date_UTC targetYear 3 31 23 59 59 999)
    | Q2 => Value (Date_UTC targetYear 4 1 0 0 0 0,
                   Date_UTC targetYear 6 30 23 59 59 999)
    | Q3 => Value (Date_UTC targetYear 7 1 0 0 0 0,
                   Date_UTC targetYear 9 30 23 59 59 999)
    | Q4 => Value (Date_UTC targetYear 10 1 0 0 0 0,
                   Date_UTC targetYear 12 31 23 59 59 999)
    end.

End Finance.

(* ===================================================================== *)
(** * finance/finance-money.ts                                            *)
(* ===================================================================== *)

Module Money.

Import Methods.
Local Open Scope Q_scope.
Local Open Scope string_scope.

(** Modelled from the spec: the arbitrary-precision type [Decimal] of the
    external library decimal.js.  A [Decimal] is the exact rational it
    denotes; [toFixed(2)] prints it with exactly two fractional digits
    after rounding to the nearest hundredth, a tie going away from zero
    (the library's default rounding mode, the one [toCentavos] names);
    [new Decimal(s)] reads a plain decimal numeral.  Numerals in other
    notations, NaN, the infinities and the sign the library may keep on
    an amount that rounds to zero are not represented. *)
Definition Decimal : Type := Q.

Record Money := {
  amount : Decimal;
  currency : string
}.

Definition toUpperCase_char (c : ascii) : ascii :=
  let n := nat_of_ascii c in
  if ((97 <=? n)%nat && (n <=? 122)%nat)%bool then ascii_of_nat (n - 32) else c.

Fixpoint toUpperCase (s : string) : string :=
  match s with
  | EmptyString => EmptyString
  | String c rest => String (toUpperCase_char c) (toUpperCase rest)
  end.

(** [constructor(value, currency = 'PHP')] *)
Definition new_Money (value : Decimal) (currency : string) : Money :=
  {| amount := value; currency := toUpperCase currency |}.

(** [Decimal.ROUND_HALF_UP] at zero decimal places. *)
Definition round_half_up (x : Q) : Z :=
  if Qle_bool 0 x then Qfloor (x + (1 # 2)) else (- Qfloor (- x + (1 # 2)))%Z.

(** [toCentavos()] *)
Definition toCentavos (m : Money) : Z := round_half_up (amount m * 100).

Definition digit_char (n : Z) : ascii := ascii_of_nat (48 + Z.to_nat n).

(** The numeral of [c] hundredths with two fractional digits. *)
Definition fixed2_of_hundredths (c : Z) : string :=
  let a := Z.abs c in
  (if (c <? 0)%Z then "-" else EmptyString)
  ++ Z_toString (a / 100) ++ "."
  ++ String (digit_char ((a / 10) mod 10))
       (String (digit_char (a mod 10)) EmptyString).

(** [amount.toFixed(2)] *)
Definition toFixed2 (x : Decimal) : string :=
  fixed2_of_hundredths (round_half_up (x * 100)).

Fixpoint split_at_point (s : string) : string * option string :=
  match s with
  | EmptyString => (EmptyString, None)
  | String c rest =>
      if Ascii.eqb c "." then (EmptyString, Some rest)
      else let (i, f) := split_at_point rest in (String c i, f)
  end.

(** The value of a non-empty string of decimal digits. *)
Definition digits (s : string) : option Z :=
  match s with
  | EmptyString => None
  | _ => option_map Z.of_uint (NilEmpty.uint_of_string s)
  end.

Definition unsigned_of_string (s : string) : option Q :=
  match split_at_point s with
  | (i, None) => option_map inject_Z (digits i)
  | (i, Some f) =>
      match digits i, digits f with
      | Some n, Some m =>
          Some (inject_Z n
                + inject_Z m / inject_Z (10 ^ Z.of_nat (String.length f)))
      | _, _ => None
      end
  end.

(** [new Decimal(s)] on a string; [None] when [s] is not a plain decimal
    numeral. *)
Definition Decimal_of_string (s : string) : option Decimal :=
  match s with
  | String "-" rest => option_map Qopp (unsigned_of_string rest)
  | _ => unsigned_of_string s
  end.

(** The plain object of [toJSON] and [parseFromJSON]: [amount] is a string
    or a number, [currency] is [None] when it is not a string. *)
Record MoneyJSON := {
  json_amount : string + Q;
  json_currency : option string
}.

(** [toJSON()] *)
Definition toJSON (m : Money) : MoneyJSON :=
  {| json_amount := inl (toFixed2 (amount m));
     json_currency := Some (currency m) |}.

(** [static parseFromJSON(data)] *)
Definition parseFromJSON (data : MoneyJSON) : result Money :=
  match json_currency data with
  | None => Error "Invalid currency type. Expected string."
  | Some c =>
      match json_amount data with
      | inr n => Value (new_Money n c)
      | inl s =>
          match Decimal_of_string s with
          | Some v => Value (new_Money v c)
          | None => Error ("[DecimalError] Invalid argument: " ++ s)
          end
      end
  end.

End Money.

(* ===================================================================== *)
(** * business-buwis-friend.ts                                            *)
(* ===================================================================== *)

Module Session.

Import Invoice Methods Finance.
Local Open Scope Z_scope.
Local Open Scope string_scope.

Record VatSettings := {
  settings_vat_rate : Q;
  settings_vat_type : InvoiceVATType
}.

Record BuwisFriendTaxSettings := {
  settings_vat : VatSettings;
  settings_percentageTax : Q;
  incomeTaxType : IncomeTax.IncomeTaxType
}.

Record BuwisFriendMetadata := {
  taxpayer : LegalEntity;
  year : Z;
  quarter : QuarterPeriod;
  userID : string;
  taxSettings : BuwisFriendTaxSettings
}.

Section BuwisFriend.

(** [new Date(s).getTime()] for a timestamp string [s]; [None] is the
    NaN time value of an invalid date. *)
Variable Date_getTime : string -> option Z.

(** The text [`${invoiceYear} Q${invoiceQuarter}`] that [addInvoice]
    derives from the local-time fields of the issue date. *)
Variable describe_period : string -> string.

(** [finance/finance-sales-report.ts] is not part of the sources at
    hand: the class [SalesSummaryReport] is taken as given, with its
    method [clearInvoices] and the composition of [initialize] and
    [updateInvoices] that [refreshSummary] uses. *)
Variable SalesSummaryReport : Type.
Variable summary_clearInvoices : SalesSummaryReport -> SalesSummaryReport.
Variable summary_of_invoices :
  BuwisFriendMetadata -> list DigitalInvoice -> SalesSummaryReport.

Record BuwisFriend := {
  session_id : string;
  session_metadata : BuwisFriendMetadata;
  invoices : list DigitalInvoice;
  summary : SalesSummaryReport;
  session_timestamp : string
}.

Definition with_invoices (l : list DigitalInvoice) (s : BuwisFriend)
  : BuwisFriend :=
  {| session_id := session_id s; session_metadata := session_metadata s;
     invoices := l; summary := summary s;
     session_timestamp := session_timestamp s |}.

Definition with_summary (r : SalesSummaryReport) (s : BuwisFriend)
  : BuwisFriend :=
  {| session_id := session_id s; session_metadata := session_metadata s;
     invoices := invoices s; summary := r;
     session_timestamp := session_timestamp s |}.

(** [private refreshSummary()] *)
Definition refreshSummary (s : BuwisFriend) : BuwisFriend :=
  match invoices s with
  | [] => with_summary (summary_clearInvoices (summary s)) s
  | _ :: _ =>
      with_summary (summary_of_invoices (session_metadata s) (invoices s)) s
  end.

(** [this.invoices.some(inv => inv.metadata.invoiceNumber === invoiceNumber)] *)
Definition some_invoiceNumber (invoiceNumber : string) (s : BuwisFriend) : bool :=
  existsb (fun inv => String.eqb (Invoice.invoiceNumber (metadata inv)) invoiceNumber)
          (invoices s).

(** [doesInvoiceExist(invoice)], whose argument is a string or a
    [DigitalInvoice]. *)
Definition doesInvoiceExist (invoice : string + DigitalInvoice) (s : BuwisFriend)
  : result bool :=
  let invalid :=
    Error "Invalid input: must be a string or a valid DigitalInvoice with metadata.invoiceNumber" in
  match invoice with
  | inl str =>
      if JS.truthy_string (JS.trim str)
      then Value (some_invoiceNumber str s) else invalid
  | inr inv =>
      let n := Invoice.invoiceNumber (metadata inv) in
      if JS.truthy_string n && JS.truthy_string (JS.trim n)
      then Value (some_invoiceNumber n s) else invalid
  end.

(** [issuedDate < startDate || issuedDate > endDate]; both comparisons
    are false for an invalid date. *)
Definition outside_range (issued : option Z) (range : Z * Z) : bool :=
  match issued with
  | None => false
  | Some t => (t <? fst range)%Z || (snd range <? t)%Z
  end.

(** The comparator [new Date(a.timestamp).getTime() -
    new Date(b.timestamp).getTime()] is positive. *)
Definition later (a b : DigitalInvoice) : bool :=
  match Date_getTime (timestamp a), Date_getTime (timestamp b) with
  | Some ta, Some tb => (tb <? ta)%Z
  | _, _ => false
  end.

(** [Array.prototype.sort] with that comparator: a stable sort, and the
    order the engine produces when every date is valid.  The place given
    to invoices with an invalid date is a choice of this model (the
    comparator is then inconsistent and the standard leaves the order to
    the implementation). *)
Fixpoint insert_sorted (x : DigitalInvoice) (l : list DigitalInvoice)
  : list DigitalInvoice :=
  match l with
  | [] => [x]
  | y :: rest => if later y x then x :: l else y :: insert_sorted x rest
  end.

Definition sort_by_date (l : list DigitalInvoice) : list DigitalInvoice :=
  fold_left (fun acc x => insert_sorted x acc) l [].

(** [addInvoice(invoice)] *)
Definition addInvoice (invoice : DigitalInvoice) (s : BuwisFriend)
  : completion BuwisFriend :=
  let number := Invoice.invoiceNumber (metadata invoice) in
  match doesInvoiceExist (inr invoice) s with
  | Error m => Thrown m s
  | Value true =>
      Thrown ("Invoice " ++ number ++ " already exists in this session") s
  | Value false =>
      match getQuarterDateRange (quarter (session_metadata s))
                                (year (session_metadata s)) with
      | Error m => Thrown m s
      | Value range =>
          if outside_range (Date_getTime (timestamp invoice)) range then
            Thrown ("Invoice " ++ number
                    ++ " is not fileable for this period. This invoice is for "
                    ++ describe_period (timestamp invoice) ++ ".") s
          else
            Returned
              (refreshSummary
                 (with_invoices (sort_by_date (invoices s ++ [invoice])) s))
      end
  end.

(** The validation loop of [addInvoices]: [None] when it runs to its
    end, otherwise the message of the error thrown.  [seenInBatch] is
    the [Set] of the numbers met so far. *)
Fixpoint validate_batch (s : BuwisFriend) (range : Z * Z)
    (seenInBatch : gset string) (newInvoices : list DigitalInvoice)
  : option string :=
  match newInvoices with
  | [] => None
  | inv :: rest =>
      let invoiceNumber := Invoice.invoiceNumber (metadata inv) in
      if outside_range (Date_getTime (timestamp inv)) range then
        Some ("Invoice " ++ invoiceNumber ++ " is not fileable for this period")
      else if bool_decide (invoiceNumber ∈ seenInBatch) then
        Some ("Duplicate invoice number detected in batch: " ++ invoiceNumber)
      else
        match doesInvoiceExist (inr inv) s with
        | Error m => Some m
        | Value true =>
            Some ("Invoice " ++ invoiceNumber ++ " already exists in this session")
        | Value false =>
            validate_batch s range ({[ invoiceNumber ]} ∪ seenInBatch) rest
        end
  end.

(** [addInvoices(newInvoices)] *)
Definition addInvoices (newInvoices : list DigitalInvoice) (s : BuwisFriend)
  : completion BuwisFriend :=
  match newInvoices with
  | [] => Returned s
  | _ :: _ =>
      match getQuarterDateRange (quarter (session_metadata s))
                                (year (session_metadata s)) with
      | Error m => Thrown m s
      | Value range =>
          match validate_batch s range ∅ newInvoices with
          | Some m => Thrown m s
          | None =>
              Returned
                (refreshSummary
                   (with_invoices
                      (sort_by_date (invoices s ++ newInvoices)) s))
          end
      end
  end.

End BuwisFriend.

Arguments Build_BuwisFriend {SalesSummaryReport} _ _ _ _ _.
Arguments session_id {SalesSummaryReport} _.
Arguments session_metadata {SalesSummaryReport} _.
Arguments invoices {SalesSummaryReport} _.
Arguments summary {SalesSummaryReport} _.
Arguments session_timestamp {SalesSummaryReport} _.
Arguments with_invoices {SalesSummaryReport} _ _.
Arguments with_summary {SalesSummaryReport} _ _.
Arguments refreshSummary {SalesSummaryReport} _ _ _.
Arguments some_invoiceNumber {SalesSummaryReport} _ _.
Arguments doesInvoiceExist {SalesSummaryReport} _ _.
Arguments addInvoice _ _ {SalesSummaryReport} _ _ _ _.
Arguments validate_batch _ {SalesSummaryReport} _ _ _ _.
Arguments addInvoices _ {SalesSummaryReport} _ _ _ _.

End Session.

(* ===================================================================== *)
(** * The vocabulary of the specification                                 *)
(* ===================================================================== *)

(** Definitions that follow the words of the specification (section 4.2,
    steps 3, 5 and 6), against which the breakdown computed by the code is
    compared. *)
Module Spec.

Import Invoice Methods.
Local Open Scope Q_scope.

(** [r] is [x] rounded to two decimal places, half up: [r] is a whole
    number of hundredths, at most half a hundredth away from [x], and
    a tie goes to the larger candidate. *)
Definition rounds_half_up_2dp (x r : Q) : Prop :=
  (exists k : Z, r == inject_Z k / 100)
  /\ r - (1 # 200) <= x /\ x < r + (1 # 200).

(** The rates an invoice is configured with, as stored in its breakdown
    when [computeBreakdown] is entered. *)
Definition configured_vatRate (inv : DigitalInvoice) : Q :=
  vat_rate (vat (breakdown (order inv))).

Definition configured_ptRate (inv : DigitalInvoice) : Q :=
  pt_rate (percentageTax (breakdown (order inv))).

Definition configured_whtRate (inv : DigitalInvoice) : Q :=
  wht_rate (withholdingTax (breakdown (order inv))).

(** Step 3: the SC/PWD discount. *)
Definition scPwdDiscount (eligible isVAT isVATInclusive : bool)
    (netSales vatRate : Q) : Q :=
  if eligible then
    if isVAT && isVATInclusive then (netSales / (1 + vatRate)) * 0.20
    else netSales * 0.20
  else 0.

(** Step 5, not VAT-registered. *)
Record non_vat_amounts := {
  nv_withholdingTax : Q;
  nv_percentageTax : Q;
  nv_netReceivable : Q;
  nv_totalAmountDue : Q;
  nv_salesPT : Q
}.

Definition non_vat (netSales scPwdDiscount ptRate whtRate : Q)
  : non_vat_amounts :=
  let salesLessScPwd := netSales - scPwdDiscount in
  let withholdingTax := netSales * whtRate in
  let percentageTax := salesLessScPwd * ptRate in
  {| nv_withholdingTax := withholdingTax;
     nv_percentageTax := percentageTax;
     nv_netReceivable := netSales - withholdingTax - percentageTax;
     nv_totalAmountDue := netSales - withholdingTax;
     nv_salesPT :=
       if negb (Qle_bool scPwdDiscount 0) then salesLessScPwd else netSales |}.

(** A breakdown reports the amounts [a]: each field is the amount after
    the final rounding of step 6, and the VAT block is zeroed. *)
Definition reports_non_vat (a : non_vat_amounts) (b : InvoiceBreakdown) : Prop :=
  totalWithheldTax (withholdingTax b) == round (nv_withholdingTax a)
  /\ Invoice.totalPercentageTax (percentageTax b) == round (nv_percentageTax a)
  /\ netReceivable b == round (nv_netReceivable a)
  /\ totalAmountDue b == round (nv_totalAmountDue a)
  /\ salesPT b == round (nv_salesPT a)
  /\ vat_rate (vat b) == 0
  /\ Invoice.totalVAT (vat b) == 0
  /\ Invoice.salesVATable (vat b) == 0
  /\ Invoice.vatExemptSales (vat b) == 0
  /\ Invoice.vatZeroRatedSales (vat b) == 0
  /\ Invoice.totalSalesVATInclusive (vat b) == 0.

(** Step 5, VAT-registered, subtype STANDARD. *)
Record standard_vat_amounts := {
  sv_base : Q;
  sv_vatExemptSales : Q;
  sv_salesVATable : Q;
  sv_totalVAT : Q;
  sv_totalSalesVATInclusive : Q;
  sv_withholdingTax : Q;
  sv_netReceivable : Q;
  sv_totalAmountDue : Q
}.

Definition standard_vat (isVATInclusive : bool)
    (netSales scPwdDiscount vatRate whtRate : Q) : standard_vat_amounts :=
  let base :=
    if isVATInclusive then netSales / (1 + vatRate)
    else netSales - scPwdDiscount in
  let vatExemptSales := if isVATInclusive then scPwdDiscount else 0 in
  let salesVATable := if isVATInclusive then base - vatExemptSales else base in
  let totalVAT := salesVATable * vatRate in
  let totalSalesVATInclusive :=
    if isVATInclusive then netSales else salesVATable + totalVAT in
  let withholdingTax := base * whtRate in
  {| sv_base := base;
     sv_vatExemptSales := vatExemptSales;
     sv_salesVATable := salesVATable;
     sv_totalVAT := totalVAT;
     sv_totalSalesVATInclusive := totalSalesVATInclusive;
     sv_withholdingTax := withholdingTax;
     sv_netReceivable := base - withholdingTax;
     sv_totalAmountDue := totalSalesVATInclusive - withholdingTax |}.

Definition reports_standard_vat (a : standard_vat_amounts)
    (b : InvoiceBreakdown) : Prop :=
  Invoice.vatExemptSales (vat b) == round (sv_vatExemptSales a)
  /\ Invoice.salesVATable (vat b) == round (sv_salesVATable a)
  /\ Invoice.totalVAT (vat b) == round (sv_totalVAT a)
  /\ Invoice.totalSalesVATInclusive (vat b) == round (sv_totalSalesVATInclusive a)
  /\ totalWithheldTax (withholdingTax b) == round (sv_withholdingTax a)
  /\ netReceivable b == round (sv_netReceivable a)
  /\ totalAmountDue b == round (sv_totalAmountDue a)
  /\ salesPT b == 0
  /\ pt_rate (percentageTax b) == 0
  /\ Invoice.totalPercentageTax (percentageTax b) == 0.

(** The monetary output fields of a breakdown, in a fixed order. *)
Definition monetary_fields (b : InvoiceBreakdown) : list Q :=
  [ Invoice.totalSales b;
    scPWD (discount b); other (discount b); Invoice.totalDiscount (discount b);
    netReceivable b;
    totalWithheldTax (withholdingTax b);
    totalAmountDue b;
    salesPT b;
    exemptSales b;
    Invoice.totalVAT (vat b);
    Invoice.salesVATable (vat b);
    Invoice.vatExemptSales (vat b);
    Invoice.vatZeroRatedSales (vat b);
    Invoice.totalSalesVATInclusive (vat b);
    Invoice.totalPercentageTax (percentageTax b) ].

(** The unrounded quantities the algorithm arrives at for those fields,
    in the same order, for an invoice with at least one order line. *)
Definition exact_values (inv : DigitalInvoice) : list Q :=
  if negb (isVAT inv) then
    [ Breakdown.totalSales inv;
      discount_scPWD inv; discount_other inv; Breakdown.totalDiscount inv;
      netReceivableNonVAT inv;
      totalWithheldTaxNonVAT inv;
      totalAmountPayableNonVAT inv;
      (if negb (Qle_bool (discount_scPWD inv) 0)
       then salesLessScPwdDiscounts inv else netSales inv);
      0; 0; 0; 0; 0; 0;
      Breakdown.totalPercentageTax inv ]
  else
    [ Breakdown.totalSales inv;
      discount_scPWD inv; discount_other inv; Breakdown.totalDiscount inv;
      netReceivableVAT inv;
      totalWithheldTaxVAT inv;
      totalAmountDuePayable inv;
      0; 0;
      Breakdown.totalVAT (vat_switch inv);
      Breakdown.salesVATable (vat_switch inv);
      Breakdown.vatExemptSales (vat_switch inv);
      Breakdown.vatZeroRatedSales (vat_switch inv);
      Breakdown.totalSalesVATInclusive inv;
      0 ].

(** Section 4.3: the flat rule and the progressive table. *)
Definition flat_tax (income : Q) : Q :=
  if Qle_bool income 250000 then 0 else (income - 250000) * 0.08.

(** A row [(bound, (base, (floor, rate)))] reads: for an income of at
    most [bound], the tax is [base + (income - floor) * rate]. *)
Definition graduated_rows : list (Q * (Q * (Q * Q))) :=
  [ (250000,  (0,      (0,       0)));
    (400000,  (0,      (250000,  0.15)));
    (800000,  (22500,  (400000,  0.20)));
    (2000000, (102500, (800000,  0.25)));
    (8000000, (402500, (2000000, 0.30))) ].

Definition top_row : Q * (Q * Q) := (2202500, (8000000, 0.35)).

Definition row_tax (income : Q) (r : Q * (Q * Q)) : Q :=
  fst r + (income - fst (snd r)) * snd (snd r).

Fixpoint table_tax (rows : list (Q * (Q * (Q * Q)))) (income : Q) : Q :=
  match rows with
  | [] => row_tax income top_row
  | (bound, r) :: rest =>
      if Qle_bool income bound then row_tax income r
      else table_tax rest income
  end.

Definition graduated_tax : Q -> Q := table_tax graduated_rows.

(** The VAT-inclusive flag an invoice carries. *)
Definition vat_inclusive_flag (inv : DigitalInvoice) : bool :=
  Invoice.isVATInclusive (vat (breakdown (order inv))).

(** The breakdown of a STANDARD VAT invoice is the one step 5 prescribes
    for the VAT rate [vatRate]. *)
Definition claimed_standard_vat (vatRate : Q) (inv : DigitalInvoice) : Prop :=
  reports_standard_vat
    (standard_vat (Breakdown.isVATInclusive inv) (netSales inv)
       (discount_scPWD inv) vatRate (whtRate inv))
    (newBreakdown inv).

(** ** Insertions a session must reject *)

Definition number_of (inv : DigitalInvoice) : string :=
  invoiceNumber (metadata inv).

(** The invoice number is already held by the session. *)
Definition number_in_session {R : Type} (inv : DigitalInvoice)
    (s : Session.BuwisFriend R) : Prop :=
  exists held, In held (Session.invoices s) /\ number_of held = number_of inv.

(** The issue date falls outside [periodStart, periodEnd]. *)
Definition outside_period {R : Type} (getTime : string -> option Z)
    (inv : DigitalInvoice) (s : Session.BuwisFriend R) : Prop :=
  exists t periodStart periodEnd,
    getTime (timestamp inv) = Some t
    /\ Finance.getQuarterDateRange
         (Session.quarter (Session.session_metadata s))
         (Session.year (Session.session_metadata s))
       = Value (periodStart, periodEnd)
    /\ (t < periodStart \/ periodEnd < t)%Z.

Definition rejected {R : Type} (getTime : string -> option Z)
    (inv : DigitalInvoice) (s : Session.BuwisFriend R) : Prop :=
  number_in_session inv s \/ outside_period getTime inv s.

(** A batch holds an invoice the session rejects, or the same number
    twice. *)
Definition rejected_batch {R : Type} (getTime : string -> option Z)
    (batch : list DigitalInvoice) (s : Session.BuwisFriend R) : Prop :=
  (exists inv, In inv batch /\ rejected getTime inv s)
  \/ ~ NoDup (List.map number_of batch).

End Spec.

(* ===================================================================== *)
(** * Concrete invoices and sessions                                      *)
(* ===================================================================== *)

Module Examples.

Import Invoice Methods Finance Session.
Local Open Scope Q_scope.
Local Open Scope string_scope.

Definition clock : Clock :=
  {| Date_now := 1736899200123;
     Date_toISOString := "2025-01-15T00:00:00.123Z" |}.

(** One order line of the given amount. *)
Definition line (a : Q) : OrderMetadata :=
  {| label := "Consulting"; description := None; quantity := 1;
     unit := "job"; unitPrice := a; amount := a |}.

(** [DigitalInvoice.initialize(type).setListOrders([line(a)])]: the
    default rates are 12% VAT or 3% percentage tax, and 5% withholding. *)
Definition invoice_of (type : InvoiceVATType) (a : Q) : DigitalInvoice :=
  state_after (Returned (initialize clock type) >>> setListOrders [line a]).

(** A VAT invoice without order lines whose VAT rate was set to 10%. *)
Definition no_orders_custom_rate : DigitalInvoice :=
  set_vat_rate 0.10 (initialize clock VAT).

(** ... [.disableWithholdingTax()] *)
Definition vat_invoice_no_wht (a : Q) : DigitalInvoice :=
  state_after (Returned (invoice_of VAT a) >>> disableWithholdingTax).

(** The invoice on which [computeBreakdown] runs inside
    [non_vat_invoice.disablePercentageTax()]. *)
Definition pt_disabled : DigitalInvoice := set_pt_rate 0 (invoice_of NON_VAT 10000).

(** The invoice on which [computeBreakdown] runs inside
    [setRateVAT(0)], called on a VAT invoice of 11,200 without
    withholding. *)
Definition vat_rate_zero : DigitalInvoice := set_vat_rate 0 (vat_invoice_no_wht 11200).

(** A customer who showed an OSCA number, after which it was cleared. *)
Definition osca_given : DigitalInvoice :=
  state_after (Returned (invoice_of NON_VAT 1000) >>> setCustomerOSCAPWDNumber "SC-0001").

(** The invoice on which [computeBreakdown] runs inside
    [setCustomerOSCAPWDNumber] called with the empty string. *)
Definition osca_clearing : DigitalInvoice :=
  with_customer (with_oscaPWDNumber (Some EmptyString) (customer osca_given))
    osca_given.

Definition osca_cleared : DigitalInvoice :=
  state_after (Returned osca_given >>> setCustomerOSCAPWDNumber EmptyString).

(** An invoice created with an identifier of the caller's choosing. *)
Definition with_id (i : string) (inv : DigitalInvoice) : DigitalInvoice :=
  new_DigitalInvoice clock (Some i) (metadata inv) (customer inv)
    (issuer inv) (order inv) (payment inv) (Some (timestamp inv)).

Definition numbered_invoice : DigitalInvoice :=
  with_id "INV-2025-0001" (invoice_of NON_VAT 10000).

(** A VAT invoice with the given subtype and inclusivity, as the
    constructor receives it from stored data. *)
Definition with_subtype (t : VATSubType) (inclusive : bool)
    (inv : DigitalInvoice) : DigitalInvoice :=
  modify_breakdown
    (fun b =>
       with_vat
         {| vat_rate := vat_rate (vat b);
            Invoice.vatSubtype := Some t;
            Invoice.isVATInclusive := inclusive;
            Invoice.totalVAT := Invoice.totalVAT (vat b);
            Invoice.salesVATable := Invoice.salesVATable (vat b);
            Invoice.vatExemptSales := Invoice.vatExemptSales (vat b);
            Invoice.vatZeroRatedSales := Invoice.vatZeroRatedSales (vat b);
            Invoice.totalSalesVATInclusive :=
              Invoice.totalSalesVATInclusive (vat b) |} b)
    inv.

Definition exempt_exclusive : DigitalInvoice :=
  with_subtype EXEMPT false (invoice_of VAT 5000).

Definition standard_exclusive : DigitalInvoice :=
  with_subtype STANDARD false (invoice_of VAT 11200).

(** Other discount 101 on sales of 100, withholding at 0.5%: the net
    receivable is -0.965 before rounding. *)
Definition negative_tie : DigitalInvoice :=
  modify_breakdown
    (fun b =>
       {| Invoice.totalSales := Invoice.totalSales b;
          netReceivable := netReceivable b;
          discount := {| scPWD := 0; other := 101; Invoice.totalDiscount := 101 |};
          totalAmountDue := totalAmountDue b;
          salesPT := salesPT b;
          exemptSales := exemptSales b;
          vat := vat b;
          percentageTax := percentageTax b;
          withholdingTax := {| wht_rate := 0.005; totalWithheldTax := 0 |} |})
    (invoice_of NON_VAT 100).

(** ** A session for the first quarter of 2025 *)

Definition stamp_february : string := "2025-02-10T08:00:00.000Z".
Definition stamp_march : string := "2025-03-05T12:30:00.000Z".
Definition stamp_july : string := "2025-07-01T00:00:00.000Z".

(** [new Date(s).getTime()] on the three timestamps above; any other
    string is taken for an invalid date. *)
Definition getTime (s : string) : option Z :=
  if String.eqb s stamp_february then Some (Date_UTC 2025 2 10 8 0 0 0)
  else if String.eqb s stamp_march then Some (Date_UTC 2025 3 5 12 30 0 0)
  else if String.eqb s stamp_july then Some (Date_UTC 2025 7 1 0 0 0 0)
  else None.

Definition describe (s : string) : string :=
  if String.eqb s stamp_july then "2025 Q3" else "2025 Q1".

(** An invoice with the given number and timestamp. *)
Definition issued (number stamp : string) : DigitalInvoice :=
  let inv := invoice_of NON_VAT 10000 in
  {| id := "invoice-" ++ number;
     metadata :=
       {| formNumber := formNumber (metadata inv);
          invoiceNumber := number;
          series := series (metadata inv);
          rdo := rdo (metadata inv);
          type := type (metadata inv);
          category := category (metadata inv);
          companyLogo := None |};
     customer := customer inv; issuer := issuer inv; order := order inv;
     payment := payment inv; timestamp := stamp |}.

Definition session_metadata_2025_Q1 : BuwisFriendMetadata :=
  {| taxpayer := issuer (invoice_of NON_VAT 10000);
     year := 2025;
     quarter := Q1;
     userID := "user-1";
     taxSettings :=
       {| settings_vat := {| settings_vat_rate := 0.12; settings_vat_type := VAT |};
          settings_percentageTax := 0.3;
          incomeTaxType := IncomeTax.GRADUATED |} |}.

(** The summary is kept as the list of invoice numbers it was built
    from. *)
Definition summary_numbers (_ : BuwisFriendMetadata) (l : list DigitalInvoice)
  : list string :=
  List.map (fun inv => invoiceNumber (metadata inv)) l.

Definition session_with (l : list DigitalInvoice) : BuwisFriend (list string) :=
  {| session_id := "buwisfriend-user-1-1736899200";
     session_metadata := session_metadata_2025_Q1;
     invoices := l;
     summary := summary_numbers session_metadata_2025_Q1 l;
     session_timestamp := "2025-01-15T00:00:00.123Z" |}.

Definition session_one : BuwisFriend (list string) :=
  session_with [issued "A-001" stamp_february].

End Examples.

(* ===================================================================== *)
(** * Comparing breakdowns                                                *)
(* ===================================================================== *)

(** Two breakdowns that hold equal numbers field by field (equality of
    rationals) and the same flags. *)
Module Eqv.

Import Invoice Methods.
Local Open Scope Q_scope.

Definition discount_eqv (a b : InvoiceDiscount) : Prop :=
  scPWD a == scPWD b /\ other a == other b
  /\ Invoice.totalDiscount a == Invoice.totalDiscount b.

Definition vat_eqv (a b : VATMetadata) : Prop :=
  vat_rate a == vat_rate b
  /\ Invoice.vatSubtype a = Invoice.vatSubtype b
  /\ Invoice.isVATInclusive a = Invoice.isVATInclusive b
  /\ Invoice.totalVAT a == Invoice.totalVAT b
  /\ Invoice.salesVATable a == Invoice.salesVATable b
  /\ Invoice.vatExemptSales a == Invoice.vatExemptSales b
  /\ Invoice.vatZeroRatedSales a == Invoice.vatZeroRatedSales b
  /\ Invoice.totalSalesVATInclusive a == Invoice.totalSalesVATInclusive b.

Definition breakdown_eqv (a b : InvoiceBreakdown) : Prop :=
  Invoice.totalSales a == Invoice.totalSales b
  /\ netReceivable a == netReceivable b
  /\ discount_eqv (discount a) (discount b)
  /\ totalAmountDue a == totalAmountDue b
  /\ salesPT a == salesPT b
  /\ exemptSales a == exemptSales b
  /\ vat_eqv (vat a) (vat b)
  /\ (pt_rate (percentageTax a) == pt_rate (percentageTax b)
      /\ Invoice.totalPercentageTax (percentageTax a)
         == Invoice.totalPercentageTax (percentageTax b))
  /\ (wht_rate (withholdingTax a) == wht_rate (withholdingTax b)
      /\ totalWithheldTax (withholdingTax a) == totalWithheldTax (withholdingTax b)).

(** The branch [computeBreakdown] takes. *)
Inductive branch : Type := NoItems | NonVat | Vat.

Definition branch_of (inv : DigitalInvoice) : branch :=
  match orders (order inv) with
  | [] => NoItems
  | _ :: _ => if isVAT inv then Vat else NonVat
  end.

(** [n] calls of [computeBreakdown] in a row. *)
Fixpoint passes (n : nat) (inv : DigitalInvoice) : DigitalInvoice :=
  match n with
  | O => inv
  | S k => computeBreakdown (passes k inv)
  end.

(** A non-VAT invoice of 100.09 built, as the constructor allows, from an
    order object whose other discount of 0.004 has a third decimal. *)
Definition third_decimal_discount : DigitalInvoice :=
  modify_breakdown
    (fun b =>
       {| Invoice.totalSales := Invoice.totalSales b;
          netReceivable := netReceivable b;
          discount := {| scPWD := 0; other := 0.004;
                         Invoice.totalDiscount := 0.004 |};
          totalAmountDue := totalAmountDue b;
          salesPT := salesPT b; exemptSales := exemptSales b;
          vat := vat b; percentageTax := percentageTax b;
          withholdingTax := withholdingTax b |})
    (Examples.invoice_of NON_VAT 100.09).

End Eqv.

(* ===================================================================== *)
(** * Further setters of [DigitalInvoice]                                 *)
(* ===================================================================== *)

Module Setters.

Import Invoice Methods.
Local Open Scope Q_scope.
Local Open Scope string_scope.

(** [!input || typeof input !== 'string' || input.trim() === ...] with
    the empty string on the right, for a string [input]. *)
Definition is_blank (input : string) : bool :=
  negb (JS.truthy_string input) || negb (JS.truthy_string (JS.trim input)).

Definition with_metadata (m : BIRMetadata) (inv : DigitalInvoice)
  : DigitalInvoice :=
  {| id := id inv; metadata := m; customer := customer inv;
     issuer := issuer inv; order := order inv; payment := payment inv;
     timestamp := timestamp inv |}.

Definition with_issuer (i : LegalEntity) (inv : DigitalInvoice)
  : DigitalInvoice :=
  {| id := id inv; metadata := metadata inv; customer := customer inv;
     issuer := i; order := order inv; payment := payment inv;
     timestamp := timestamp inv |}.

Definition with_payment (p : PaymentInformation) (inv : DigitalInvoice)
  : DigitalInvoice :=
  {| id := id inv; metadata := metadata inv; customer := customer inv;
     issuer := issuer inv; order := order inv; payment := p;
     timestamp := timestamp inv |}.

Definition with_type (t : InvoiceVATType) (m : BIRMetadata) : BIRMetadata :=
  {| formNumber := formNumber m; invoiceNumber := invoiceNumber m;
     series := series m; rdo := rdo m; type := t; category := category m;
     companyLogo := companyLogo m |}.

(** ** The VAT type *)

(** [setInvoiceVATType(input)] for a member of the enum, all of whose
    values pass the guard on [input]. *)
Definition setInvoiceVATType (input : InvoiceVATType) (inv : DigitalInvoice)
  : completion DigitalInvoice :=
  let inv1 :=
    match input with
    | NON_VAT =>
        modify_breakdown
          (fun b =>
             with_vat
               {| vat_rate := 0;
                  Invoice.isVATInclusive := Invoice.isVATInclusive (vat b);
                  Invoice.vatSubtype := Some STANDARD;
                  Invoice.totalVAT := 0;
                  Invoice.salesVATable := 0;
                  Invoice.vatExemptSales := 0;
                  Invoice.vatZeroRatedSales := 0;
                  Invoice.totalSalesVATInclusive := 0 |} b)
          inv
    | VAT =>
        modify_breakdown
          (fun b =>
             with_percentageTax
               {| pt_rate := 0; Invoice.totalPercentageTax := 0 |} b)
          inv
    end in
  Returned (with_metadata (with_type input (metadata inv1)) inv1).

(** ** Payment *)

Definition with_method (m : InvoicePaymentMethod) (p : PaymentInformation)
  : PaymentInformation :=
  {| method := m; bank := bank p; check := check p;
     referenceNumber := referenceNumber p |}.

Definition with_bank (b : option BankInformation) (p : PaymentInformation)
  : PaymentInformation :=
  {| method := method p; bank := b; check := check p;
     referenceNumber := referenceNumber p |}.

Definition with_check (c : option CheckInformation) (p : PaymentInformation)
  : PaymentInformation :=
  {| method := method p; bank := bank p; check := c;
     referenceNumber := referenceNumber p |}.

Definition with_referenceNumber (r : option string) (p : PaymentInformation)
  : PaymentInformation :=
  {| method := method p; bank := bank p; check := check p;
     referenceNumber := r |}.

(** [setPaymentMethod(input)] for a member of the enum. *)
Definition setPaymentMethod (input : InvoicePaymentMethod)
    (inv : DigitalInvoice) : completion DigitalInvoice :=
  let p := payment inv in
  let p1 :=
    match input with
    | CASH => with_referenceNumber None (with_bank None (with_check None p))
    | BANK => with_check None p
    | CHECK => with_referenceNumber None (with_bank None p)
    | EWALLET => with_check None p
    end in
  Returned (with_payment (with_method input p1) inv).

(** The object that [this.payment.bank ??= ...] puts in place of a
    missing bank. *)
Definition placeholder_bank : BankInformation :=
  {| bank_name := "Bank ABC"; bank_accountNumber := "10000001";
     bank_branch := "Branch XYZ"; bank_code := "A0000Z";
     bank_address := "123 DEF City" |}.

(** The body shared by the five bank setters, which differ in the field
    they assign and in the word of their second message. *)
Definition set_bank_field (what : string)
    (assign : string -> BankInformation -> BankInformation)
    (input : string) (inv : DigitalInvoice) : completion DigitalInvoice :=
  let p := payment inv in
  match method p with
  | CASH =>
      Thrown "This payment method does not support bank information."
             (with_payment (with_bank None p) inv)
  | _ =>
      if is_blank input then
        Thrown (what ++ " must be a valid non-empty string.") inv
      else
        let b := match bank p with Some b => b | None => placeholder_bank end in
        Returned (with_payment (with_bank (Some (assign input b)) p) inv)
  end.

Definition setPaymentBankName : string -> DigitalInvoice -> completion DigitalInvoice :=
  set_bank_field "Bank Name"
    (fun s b =>
       {| bank_name := s; bank_accountNumber := bank_accountNumber b;
          bank_branch := bank_branch b; bank_code := bank_code b;
          bank_address := bank_address b |}).

Definition setPaymentBankAccountNumber : string -> DigitalInvoice -> completion DigitalInvoice :=
  set_bank_field "Bank Account Number"
    (fun s b =>
       {| bank_name := bank_name b; bank_accountNumber := s;
          bank_branch := bank_branch b; bank_code := bank_code b;
          bank_address := bank_address b |}).

Definition setPaymentBankBranch : string -> DigitalInvoice -> completion DigitalInvoice :=
  set_bank_field "Bank Branch"
    (fun s b =>
       {| bank_name := bank_name b; bank_accountNumber := bank_accountNumber b;
          bank_branch := s; bank_code := bank_code b;
          bank_address := bank_address b |}).

Definition setPaymentBankCode : string -> DigitalInvoice -> completion DigitalInvoice :=
  set_bank_field "Bank Code"
    (fun s b =>
       {| bank_name := bank_name b; bank_accountNumber := bank_accountNumber b;
          bank_branch := bank_branch b; bank_code := s;
          bank_address := bank_address b |}).

Definition setPaymentBankAddress : string -> DigitalInvoice -> completion DigitalInvoice :=
  set_bank_field "Bank Address"
    (fun s b =>
       {| bank_name := bank_name b; bank_accountNumber := bank_accountNumber b;
          bank_branch := bank_branch b; bank_code := bank_code b;
          bank_address := s |}).

(** The body shared by [setPaymentCheckNumber] and [setPaymentCheckDate];
    both word their second message with [Check Number]. *)
Definition set_check_field (clock : Clock)
    (assign : string -> CheckInformation -> CheckInformation)
    (input : string) (inv : DigitalInvoice) : completion DigitalInvoice :=
  let p := payment inv in
  match method p with
  | CASH =>
      Thrown "This payment method does not support check information."
             (with_payment (with_check None p) inv)
  | _ =>
      if is_blank input then
        Thrown "Check Number must be a valid non-empty string." inv
      else
        let c :=
          match check p with
          | Some c => c
          | None => {| check_number := "Bank ABC";
                       check_date := Date_toISOString clock |}
          end in
        Returned (with_payment (with_check (Some (assign input c)) p) inv)
  end.

Definition setPaymentCheckNumber (clock : Clock)
  : string -> DigitalInvoice -> completion DigitalInvoice :=
  set_check_field clock
    (fun s c => {| check_number := s; check_date := check_date c |}).

Definition setPaymentCheckDate (clock : Clock)
  : string -> DigitalInvoice -> completion DigitalInvoice :=
  set_check_field clock
    (fun s c => {| check_number := check_number c; check_date := s |}).

(** [setPaymentReferenceNumber(input)] *)
Definition setPaymentReferenceNumber (input : string) (inv : DigitalInvoice)
  : completion DigitalInvoice :=
  let p := payment inv in
  let cleared := with_payment (with_referenceNumber None p) inv in
  match method p with
  | EWALLET | BANK =>
      if is_blank input then
        Thrown "Reference Number must be a valid non-empty string." cleared
      else
        Returned (with_payment (with_referenceNumber (Some input) p) inv)
  | _ =>
      Thrown "This payment method does not support reference number." cleared
  end.

(** A call of one of the payment setters. *)
Inductive payment_call : Type :=
| SetMethod (m : InvoicePaymentMethod)
| SetBankName (s : string)
| SetBankAccountNumber (s : string)
| SetBankBranch (s : string)
| SetBankCode (s : string)
| SetBankAddress (s : string)
| SetCheckNumber (s : string)
| SetCheckDate (s : string)
| SetReferenceNumber (s : string).

Definition call_payment (clock : Clock) (c : payment_call)
  : DigitalInvoice -> completion DigitalInvoice :=
  match c with
  | SetMethod m => setPaymentMethod m
  | SetBankName s => setPaymentBankName s
  | SetBankAccountNumber s => setPaymentBankAccountNumber s
  | SetBankBranch s => setPaymentBankBranch s
  | SetBankCode s => setPaymentBankCode s
  | SetBankAddress s => setPaymentBankAddress s
  | SetCheckNumber s => setPaymentCheckNumber clock s
  | SetCheckDate s => setPaymentCheckDate clock s
  | SetReferenceNumber s => setPaymentReferenceNumber s
  end.

(** The payment details that [setPaymentMethod] leaves in place for each
    method: none for cash, no bank and no reference number for a check,
    no check for a bank transfer or an e-wallet. *)
Definition details_match_method (p : PaymentInformation) : Prop :=
  match method p with
  | CASH => bank p = None /\ check p = None /\ referenceNumber p = None
  | CHECK => bank p = None /\ referenceNumber p = None
  | BANK | EWALLET => check p = None
  end.

End Setters.

(* ===================================================================== *)
(** * Taxpayer information and validation                                 *)
(* ===================================================================== *)

Module Taxpayer.

Import Invoice Methods Setters.
Local Open Scope Q_scope.
Local Open Scope string_scope.

(** types-business.d.ts *)
Record TaxpayerInfo := {
  info_issuer : LegalEntity;
  info_metadata : BIRMetadata;
  tax_percentageTax : PercentageTaxMetadata;
  tax_vat : VATMetadata
}.

(** The four guards on the issuer that [loadTaxpayerInfo] and
    [exportTaxpayerInfo] have in common: the message of the first one
    that fails. *)
Definition check_issuer (i : LegalEntity) : option string :=
  if is_blank (name i) then
    Some "Taxpayer's name must be a valid non-empty string."
  else if negb (JS.truthy_string (tin i)) then
    Some "Taxpayer's TIN must be a valid registered number."
  else if is_blank (businessName i) then
    Some "Taxpayer's business name/style must be a valid non-empty string."
  else if is_blank (address i) then
    Some "Taxpayer's address must be a valid non-empty string."
  else None.

(** [loadTaxpayerInfo(input)] on an object of type [TaxpayerInfo]. *)
Definition loadTaxpayerInfo (input : TaxpayerInfo) (inv : DigitalInvoice)
  : completion DigitalInvoice :=
  match check_issuer (info_issuer input) with
  | Some m => Thrown m inv
  | None =>
      let inv1 :=
        match type (info_metadata input) with
        | VAT => set_vat_rate (vat_rate (tax_vat input)) inv
        | NON_VAT => set_pt_rate (pt_rate (tax_percentageTax input)) inv
        end in
      let m := metadata inv1 in
      let m1 :=
        {| formNumber := formNumber m; invoiceNumber := invoiceNumber m;
           series := series m; rdo := rdo (info_metadata input);
           type := type m; category := category (info_metadata input);
           companyLogo := companyLogo (info_metadata input) |} in
      Returned (with_issuer (info_issuer input) (with_metadata m1 inv1))
  end.

(** [exportTaxpayerInfo()] *)
Definition exportTaxpayerInfo (inv : DigitalInvoice) : result TaxpayerInfo :=
  match check_issuer (issuer inv) with
  | Some m => Error m
  | None =>
      Value {| info_issuer := issuer inv;
               info_metadata := metadata inv;
               tax_vat := vat (breakdown (order inv));
               tax_percentageTax := percentageTax (breakdown (order inv)) |}
  end.

(** ** [validateSelf] *)

Definition InvoiceVATType_value (t : InvoiceVATType) : string :=
  match t with NON_VAT => "Non-VAT" | VAT => "VAT" end.

Definition InvoicePaymentMethod_value (m : InvoicePaymentMethod) : string :=
  match m with
  | CASH => "Cash" | BANK => "Bank" | EWALLET => "E-Wallet" | CHECK => "Check"
  end.

Section Validate.

(** [Number.prototype.toString], left open: [validateSelf] only asks
    whether its result is blank. *)
Variable Number_toString : Q -> string.

Definition requiredFields (inv : DigitalInvoice) : list (string * string) :=
  [ (id inv, "ID");
    (formNumber (metadata inv), "Form Number");
    (rdo (metadata inv), "Revenue District Office Number");
    (invoiceNumber (metadata inv), "Invoice Number");
    (InvoiceVATType_value (type (metadata inv)), "Invoice Type");
    (name (customer inv), "Customer's Name");
    (address (customer inv), "Customer's Address");
    (businessName (customer inv), "Customer's Business Name");
    (tin (customer inv), "Customer's Registered TIN");
    (name (customer inv), "Taxpayer's Name");
    (address (customer inv), "Taxpayer's Address");
    (businessName (customer inv), "Taxpayer's Business Name");
    (tin (customer inv), "Taxpayer's Registered TIN");
    (currency (order inv), "Currency");
    (Number_toString (totalAmountDue (breakdown (order inv))), "Total Amount Due");
    (Number_toString (Invoice.totalSales (breakdown (order inv))), "Total Sales");
    (InvoicePaymentMethod_value (method (payment inv)), "Payment Method") ].

(** The [for] loop: the name of the first entry whose field is blank. *)
Fixpoint first_missing (fields : list (string * string)) : option string :=
  match fields with
  | [] => None
  | (field, name) :: rest =>
      if is_blank field then Some name else first_missing rest
  end.

(** [validateSelf(throwError)] *)
Definition validateSelf (throwError : bool) (inv : DigitalInvoice)
  : result bool :=
  match first_missing (requiredFields inv) with
  | Some name =>
      if throwError then
        Error ("Validation failed: Missing or invalid property - " ++ name)
      else Value false
  | None => Value true
  end.

End Validate.

End Taxpayer.

(* ===================================================================== *)
(** * Further methods of [BuwisFriend]                                    *)
(* ===================================================================== *)

Module SessionOps.

Import Invoice Methods Finance Session Setters.
Local Open Scope Z_scope.
Local Open Scope string_scope.

Definition with_quarter (q : QuarterPeriod) (m : BuwisFriendMetadata)
  : BuwisFriendMetadata :=
  {| taxpayer := taxpayer m; year := year m; quarter := q;
     userID := userID m; taxSettings := taxSettings m |}.

Definition with_year (y : Z) (m : BuwisFriendMetadata) : BuwisFriendMetadata :=
  {| taxpayer := taxpayer m; year := y; quarter := quarter m;
     userID := userID m; taxSettings := taxSettings m |}.

(** [inv.metadata.invoiceNumber] *)
Definition number (inv : DigitalInvoice) : string :=
  Invoice.invoiceNumber (metadata inv).

(** [invoiceDate >= startDate && invoiceDate <= endDate]; both
    comparisons are false for an invalid date. *)
Definition inside_range (issued : option Z) (range : Z * Z) : bool :=
  match issued with
  | None => false
  | Some t => (fst range <=? t)%Z && (t <=? snd range)%Z
  end.

(** [this.invoices.findIndex(...)] followed by [splice(index, 1)]:
    the list without the first invoice of that number, [None] when
    [findIndex] answers [-1]. *)
Fixpoint remove_first (invoiceNumber : string) (l : list DigitalInvoice)
  : option (list DigitalInvoice) :=
  match l with
  | [] => None
  | inv :: rest =>
      if String.eqb (Invoice.invoiceNumber (metadata inv)) invoiceNumber
      then Some rest
      else option_map (cons inv) (remove_first invoiceNumber rest)
  end.

Section BuwisFriend.

Variable Date_getTime : string -> option Z.
Variable describe_period : string -> string.
Variable SalesSummaryReport : Type.
Variable summary_clearInvoices : SalesSummaryReport -> SalesSummaryReport.
Variable summary_of_invoices :
  BuwisFriendMetadata -> list DigitalInvoice -> SalesSummaryReport.

(** [this.summary.metadata.quarter] *)
Variable summary_quarter : SalesSummaryReport -> QuarterPeriod.

Local Abbreviation BuwisFriend := (Session.BuwisFriend SalesSummaryReport).
Local Abbreviation refreshSummary :=
  (Session.refreshSummary summary_clearInvoices summary_of_invoices).

Definition with_session_metadata (m : BuwisFriendMetadata) (s : BuwisFriend)
  : BuwisFriend :=
  {| session_id := session_id s; session_metadata := m;
     invoices := invoices s; summary := summary s;
     session_timestamp := session_timestamp s |}.

(** [setQuarter(quarter)] for a member of the enum. *)
Definition setQuarter (quarter : QuarterPeriod) (s : BuwisFriend)
  : completion BuwisFriend :=
  Returned
    (refreshSummary
       (with_session_metadata (with_quarter quarter (session_metadata s)) s)).

(** [setYear(year)] *)
Definition setYear (year : Z) (s : BuwisFriend) : completion BuwisFriend :=
  if (year <? 1800)%Z || (3000 <? year)%Z then
    Thrown ("Invalid year: " ++ Z_toString year
            ++ ". Year must be between 1800 and 3000.") s
  else
    Returned
      (refreshSummary
         (with_session_metadata (with_year year (session_metadata s)) s)).

(** The validation loop of [updateInvoices]: [None] when it runs to its
    end, otherwise the message of the error thrown. *)
Fixpoint validate_update (range : Z * Z) (seen : gset string)
    (newInvoices : list DigitalInvoice) : option string :=
  match newInvoices with
  | [] => None
  | inv :: rest =>
      let invoiceNumber := Invoice.invoiceNumber (metadata inv) in
      if outside_range (Date_getTime (timestamp inv)) range then
        Some ("Invoice " ++ invoiceNumber
              ++ " is not fileable for this period. This invoice is for "
              ++ describe_period (timestamp inv) ++ ".")
      else if bool_decide (invoiceNumber ∈ seen) then
        Some ("Duplicate invoice number detected: " ++ invoiceNumber)
      else validate_update range ({[ invoiceNumber ]} ∪ seen) rest
  end.

(** [updateInvoices(newInvoices)] *)
Definition updateInvoices (newInvoices : list DigitalInvoice) (s : BuwisFriend)
  : completion BuwisFriend :=
  match newInvoices with
  | [] => Returned s
  | _ :: _ =>
      match getQuarterDateRange (quarter (session_metadata s))
                                (year (session_metadata s)) with
      | Error m => Thrown m s
      | Value range =>
          match validate_update range ∅ newInvoices with
          | Some m => Thrown m s
          | None =>
              Returned
                (refreshSummary
                   (with_invoices (sort_by_date Date_getTime newInvoices) s))
          end
      end
  end.

(** [clearInvoices()] *)
Definition clearInvoices (s : BuwisFriend) : completion BuwisFriend :=
  Returned (refreshSummary (with_invoices [] s)).

(** [removeInvoiceByNumber(invoiceNumber)] *)
Definition removeInvoiceByNumber (invoiceNumber : string) (s : BuwisFriend)
  : completion BuwisFriend :=
  if is_blank invoiceNumber then
    Thrown "invoiceNumber must be a non-empty string." s
  else
    match invoices s with
    | [] => Thrown "No invoices in the session to remove." s
    | _ :: _ =>
        match remove_first invoiceNumber (invoices s) with
        | None =>
            Thrown ("Invoice " ++ invoiceNumber
                    ++ " not found in this session.") s
        | Some l => Returned (refreshSummary (with_invoices l s))
        end
    end.

(** [getInvoicesFromQuarter(quarter?)]; [None] is the call without
    argument. *)
Definition getInvoicesFromQuarter (quarter : option QuarterPeriod)
    (s : BuwisFriend) : result (list DigitalInvoice) :=
  let targetQuarter :=
    match quarter with
    | Some q => q
    | None => summary_quarter (summary s)
    end in
  match getQuarterDateRange targetQuarter (year (session_metadata s)) with
  | Error m => Error m
  | Value range =>
      Value (filter
               (fun invoice =>
                  inside_range (Date_getTime (timestamp invoice)) range)
               (invoices s))
  end.

(** A call of one of the methods that write the session. *)
Inductive session_call : Type :=
| AddInvoice (invoice : DigitalInvoice)
| AddInvoices (newInvoices : list DigitalInvoice)
| UpdateInvoices (newInvoices : list DigitalInvoice)
| ClearInvoices
| RemoveInvoiceByNumber (invoiceNumber : string)
| SetQuarter (quarter : QuarterPeriod)
| SetYear (year : Z).

Definition call_session (c : session_call) : BuwisFriend -> completion BuwisFriend :=
  match c with
  | AddInvoice invoice =>
      addInvoice Date_getTime describe_period summary_clearInvoices
        summary_of_invoices invoice
  | AddInvoices newInvoices =>
      addInvoices Date_getTime summary_clearInvoices summary_of_invoices
        newInvoices
  | UpdateInvoices newInvoices => updateInvoices newInvoices
  | ClearInvoices => clearInvoices
  | RemoveInvoiceByNumber invoiceNumber => removeInvoiceByNumber invoiceNumber
  | SetQuarter quarter => setQuarter quarter
  | SetYear year => setYear year
  end.

(** A call that leaves the filing period alone. *)
Definition keeps_period (c : session_call) : bool :=
  match c with SetQuarter _ | SetYear _ => false | _ => true end.

(** No two invoices of the session have the same number. *)
Definition unique_numbers (s : BuwisFriend) : Prop :=
  NoDup (List.map number (invoices s)).

(** No invoice of the session is dated outside its filing period. *)
Definition all_in_period (s : BuwisFriend) : Prop :=
  exists range,
    getQuarterDateRange (quarter (session_metadata s))
                        (year (session_metadata s)) = Value range
    /\ Forall (fun inv =>
                 outside_range (Date_getTime (timestamp inv)) range = false)
              (invoices s).

(** The time of an invoice with a valid date. *)
Definition time_of (inv : DigitalInvoice) : Z :=
  default 0 (Date_getTime (timestamp inv)).

Definition dated (inv : DigitalInvoice) : Prop :=
  is_Some (Date_getTime (timestamp inv)).

(** [a] is not dated after [b]. *)
Definition not_after (a b : DigitalInvoice) : Prop :=
  (time_of a <= time_of b)%Z.

End BuwisFriend.

Arguments with_session_metadata {SalesSummaryReport} _ _.
Arguments setQuarter {SalesSummaryReport} _ _ _ _.
Arguments setYear {SalesSummaryReport} _ _ _ _.
Arguments updateInvoices _ _ {SalesSummaryReport} _ _ _ _.
Arguments clearInvoices {SalesSummaryReport} _ _ _.
Arguments removeInvoiceByNumber {SalesSummaryReport} _ _ _ _.
Arguments getInvoicesFromQuarter _ {SalesSummaryReport} _ _ _.
Arguments call_session _ _ {SalesSummaryReport} _ _ _ _.
Arguments unique_numbers {SalesSummaryReport} _.
Arguments all_in_period _ {SalesSummaryReport} _.

End SessionOps.

(* ===================================================================== *)
(** * [computeBreakdown] on binary64 numbers                              *)
(* ===================================================================== *)

(** The program computes on JavaScript Numbers, that is on IEEE 754
    binary64 values, and not on the rationals of the model above.  This
    module is [computeBreakdown] once more, on the primitive binary64
    numbers of the kernel, whose [+ - * /] round to nearest, ties to
    even, as those of a JavaScript engine do: where a result depends on
    the rounding error of a product or a quotient, this is the place to
    evaluate it. *)
Module Binary64.

Import PrimFloat SpecFloat FloatOps.
Local Open Scope float_scope.

(** The Number of a whole number [z], exact when [|z| < 2^53]. *)
Definition of_Z (z : Z) : float :=
  match z with
  | Z0 => 0
  | Zpos _ => of_uint63 (Uint63.of_Z z)
  | Zneg p => - of_uint63 (Uint63.of_Z (Zpos p))
  end.

(** The Number that the decimal literal of [q] denotes: the binary64
    value nearest to [q], obtained as the correctly rounded quotient of
    numerator and denominator (both exact below [2^53]). *)
Definition number (q : Q) : float := of_Z (Qnum q) / of_Z (Zpos (Qden q)).

(** The rational that a finite Number is, exactly. *)
Definition value (x : float) : Q :=
  match Prim2SF x with
  | S754_finite s m e =>
      let n := if s then Zneg m else Zpos m in
      if (0 <=? e)%Z then inject_Z (n * 2 ^ e)
      else Qmake n (Z.to_pos (2 ^ (- e)))
  | _ => 0%Q
  end.

(** [x || d] on Numbers: [0], [-0] and [NaN] are falsy. *)
Definition num_or (x d : float) : float :=
  if is_zero x || is_nan x then d else x.

(** [Math.round(x)]: the integer nearest to [x], a tie going to the
    larger one; [-0] for [-0.5 <= x < 0]; [x] itself when it is an
    integer, an infinity or [NaN].  The integer is computed on the exact
    value of [x], [m / 2^(-e)] up to sign, as [floor (x + 1/2)]. *)
Definition Math_round (x : float) : float :=
  match Prim2SF x with
  | S754_finite s m e =>
      if (0 <=? e)%Z then x
      else
        let d := (2 ^ (- e))%Z in
        let n := (((if s then Zneg m else Zpos m) * 2 + d) / (2 * d))%Z in
        if (n =? 0)%Z then (if s then -0 else 0) else of_Z n
  | _ => x
  end.

(** [const round = (num) => Math.round(num * 100) / 100] *)
Definition round (num : float) : float := Math_round (num * 100) / 100.

(** What [computeBreakdown] reads of [this]: the type, the eligibility
    of the customer, the amounts of the order lines, and the flags,
    discounts and rates of the stored breakdown. *)
Record State := {
  type : Invoice.InvoiceVATType;
  eligible : bool;
  amounts : list float;
  isVATInclusive : bool;
  vatSubtype : option Invoice.VATSubType;
  discount_scPWD : float;
  discount_other : float;
  vat_rate : float;
  pt_rate : float;
  wht_rate : float
}.

(** The numbers of the breakdown that [computeBreakdown] assigns. *)
Record Reported := {
  totalSales : float;
  scPWD : float;
  other : float;
  totalDiscount : float;
  netReceivable : float;
  totalWithheldTax : float;
  totalAmountDue : float;
  salesPT : float;
  exemptSales : float;
  totalVAT : float;
  salesVATable : float;
  vatExemptSales : float;
  vatZeroRatedSales : float;
  totalSalesVATInclusive : float;
  totalPercentageTax : float
}.

Definition defaultSCPWDDiscount : float := number Invoice.defaultSCPWDDiscount.

(** [private computeBreakdown(): void] *)
Definition computeBreakdown (this : State) : Reported :=
  let isVAT :=
    match type this with Invoice.VAT => true | Invoice.NON_VAT => false end in
  match amounts this with
  | [] =>
      {| totalSales := 0; scPWD := 0; other := 0; totalDiscount := 0;
         netReceivable := 0; totalWithheldTax := 0; totalAmountDue := 0;
         salesPT := 0; exemptSales := 0; totalVAT := 0; salesVATable := 0;
         vatExemptSales := 0; vatZeroRatedSales := 0;
         totalSalesVATInclusive := 0; totalPercentageTax := 0 |}
  | _ :: _ =>
      let totalSales := fold_left (fun acc amount => acc + amount) (amounts this) 0 in
      let otherDiscounts := discount_other this in
      let netSales := totalSales - otherDiscounts in
      let vatRate :=
        if isVAT
        then num_or (vat_rate this)
                    (number (Invoice.default_vat Invoice.defaultTaxRates))
        else 0 in
      let vatMultiplier := 1 + vatRate in
      let vatSubtype :=
        match vatSubtype this with
        | Some t => t
        | None => Invoice.STANDARD
        end in
      let discount_scPWD :=
        if eligible this then
          if isVAT && isVATInclusive this then
            let baseAmount := netSales / (1 + vatRate) in
            baseAmount * defaultSCPWDDiscount
          else netSales * defaultSCPWDDiscount
        else discount_scPWD this in
      let totalDiscount := discount_scPWD + discount_other this in
      let salesLessScPwdDiscounts := netSales - discount_scPWD in
      let whtRate := num_or (wht_rate this) 0 in
      let totalWithheldTaxNonVAT := netSales * whtRate in
      let ptRate :=
        num_or (pt_rate this)
               (number (Invoice.default_percentageTax Invoice.defaultTaxRates)) in
      let totalPercentageTax := salesLessScPwdDiscounts * ptRate in
      let netReceivableNonVAT :=
        netSales - totalWithheldTaxNonVAT - totalPercentageTax in
      let totalAmountPayableNonVAT := netSales - totalWithheldTaxNonVAT in
      if negb isVAT then
        {| totalSales := round totalSales;
           scPWD := round discount_scPWD;
           other := round (discount_other this);
           totalDiscount := round totalDiscount;
           netReceivable := round netReceivableNonVAT;
           totalWithheldTax := round totalWithheldTaxNonVAT;
           totalAmountDue := round totalAmountPayableNonVAT;
           salesPT :=
             if 0 <? discount_scPWD
             then round salesLessScPwdDiscounts else round netSales;
           exemptSales := 0;
           totalVAT := 0; salesVATable := 0; vatExemptSales := 0;
           vatZeroRatedSales := 0; totalSalesVATInclusive := 0;
           totalPercentageTax := round totalPercentageTax |}
      else
        let scPWDDiscount := num_or discount_scPWD 0 in
        let '(salesVATable, vatExemptSales, vatZeroRatedSales, totalVAT,
              baseAmount) :=
          match vatSubtype with
          | Invoice.EXEMPT => (0, netSales, 0, 0, 0)
          | Invoice.ZERO_RATED => (0, 0, netSales, 0, 0)
          | Invoice.STANDARD =>
              if isVATInclusive this then
                let baseAmount := netSales / vatMultiplier in
                let vatExemptSales := scPWDDiscount in
                let salesVATable := baseAmount - vatExemptSales in
                let totalVAT := salesVATable * vatRate in
                (salesVATable, vatExemptSales, 0, totalVAT, baseAmount)
              else
                let baseAmount := netSales - scPWDDiscount in
                let salesVATable := baseAmount in
                let totalVAT := salesVATable * vatRate in
                (salesVATable, 0, 0, totalVAT, baseAmount)
          end in
        let totalSalesVATInclusive :=
          if isVATInclusive this then netSales else salesVATable + totalVAT in
        let totalWithheldTaxVAT := baseAmount * whtRate in
        let netReceivableVAT := baseAmount - totalWithheldTaxVAT in
        let totalAmountDuePayable := totalSalesVATInclusive - totalWithheldTaxVAT in
        {| totalSales := round totalSales;
           scPWD := round discount_scPWD;
           other := round (discount_other this);
           totalDiscount := round totalDiscount;
           netReceivable := round netReceivableVAT;
           totalWithheldTax := round totalWithheldTaxVAT;
           totalAmountDue := round totalAmountDuePayable;
           salesPT := 0;
           exemptSales := 0;
           totalVAT := round totalVAT;
           salesVATable := round salesVATable;
           vatExemptSales := round vatExemptSales;
           vatZeroRatedSales := round vatZeroRatedSales;
           totalSalesVATInclusive := round totalSalesVATInclusive;
           totalPercentageTax := 0 |}
  end.

(** The invoice as the program holds it when each of its numbers was
    written as the decimal literal of the rational in [inv]. *)
Definition of_invoice (inv : Invoice.DigitalInvoice) : State :=
  let b := Invoice.breakdown (Invoice.order inv) in
  {| type := Invoice.type (Invoice.metadata inv);
     eligible := Breakdown.isEligibleForScPwdDiscount inv;
     amounts :=
       List.map (fun item => number (Invoice.amount item))
                (Invoice.orders (Invoice.order inv));
     isVATInclusive := Invoice.isVATInclusive (Invoice.vat b);
     vatSubtype := Invoice.vatSubtype (Invoice.vat b);
     discount_scPWD := number (Invoice.scPWD (Invoice.discount b));
     discount_other := number (Invoice.other (Invoice.discount b));
     vat_rate := number (Invoice.vat_rate (Invoice.vat b));
     pt_rate := number (Invoice.pt_rate (Invoice.percentageTax b));
     wht_rate := number (Invoice.wht_rate (Invoice.withholdingTax b)) |}.

(** [DigitalInvoice.initialize(InvoiceVATType.VAT)] at the moment
    [setListOrders] calls [computeBreakdown] on one order line of
    140.14: VAT-inclusive, Standard, 12% VAT, 5% withholding, no
    discount. *)
Definition vat_inclusive_140_14 : Invoice.DigitalInvoice :=
  Invoice.with_orders [Examples.line 140.14]
    (Methods.initialize Examples.clock Invoice.VAT).

End Binary64.

(* ===================================================================== *)
(** * Properties                                                          *)
(* ===================================================================== *)

Import Invoice Methods Finance Session.
Local Open Scope Q_scope.
Local Open Scope string_scope.

(** ** The fallback operator and the rounding helper *)

Lemma num_or_zero (x : Q) : JS.num_or x 0 == x.
Proof.
  unfold JS.num_or. destruct (Qeq_bool x 0) eqn:E; [| reflexivity].
  apply Qeq_bool_iff in E. symmetry. exact E.
Qed.

Lemma num_or_nonzero (x d : Q) : ~ x == 0 -> JS.num_or x d = x.
Proof.
  intros H. unfold JS.num_or. destruct (Qeq_bool x 0) eqn:E; [| reflexivity].
  apply Qeq_bool_iff in E. contradiction.
Qed.

Lemma num_or_is_zero (x d : Q) : x == 0 -> JS.num_or x d = d.
Proof.
  intros H. unfold JS.num_or. apply Qeq_bool_iff in H. now rewrite H.
Qed.

#[local] Instance round_proper : Proper (Qeq ==> Qeq) round.
Proof.
  intros x y H. unfold round, JS.Math_round.
  assert (E : Qfloor (x * 100 + (1 # 2)) = Qfloor (y * 100 + (1 # 2))).
  { apply Qfloor_comp. rewrite H. reflexivity. }
  rewrite E. reflexivity.
Qed.

(** Evaluated exactly, [round] rounds half up to two decimal
    places ... *)
Lemma round_half_up (x : Q) : Spec.rounds_half_up_2dp x (round x).
Proof.
  unfold Spec.rounds_half_up_2dp, round, JS.Math_round.
  set (y := x * 100 + (1 # 2)).
  pose proof (Qfloor_le y) as Hle.
  pose proof (Qlt_floor y) as Hlt.
  rewrite inject_Z_plus in Hlt. change (inject_Z 1) with 1 in Hlt.
  set (f := inject_Z (Qfloor y)) in *.
  split; [exists (Qfloor y); reflexivity |].
  assert (Hd : f / 100 == f * (1 # 100)) by field.
  rewrite Hd. subst y. clearbody f. split; lra.
Qed.

(** ... and is the only function that does. *)
Lemma round_unique (x r : Q) : Spec.rounds_half_up_2dp x r -> r == round x.
Proof.
  intros [[k Hk] [H1 H2]].
  unfold round, JS.Math_round.
  assert (Hf : Qfloor (x * 100 + (1 # 2)) = k).
  { assert (Hr : r == inject_Z k * (1 # 100)) by (rewrite Hk; field).
    pose proof (Qfloor_le (x * 100 + (1 # 2))) as Hle.
    pose proof (Qlt_floor (x * 100 + (1 # 2))) as Hlt.
    set (m := Qfloor (x * 100 + (1 # 2))) in *.
    rewrite inject_Z_plus in Hlt. change (inject_Z 1) with 1 in Hlt.
    clearbody m.
    assert (Hkm : inject_Z k < inject_Z (m + 1))
      by (rewrite inject_Z_plus; change (inject_Z 1) with 1; lra).
    assert (Hmk : inject_Z m < inject_Z (k + 1))
      by (rewrite inject_Z_plus; change (inject_Z 1) with 1; lra).
    rewrite <- Zlt_Qlt in Hkm, Hmk. lia. }
  rewrite Hf. exact Hk.
Qed.

Lemma rounds_zero : Spec.rounds_half_up_2dp 0 0.
Proof.
  split; [exists 0%Z; reflexivity | split; [discriminate | reflexivity]].
Qed.

(** A tie below zero goes up, towards zero: -0.965 becomes -0.96. *)
Example round_negative_tie : round (- 0.965) == - 0.96 /\ round 0.965 == 0.97.
Proof. split; reflexivity. Qed.

Lemma round_zero_times (w : Q) : round (0 * w) == 0.
Proof.
  assert (E : 0 * w == 0) by ring. rewrite E. reflexivity.
Qed.

Lemma round_zero_minus_times (w : Q) : round (0 - 0 * w) == 0.
Proof.
  assert (E : 0 - 0 * w == 0) by ring. rewrite E. reflexivity.
Qed.

(** ** The three branches of [computeBreakdown] *)

Lemma newBreakdown_no_items (inv : DigitalInvoice) :
  orders (order inv) = [] -> newBreakdown inv = breakdown_no_items inv.
Proof. intros H. unfold newBreakdown. now rewrite H. Qed.

Lemma newBreakdown_non_vat (inv : DigitalInvoice) :
  type (metadata inv) = NON_VAT -> orders (order inv) <> [] ->
  newBreakdown inv = breakdown_non_vat inv.
Proof.
  intros Ht Ho. unfold newBreakdown, isVAT. rewrite Ht.
  destruct (orders (order inv)); [contradiction | reflexivity].
Qed.

Lemma newBreakdown_vat (inv : DigitalInvoice) :
  type (metadata inv) = VAT -> orders (order inv) <> [] ->
  newBreakdown inv = breakdown_vat inv.
Proof.
  intros Ht Ho. unfold newBreakdown, isVAT. rewrite Ht.
  destruct (orders (order inv)); [contradiction | reflexivity].
Qed.

Lemma computeBreakdown_keeps_flag (inv : DigitalInvoice) :
  Spec.vat_inclusive_flag (computeBreakdown inv) = Spec.vat_inclusive_flag inv.
Proof.
  unfold Spec.vat_inclusive_flag, computeBreakdown, newBreakdown. cbn.
  destruct (orders (order inv)); [reflexivity |].
  destruct (negb (isVAT inv)); reflexivity.
Qed.

(** ** No order lines *)

(** C5.  With no order line, every monetary field of the recomputed
    breakdown is zero; the rate of the inactive tax block is zero and the
    rate of the active one is the default for the registration (12% VAT
    for a VAT invoice, 3% percentage tax otherwise); nothing is thrown. *)
Theorem no_order_lines_zero_breakdown (inv : DigitalInvoice) :
  orders (order inv) = [] ->
  let b := newBreakdown inv in
  Forall (fun x => x = 0) (Spec.monetary_fields b)
  /\ (type (metadata inv) = VAT ->
      vat_rate (vat b) = default_vat defaultTaxRates
      /\ pt_rate (percentageTax b) = 0)
  /\ (type (metadata inv) = NON_VAT ->
      vat_rate (vat b) = 0
      /\ pt_rate (percentageTax b) = default_percentageTax defaultTaxRates)
  /\ clearListOrders inv = Returned (computeBreakdown (with_orders [] inv))
  /\ throws (clearListOrders inv) = false
  /\ breakdown (order (computeBreakdown inv)) = b.
Proof.
  intros Ho b. subst b. rewrite (newBreakdown_no_items inv Ho).
  split; [| split; [| split; [| split; [| split]]]].
  - unfold Spec.monetary_fields, breakdown_no_items. cbn.
    repeat constructor.
  - intros Ht. unfold breakdown_no_items, isVAT. cbn. now rewrite Ht.
  - intros Ht. unfold breakdown_no_items, isVAT. cbn. now rewrite Ht.
  - reflexivity.
  - reflexivity.
  - unfold computeBreakdown. cbn. now rewrite (newBreakdown_no_items inv Ho).
Qed.

(** A VAT invoice without order lines and with a stored VAT rate of 10%:
    the rate becomes the default 12%. *)
Lemma no_order_lines_zero_breakdown_witness :
  let inv := Examples.no_orders_custom_rate in
  let b := newBreakdown inv in
  (orders (order inv) = [] /\ Spec.configured_vatRate inv == 0.10)
  /\ Forall (fun x => x = 0) (Spec.monetary_fields b)
  /\ vat_rate (vat b) = 0.12 /\ pt_rate (percentageTax b) = 0.
Proof.
  cbv zeta.
  destruct (no_order_lines_zero_breakdown Examples.no_orders_custom_rate eq_refl)
    as (H0 & Hv & _).
  split; [split; reflexivity | split; [exact H0 | exact (Hv eq_refl)]].
Defined.

(** ** Not VAT-registered *)

(** The percentage-tax path with the rates [computeBreakdown] works with:
    the stored withholding rate, and the stored percentage-tax rate when
    it is not zero. *)
Lemma non_vat_breakdown (inv : DigitalInvoice) :
  type (metadata inv) = NON_VAT ->
  orders (order inv) <> [] ->
  Spec.reports_non_vat
    (Spec.non_vat (netSales inv) (discount_scPWD inv) (ptRate inv) (whtRate inv))
    (newBreakdown inv)
  /\ netSales inv
     == Breakdown.totalSales inv - other (discount (breakdown (order inv)))
  /\ whtRate inv == Spec.configured_whtRate inv
  /\ (~ Spec.configured_ptRate inv == 0 -> ptRate inv = Spec.configured_ptRate inv)
  /\ (Spec.configured_ptRate inv == 0 ->
      ptRate inv = default_percentageTax defaultTaxRates).
Proof.
  intros Ht Ho. rewrite (newBreakdown_non_vat inv Ht Ho).
  split; [| split; [reflexivity | split; [apply num_or_zero | split]]].
  - unfold Spec.reports_non_vat, Spec.non_vat, breakdown_non_vat. cbn.
    repeat split; try reflexivity.
    destruct (negb (Qle_bool (discount_scPWD inv) 0)); reflexivity.
  - apply num_or_nonzero.
  - apply num_or_is_zero.
Qed.

(** The example of the specification: sales of 10,000, no discount,
    percentage tax 3%, withholding 5%. *)
Lemma non_vat_breakdown_example :
  let inv := Examples.invoice_of NON_VAT 10000 in
  let b := newBreakdown inv in
  (Spec.configured_ptRate inv == 0.03 /\ Spec.configured_whtRate inv == 0.05)
  /\ Spec.reports_non_vat
       (Spec.non_vat (netSales inv) (discount_scPWD inv) (ptRate inv) (whtRate inv))
       b
  /\ (Invoice.totalPercentageTax (percentageTax b) == 300
      /\ totalWithheldTax (withholdingTax b) == 500
      /\ netReceivable b == 9200
      /\ totalAmountDue b == 9500).
Proof.
  cbv zeta.
  assert (Ho : orders (order (Examples.invoice_of NON_VAT 10000)) <> [])
    by discriminate.
  split; [split; reflexivity | split].
  - exact (proj1 (non_vat_breakdown (Examples.invoice_of NON_VAT 10000) eq_refl Ho)).
  - repeat split; reflexivity.
Defined.

(** C1.  [disablePercentageTax()] stores a percentage-tax rate of zero
    and recomputes; on sales of 10,000 with 5% withholding the breakdown
    nevertheless carries the default 3% rate, a percentage tax of 300 and
    a net receivable of 9,200, not the amounts the percentage-tax path
    prescribes for a rate of zero. *)
Theorem disabled_percentage_tax_is_charged :
  let inv := Examples.pt_disabled in
  disablePercentageTax (Examples.invoice_of NON_VAT 10000)
  = Returned (computeBreakdown inv)
  /\ type (metadata inv) = NON_VAT
  /\ orders (order inv) = [Examples.line 10000]
  /\ Spec.configured_ptRate inv == 0
  /\ Spec.configured_whtRate inv == 0.05
  /\ pt_rate (percentageTax (newBreakdown inv)) == 0.03
  /\ Invoice.totalPercentageTax (percentageTax (newBreakdown inv)) == 300
  /\ totalWithheldTax (withholdingTax (newBreakdown inv)) == 500
  /\ netReceivable (newBreakdown inv) == 9200
  /\ totalAmountDue (newBreakdown inv) == 9500
  /\ ~ Spec.reports_non_vat
         (Spec.non_vat (netSales inv) (discount_scPWD inv)
            (Spec.configured_ptRate inv) (Spec.configured_whtRate inv))
         (newBreakdown inv).
Proof.
  cbv zeta. repeat split; try reflexivity.
  intros (_ & H & _). vm_compute in H. discriminate H.
Qed.

(** ** VAT-registered, subtype STANDARD *)




Example vat_rate_zero_reports :
  let b := newBreakdown Examples.vat_rate_zero in
  setRateVAT 0 (Examples.vat_invoice_no_wht 11200)
  = Returned (computeBreakdown Examples.vat_rate_zero)
  /\ Spec.configured_vatRate Examples.vat_rate_zero == 0
  /\ vat_rate (vat b) == 0.12
  /\ Invoice.totalVAT (vat b) == 1200
  /\ Invoice.salesVATable (vat b) == 10000.
Proof. cbv zeta. repeat split; reflexivity. Qed.

(** ** The SC/PWD discount *)

Lemma scpwd_discount_of_eligible_customer (inv : DigitalInvoice) :
  isEligibleForScPwdDiscount inv = true ->
  discount_scPWD inv
  == Spec.scPwdDiscount true (isVAT inv) (Breakdown.isVATInclusive inv)
       (netSales inv) (vatRate inv)
  /\ (orders (order inv) <> [] ->
      scPWD (discount (newBreakdown inv)) == round (discount_scPWD inv)).
Proof.
  intros He. split.
  - unfold discount_scPWD, Spec.scPwdDiscount. rewrite He.
    assert (E : 0.20 == defaultSCPWDDiscount) by reflexivity.
    destruct (isVAT inv && Breakdown.isVATInclusive inv); cbv zeta;
      rewrite E; reflexivity.
  - intros Ho. unfold newBreakdown.
    destruct (orders (order inv)); [contradiction |].
    destruct (negb (isVAT inv)); reflexivity.
Qed.

(** Without eligibility the discount is not reset: it stays what the
    stored discount object holds. *)
Lemma scpwd_discount_kept_when_not_eligible (inv : DigitalInvoice) :
  isEligibleForScPwdDiscount inv = false ->
  discount_scPWD inv = scPWD (discount (breakdown (order inv))).
Proof. intros He. unfold discount_scPWD. now rewrite He. Qed.

(** The example of the specification: an eligible customer, VAT-inclusive
    sales of 11,200 at 12%. *)
Example scpwd_discount_example :
  let inv :=
    state_after (Returned (Examples.invoice_of VAT 11200)
                 >>> setCustomerOSCAPWDNumber "SC-0001") in
  scPWD (discount (breakdown (order inv))) == 2000
  /\ Invoice.salesVATable (vat (breakdown (order inv))) == 8000.
Proof. cbv zeta. split; reflexivity. Qed.

(** C3.  A customer shows an OSCA number on sales of 1,000 (discount 200)
    and the number is then cleared: the recomputation finds the customer
    not eligible, yet the breakdown keeps the discount of 200 and taxes
    sales of 800, where no SC/PWD discount should apply. *)
Theorem cleared_osca_number_keeps_discount :
  let inv := Examples.osca_clearing in
  let b := newBreakdown inv in
  setCustomerOSCAPWDNumber EmptyString Examples.osca_given
  = Returned (computeBreakdown inv)
  /\ scPWD (discount (breakdown (order Examples.osca_given))) == 200
  /\ oscaPWDNumber (customer inv) = Some EmptyString
  /\ isEligibleForScPwdDiscount inv = false
  /\ type (metadata inv) = NON_VAT
  /\ orders (order inv) = [Examples.line 1000]
  /\ discount_scPWD inv == 200
  /\ scPWD (discount b) == 200
  /\ Invoice.totalDiscount (discount b) == 200
  /\ salesPT b == 800
  /\ Invoice.totalPercentageTax (percentageTax b) == 24
  /\ ~ discount_scPWD inv
       == Spec.scPwdDiscount (isEligibleForScPwdDiscount inv) (isVAT inv)
            (Breakdown.isVATInclusive inv) (netSales inv) (vatRate inv).
Proof.
  cbv zeta. repeat split; try reflexivity.
  intros H. vm_compute in H. discriminate H.
Qed.

(** ** Rounding of the outputs *)

(** In exact arithmetic, with at least one order line, every monetary
    field of the recomputed breakdown is the unrounded quantity the
    algorithm arrives at, rounded once to two decimal places, half up;
    the quantities themselves are computed without rounding, and a tie
    below zero goes up as well.  These are the figures that rounding
    the exact quantities prescribes; the program, on binary64 numbers,
    does not always report them (see [Binary64]). *)
Theorem outputs_are_rounded_once (inv : DigitalInvoice) :
  orders (order inv) <> [] ->
  Forall2 Spec.rounds_half_up_2dp
    (Spec.exact_values inv) (Spec.monetary_fields (newBreakdown inv)).
Proof.
  intros Ho. unfold Spec.exact_values, newBreakdown.
  destruct (orders (order inv)) as [| o os]; [contradiction |].
  destruct (negb (isVAT inv));
    unfold Spec.monetary_fields, breakdown_non_vat, breakdown_vat;
    cbn [Invoice.totalSales scPWD other Invoice.totalDiscount discount
         netReceivable totalWithheldTax withholdingTax totalAmountDue salesPT
         exemptSales Invoice.totalVAT Invoice.salesVATable
         Invoice.vatExemptSales Invoice.vatZeroRatedSales
         Invoice.totalSalesVATInclusive vat Invoice.totalPercentageTax
         percentageTax].
  - destruct (negb (Qle_bool (discount_scPWD inv) 0));
      repeat (constructor; [first [apply round_half_up | apply rounds_zero] |]);
      constructor.
  - repeat (constructor; [first [apply round_half_up | apply rounds_zero] |]);
      constructor.
Qed.

(** The unrounded quantities of the percentage-tax path, written out on
    the inputs: no rounding takes part in them. *)
Lemma non_vat_exact_values (inv : DigitalInvoice) :
  isVAT inv = false ->
  let T := Breakdown.totalSales inv in
  let o := other (discount (breakdown (order inv))) in
  let d := discount_scPWD inv in
  let w := whtRate inv in
  let p := ptRate inv in
  Spec.exact_values inv
  = [ T; d; o; d + o;
      (T - o) - (T - o) * w - ((T - o) - d) * p;
      (T - o) * w;
      (T - o) - (T - o) * w;
      (if negb (Qle_bool d 0) then (T - o) - d else T - o);
      0; 0; 0; 0; 0; 0;
      ((T - o) - d) * p ].
Proof.
  intros Hv. cbv zeta. unfold Spec.exact_values. rewrite Hv. reflexivity.
Qed.

(** In exact arithmetic a net receivable of -0.965 becomes -0.96. *)
Lemma outputs_are_rounded_once_witness :
  orders (order Examples.negative_tie) <> []
  /\ netReceivableNonVAT Examples.negative_tie == - 0.965
  /\ netReceivable (newBreakdown Examples.negative_tie) == - 0.96
  /\ Spec.rounds_half_up_2dp
       (netReceivableNonVAT Examples.negative_tie)
       (netReceivable (newBreakdown Examples.negative_tie)).
Proof.
  assert (Ho : orders (order Examples.negative_tie) <> []) by discriminate.
  split; [exact Ho | split; [reflexivity | split; [reflexivity |]]].
  pose proof (outputs_are_rounded_once Examples.negative_tie Ho) as H.
  exact (Forall2_lookup_lr _ _ _ 4%nat _ _ H eq_refl eq_refl).
Defined.

(** ** Rounding of the outputs on binary64 numbers *)

(** C6.  The claim fails on the code.  The breakdown is computed on
    binary64 numbers and [round] is [Math.round(num * 100) / 100] on
    them, which is not rounding half up of the exact quantity.  On the
    VAT-inclusive invoice of 140.14 at 12% the algorithm prescribes
    VATable sales of 125.125 and a VAT of 15.015, which rounded half up
    are 125.13 and 15.02; the code, for which 140.14 / 1.12 is just
    below 125.125, reports 125.12 and 15.01, next to the total 140.14.
    The helper by itself sends the number written 1.005 to 1, and the
    number written 1.115, whose exact value lies below 1.115 and so
    rounds to 1.11, to 1.12.  The net receivable of -0.965 is reported
    as -0.96. *)
Theorem rounded_outputs_miss_half_up_in_binary64 :
  let inv := Binary64.vat_inclusive_140_14 in
  let reported := Binary64.computeBreakdown (Binary64.of_invoice inv) in
  (Breakdown.salesVATable (vat_switch inv) == 125.125
   /\ Spec.rounds_half_up_2dp 125.125 125.13
   /\ Breakdown.totalVAT (vat_switch inv) == 15.015
   /\ Spec.rounds_half_up_2dp 15.015 15.02)
  /\ (Binary64.salesVATable reported = Binary64.number 125.12
      /\ Binary64.totalVAT reported = Binary64.number 15.01
      /\ Binary64.totalSalesVATInclusive reported = Binary64.number 140.14)
  /\ (Binary64.round (Binary64.number 1.005) = Binary64.number 1
      /\ Binary64.round (Binary64.number 1.115) = Binary64.number 1.12
      /\ Spec.rounds_half_up_2dp (Binary64.value (Binary64.number 1.115)) 1.11)
  /\ (netReceivableNonVAT Examples.negative_tie == - 0.965
      /\ Binary64.netReceivable
           (Binary64.computeBreakdown (Binary64.of_invoice Examples.negative_tie))
         = Binary64.number (- 0.96)).
Proof.
  cbv zeta. split; [| split; [| split]].
  - split; [reflexivity |]. split.
    + split; [exists 12513%Z; reflexivity | split; vm_compute; [discriminate | reflexivity]].
    + split; [reflexivity |].
      split; [exists 1502%Z; reflexivity | split; vm_compute; [discriminate | reflexivity]].
  - repeat split; vm_compute; reflexivity.
  - split; [vm_compute; reflexivity |]. split; [vm_compute; reflexivity |].
    split; [exists 111%Z; reflexivity | split; vm_compute; [discriminate | reflexivity]].
  - split; [reflexivity | vm_compute; reflexivity].
Qed.

(** ** VAT-registered, subtypes EXEMPT and ZERO_RATED *)

(** C9.  For a VAT invoice of subtype EXEMPT or ZERO_RATED with at least
    one order line, the withheld tax and the net receivable are zero
    whatever the amounts and the withholding rate, the amount due is zero
    as well when the invoice is VAT-exclusive, and the net sales appear
    in the exempt (resp. zero-rated) sales only. *)
Theorem exempt_and_zero_rated_have_no_base (inv : DigitalInvoice) :
  type (metadata inv) = VAT ->
  orders (order inv) <> [] ->
  Breakdown.vatSubtype inv = EXEMPT \/ Breakdown.vatSubtype inv = ZERO_RATED ->
  let b := newBreakdown inv in
  totalWithheldTax (withholdingTax b) == 0
  /\ netReceivable b == 0
  /\ (Breakdown.isVATInclusive inv = false -> totalAmountDue b == 0)
  /\ Invoice.salesVATable (vat b) == 0
  /\ Invoice.totalVAT (vat b) == 0
  /\ salesPT b == 0
  /\ exemptSales b == 0
  /\ (Breakdown.vatSubtype inv = EXEMPT ->
      Invoice.vatExemptSales (vat b) == round (netSales inv)
      /\ Invoice.vatZeroRatedSales (vat b) == 0)
  /\ (Breakdown.vatSubtype inv = ZERO_RATED ->
      Invoice.vatZeroRatedSales (vat b) == round (netSales inv)
      /\ Invoice.vatExemptSales (vat b) == 0).
Proof.
  intros Ht Ho Hs b. subst b. rewrite (newBreakdown_vat inv Ht Ho).
  unfold breakdown_vat, totalAmountDuePayable, netReceivableVAT,
    totalWithheldTaxVAT, Breakdown.totalSalesVATInclusive, vat_switch.
  destruct Hs as [Hs | Hs]; rewrite Hs; cbn;
    (repeat split; try reflexivity; try discriminate;
     try apply round_zero_times; try apply round_zero_minus_times).
  all: intros Hi; rewrite Hi.
  all: assert (E : 0 + 0 - 0 * whtRate inv == 0) by ring; rewrite E; reflexivity.
Qed.

Lemma exempt_and_zero_rated_have_no_base_witness :
  let inv := Examples.exempt_exclusive in
  let b := newBreakdown inv in
  (type (metadata inv) = VAT /\ Breakdown.vatSubtype inv = EXEMPT
   /\ Breakdown.totalSales inv == 5000 /\ whtRate inv == 0.05)
  /\ totalWithheldTax (withholdingTax b) == 0
  /\ netReceivable b == 0
  /\ totalAmountDue b == 0
  /\ Invoice.vatExemptSales (vat b) == 5000.
Proof.
  cbv zeta.
  assert (Ho : orders (order Examples.exempt_exclusive) <> []) by discriminate.
  destruct (exempt_and_zero_rated_have_no_base Examples.exempt_exclusive
              eq_refl Ho (or_introl eq_refl))
    as (H1 & H2 & H3 & _ & _ & _ & _ & H4 & _).
  split; [repeat split; reflexivity |].
  split; [exact H1 | split; [exact H2 | split; [exact (H3 eq_refl) |]]].
  destruct (H4 eq_refl) as [H5 _]. rewrite H5. reflexivity.
Defined.

(** ** [toggleVATInclusive] *)

(** C10.  On a VAT invoice, [toggleVATInclusive(false)] does what the
    call without argument does: it negates the VAT-inclusive flag; from
    the VAT-exclusive state every call, whatever its argument, leaves the
    invoice VAT-inclusive. *)
Theorem toggle_false_negates (inv : DigitalInvoice) :
  type (metadata inv) = VAT ->
  toggleVATInclusive (Some false) inv = toggleVATInclusive None inv
  /\ throws (toggleVATInclusive (Some false) inv) = false
  /\ Spec.vat_inclusive_flag (state_after (toggleVATInclusive (Some false) inv))
     = negb (Spec.vat_inclusive_flag inv)
  /\ (Spec.vat_inclusive_flag inv = false ->
      forall arg : option bool,
        Spec.vat_inclusive_flag (state_after (toggleVATInclusive arg inv)) = true).
Proof.
  intros Ht. unfold toggleVATInclusive. rewrite Ht.
  cbn [default orb throws state_after].
  repeat split.
  - rewrite computeBreakdown_keeps_flag. reflexivity.
  - intros Hf arg. rewrite computeBreakdown_keeps_flag.
    unfold Spec.vat_inclusive_flag in *. cbn.
    rewrite Hf. destruct arg as [[|]|]; reflexivity.
Qed.

Lemma toggle_false_negates_witness :
  let inv := Examples.standard_exclusive in
  (type (metadata inv) = VAT /\ Spec.vat_inclusive_flag inv = false)
  /\ Spec.vat_inclusive_flag (state_after (toggleVATInclusive (Some false) inv))
     = true.
Proof.
  cbv zeta. split; [split; reflexivity |].
  destruct (toggle_false_negates Examples.standard_exclusive eq_refl)
    as (_ & _ & _ & H).
  exact (H eq_refl (Some false)).
Defined.

(** ** The income tax schedule *)

Lemma le_true (a b : Q) : IncomeTax.le a b = true <-> a <= b.
Proof. unfold IncomeTax.le. apply Qle_bool_iff. Qed.

Lemma le_false (a b : Q) : IncomeTax.le a b = false <-> b < a.
Proof.
  unfold IncomeTax.le. split.
  - intros H. apply Qnot_le_lt. intros Hle. apply Qle_bool_iff in Hle. congruence.
  - intros H. destruct (Qle_bool a b) eqn:E; [| reflexivity].
    apply Qle_bool_iff in E. lra.
Qed.

Lemma gt_true (a b : Q) : IncomeTax.gt a b = true <-> b < a.
Proof. unfold IncomeTax.gt. rewrite negb_true_iff. apply le_false. Qed.

Lemma gt_false (a b : Q) : IncomeTax.gt a b = false <-> a <= b.
Proof. unfold IncomeTax.gt. rewrite negb_false_iff. apply le_true. Qed.

(** Case analysis on every comparison of the goal, closed by linear
    arithmetic. *)
Ltac by_bracket :=
  repeat match goal with
    | |- context [IncomeTax.le ?a ?b] =>
        let E := fresh "E" in
        destruct (IncomeTax.le a b) eqn:E;
        [apply le_true in E | apply le_false in E]
    | |- context [IncomeTax.gt ?a ?b] =>
        let E := fresh "E" in
        destruct (IncomeTax.gt a b) eqn:E;
        [apply gt_true in E | apply gt_false in E]
    end; try lra; try reflexivity.

Lemma flat_refines (income : Q) :
  IncomeTax.computeGraduatedIncomeTax income IncomeTax.FLAT
  == Spec.flat_tax income.
Proof.
  unfold IncomeTax.computeGraduatedIncomeTax, Spec.flat_tax.
  fold (IncomeTax.le income 250000). by_bracket.
Qed.

Lemma graduated_refines (income : Q) :
  IncomeTax.computeGraduatedIncomeTax income IncomeTax.GRADUATED
  == Spec.graduated_tax income.
Proof.
  unfold IncomeTax.computeGraduatedIncomeTax, Spec.graduated_tax,
    Spec.graduated_rows, Spec.table_tax, Spec.row_tax, Spec.top_row.
  cbn [fst snd].
  repeat match goal with
    | |- context [Qle_bool ?a ?b] => fold (IncomeTax.le a b)
    end.
  by_bracket.
Qed.

(** C4.  Under the FLAT regime the tax is 0 up to 250,000 and 8% of the
    excess above; under the GRADUATED regime it follows the progressive
    table, each bracket including its upper bound.  An income of 500,000
    owes 42,500 graduated and 20,000 flat. *)
Theorem income_tax_schedule (income : Q) :
  let flat := IncomeTax.computeGraduatedIncomeTax income IncomeTax.FLAT in
  let graduated := IncomeTax.computeGraduatedIncomeTax income IncomeTax.GRADUATED in
  (income <= 250000 -> flat == 0)
  /\ (250000 < income -> flat == (income - 250000) * 0.08)
  /\ (income <= 250000 -> graduated == 0)
  /\ (250000 < income <= 400000 -> graduated == (income - 250000) * 0.15)
  /\ (400000 < income <= 800000 ->
      graduated == 22500 + (income - 400000) * 0.20)
  /\ (800000 < income <= 2000000 ->
      graduated == 102500 + (income - 800000) * 0.25)
  /\ (2000000 < income <= 8000000 ->
      graduated == 402500 + (income - 2000000) * 0.30)
  /\ (8000000 < income -> graduated == 2202500 + (income - 8000000) * 0.35)
  /\ graduated == Spec.graduated_tax income
  /\ flat == Spec.flat_tax income
  /\ IncomeTax.computeGraduatedIncomeTax 500000 IncomeTax.GRADUATED == 42500
  /\ IncomeTax.computeGraduatedIncomeTax 500000 IncomeTax.FLAT == 20000.
Proof.
  cbv zeta.
  repeat split;
    try (intros H; unfold IncomeTax.computeGraduatedIncomeTax; by_bracket).
  - apply graduated_refines.
  - apply flat_refines.
Qed.

(** The table is cumulative: at each bound, the row above starts from
    the tax owed at the bound. *)
Example graduated_table_is_continuous :
  Forall (fun '(bound, row_above) =>
            IncomeTax.computeGraduatedIncomeTax bound IncomeTax.GRADUATED
            == Spec.row_tax bound row_above)
         [ (250000,  (0,      (250000,  0.15)));
           (400000,  (22500,  (400000,  0.20)));
           (800000,  (102500, (800000,  0.25)));
           (2000000, (402500, (2000000, 0.30)));
           (8000000, Spec.top_row) ].
Proof. repeat constructor. Qed.

(** ** Serialization of an invoice *)

Lemma parseFromJSON_toJSON (clock : Clock) (inv : DigitalInvoice) :
  JS.truthy_string (id inv) = true ->
  parseFromJSON clock (toJSON inv)
  = Value (new_DigitalInvoice clock None (metadata inv) (customer inv)
             (issuer inv) (order inv) (payment inv) (Some (timestamp inv))).
Proof.
  intros Hid. unfold parseFromJSON, toJSON. cbn. now rewrite Hid.
Qed.

(** A missing or empty [id] is refused. *)
Lemma parseFromJSON_missing_id (clock : Clock) (json : InvoiceJSON) :
  JS.truthy_opt_string (json_id json) = false ->
  parseFromJSON clock json = Error "Missing required property: 'id'".
Proof.
  intros Hid. unfold parseFromJSON. now rewrite Hid.
Qed.

Lemma autogenerateID_starts_lowercase (clock : Clock) (input : string) :
  exists rest, autogenerateID clock input = String "i" rest.
Proof. unfold autogenerateID. eexists. reflexivity. Qed.

(** Everything but the identifier survives parsing, as long as the
    timestamp is not empty. *)
Lemma parsed_invoice_fields (clock : Clock) (inv : DigitalInvoice) :
  JS.truthy_string (id inv) = true ->
  JS.truthy_string (timestamp inv) = true ->
  exists parsed : DigitalInvoice,
    parseFromJSON clock (toJSON inv) = Value parsed
    /\ id parsed
       = autogenerateID clock
           (JS.string_or (invoiceNumber (metadata inv)) "bir-invoice")
    /\ metadata parsed = metadata inv
    /\ customer parsed = customer inv
    /\ issuer parsed = issuer inv
    /\ order parsed = order inv
    /\ payment parsed = payment inv
    /\ timestamp parsed = timestamp inv.
Proof.
  intros Hid Hts. eexists. split; [apply parseFromJSON_toJSON; exact Hid |].
  unfold new_DigitalInvoice. cbn. rewrite Hts. repeat split.
Qed.

(** C8.  An invoice created with the identifier "INV-2025-0001" is
    serialized and parsed back: the parse succeeds and keeps every other
    part, but the identifier of the result is a freshly generated one, so
    serializing again does not reproduce the serialized form. *)
Theorem parsed_invoice_gets_a_new_id (clock : Clock) :
  exists parsed : DigitalInvoice,
    parseFromJSON clock (toJSON Examples.numbered_invoice) = Value parsed
    /\ id Examples.numbered_invoice = "INV-2025-0001"
    /\ id parsed = autogenerateID clock "1000A0001001"
    /\ metadata parsed = metadata Examples.numbered_invoice
    /\ customer parsed = customer Examples.numbered_invoice
    /\ issuer parsed = issuer Examples.numbered_invoice
    /\ order parsed = order Examples.numbered_invoice
    /\ payment parsed = payment Examples.numbered_invoice
    /\ timestamp parsed = timestamp Examples.numbered_invoice
    /\ json_id (toJSON parsed) <> json_id (toJSON Examples.numbered_invoice)
    /\ toJSON parsed <> toJSON Examples.numbered_invoice.
Proof.
  eexists. split; [apply parseFromJSON_toJSON; reflexivity |].
  destruct (autogenerateID_starts_lowercase clock "1000A0001001") as [r Hr].
  repeat split.
  - change (Some (autogenerateID clock "1000A0001001") <> Some "INV-2025-0001").
    rewrite Hr. discriminate.
  - intros H. apply (f_equal json_id) in H.
    change (Some (autogenerateID clock "1000A0001001") = Some "INV-2025-0001")
      in H.
    rewrite Hr in H. discriminate.
Qed.

Example parsed_invoice_id :
  exists parsed,
    parseFromJSON Examples.clock (toJSON Examples.numbered_invoice) = Value parsed
    /\ id parsed = "invoice-1000a0001001-1736899200".
Proof. eexists. split; reflexivity. Qed.

(** ** Serialization of [Money] *)

Ltac push_append :=
  repeat match goal with
    | |- context [append (String ?c ?s) ?r] =>
        change (append (String c s) r) with (String c (append s r))
    | |- context [append EmptyString ?r] =>
        change (append EmptyString r) with r
    end.

Ltac push_append_everywhere :=
  repeat match goal with
    | H : context [append (String ?c ?s) ?r] |- _ =>
        change (append (String c s) r) with (String c (append s r)) in H
    | H : context [append EmptyString ?r] |- _ =>
        change (append EmptyString r) with r in H
    end;
  push_append.

Lemma split_after_digits (d : Decimal.uint) (rest : string) :
  Money.split_at_point (NilEmpty.string_of_uint d ++ String "." rest)
  = (NilEmpty.string_of_uint d, Some rest).
Proof.
  induction d as [| d IH | d IH | d IH | d IH | d IH
                  | d IH | d IH | d IH | d IH | d IH];
    cbn [NilEmpty.string_of_uint]; push_append; cbn;
    [reflexivity | now rewrite IH ..].
Qed.

Lemma Z_toString_nonneg (n : Z) :
  (0 <= n)%Z ->
  exists d, d <> Decimal.Nil
            /\ Z_toString n = NilEmpty.string_of_uint d /\ Z.of_uint d = n.
Proof.
  intros Hn. unfold Z_toString. destruct n as [| p | p]; [| | lia].
  - exists (Decimal.D0 Decimal.Nil). repeat split. discriminate.
  - exists (Pos.to_uint p). split; [apply DecimalPos.Unsigned.to_uint_nonnil |].
    split.
    + cbn. pose proof (DecimalPos.Unsigned.to_uint_nonnil p) as Hp.
      destruct (Pos.to_uint p); [contradiction | reflexivity ..].
    + exact (DecimalZ.of_to (Z.pos p)).
Qed.

Lemma digits_of_numeral (d : Decimal.uint) :
  d <> Decimal.Nil ->
  Money.digits (NilEmpty.string_of_uint d) = Some (Z.of_uint d).
Proof.
  intros Hd. unfold Money.digits. rewrite NilEmpty.usu.
  destruct d; [contradiction | reflexivity ..].
Qed.

Lemma numeral_starts_with_digit (d : Decimal.uint) (rest : string) :
  d <> Decimal.Nil ->
  Money.Decimal_of_string (NilEmpty.string_of_uint d ++ rest)
  = Money.unsigned_of_string (NilEmpty.string_of_uint d ++ rest).
Proof.
  intros Hd.
  destruct d;
    [contradiction | cbn [NilEmpty.string_of_uint]; push_append; reflexivity ..].
Qed.

Lemma two_digits (a b : Z) :
  (0 <= a < 10)%Z -> (0 <= b < 10)%Z ->
  Money.digits
    (String (Money.digit_char a) (String (Money.digit_char b) EmptyString))
  = Some (10 * a + b)%Z.
Proof.
  intros Ha Hb.
  assert (Ea : (a = 0 \/ a = 1 \/ a = 2 \/ a = 3 \/ a = 4 \/ a = 5 \/ a = 6
                \/ a = 7 \/ a = 8 \/ a = 9)%Z) by lia.
  assert (Eb : (b = 0 \/ b = 1 \/ b = 2 \/ b = 3 \/ b = 4 \/ b = 5 \/ b = 6
                \/ b = 7 \/ b = 8 \/ b = 9)%Z) by lia.
  repeat (destruct Ea as [-> | Ea]); try subst a;
    repeat (destruct Eb as [-> | Eb]); try subst b; reflexivity.
Qed.

Lemma hundredths_value (q d1 d0 : Z) :
  inject_Z q + inject_Z (10 * d1 + d0) / inject_Z 100
  == inject_Z (100 * q + (10 * d1 + d0)) / 100.
Proof.
  rewrite !inject_Z_plus, !inject_Z_mult.
  change (inject_Z 100) with 100. change (inject_Z 10) with 10. field.
Qed.

Lemma hundredths_digits (a : Z) :
  (0 <= a)%Z ->
  (a = 100 * (a / 100) + (10 * ((a / 10) mod 10) + a mod 10))%Z.
Proof.
  intros Ha.
  pose proof (Z.div_mod a 10 ltac:(lia)) as H1.
  pose proof (Z.div_mod (a / 10) 10 ltac:(lia)) as H2.
  pose proof (Z.div_div a 10 10 ltac:(lia) ltac:(lia)) as H3.
  change (10 * 10)%Z with 100%Z in H3. lia.
Qed.

Lemma unsigned_of_fixed2 (a : Z) :
  (0 <= a)%Z ->
  let s := Z_toString (a / 100) ++ "."
           ++ String (Money.digit_char ((a / 10) mod 10))
                (String (Money.digit_char (a mod 10)) EmptyString) in
  exists v,
    Money.unsigned_of_string s = Some v
    /\ Money.Decimal_of_string s = Money.unsigned_of_string s
    /\ v == inject_Z a / 100.
Proof.
  intros Ha s. subst s.
  destruct (Z_toString_nonneg (a / 100)) as (d & Hd & Hs & Hv);
    [apply Z.div_pos; lia |].
  rewrite Hs, (numeral_starts_with_digit d _ Hd). push_append.
  unfold Money.unsigned_of_string. rewrite split_after_digits.
  rewrite (digits_of_numeral d Hd), Hv.
  rewrite two_digits by (apply Z.mod_pos_bound; lia).
  eexists. split; [reflexivity | split; [reflexivity |]].
  cbn [String.length Z.of_nat].
  change (10 ^ Z.pos (Pos.of_succ_nat 1))%Z with 100%Z.
  rewrite hundredths_value, <- (hundredths_digits a Ha). reflexivity.
Qed.

(** Reading back a printed amount gives the printed number of
    hundredths. *)
Lemma Decimal_of_fixed2 (c : Z) :
  exists v,
    Money.Decimal_of_string (Money.fixed2_of_hundredths c) = Some v
    /\ v == inject_Z c / 100.
Proof.
  unfold Money.fixed2_of_hundredths.
  destruct (unsigned_of_fixed2 (Z.abs c) (Z.abs_nonneg c)) as (v & Hu & Hd & Hv).
  cbv zeta in Hu, Hd.
  destruct (c <? 0)%Z eqn:Hc.
  - apply Z.ltb_lt in Hc. push_append_everywhere.
    cbn [Money.Decimal_of_string]. rewrite Hu. cbn [option_map].
    eexists. split; [reflexivity |].
    rewrite Hv, (Z.abs_neq c) by lia. rewrite inject_Z_opp. field.
  - apply Z.ltb_ge in Hc. push_append_everywhere. rewrite Hd, Hu.
    eexists. split; [reflexivity |].
    rewrite Hv, (Z.abs_eq c) by lia. reflexivity.
Qed.

Lemma Qfloor_half (z : Z) : Qfloor (inject_Z z + (1 # 2)) = z.
Proof.
  pose proof (Qfloor_le (inject_Z z + (1 # 2))) as Hle.
  pose proof (Qlt_floor (inject_Z z + (1 # 2))) as Hlt.
  set (m := Qfloor (inject_Z z + (1 # 2))) in *. clearbody m.
  rewrite inject_Z_plus in Hlt. change (inject_Z 1) with 1 in Hlt.
  assert (H1 : inject_Z m < inject_Z (z + 1))
    by (rewrite inject_Z_plus; change (inject_Z 1) with 1; lra).
  assert (H2 : inject_Z z < inject_Z (m + 1))
    by (rewrite inject_Z_plus; change (inject_Z 1) with 1; lra).
  rewrite <- Zlt_Qlt in H1, H2. lia.
Qed.

Lemma round_half_up_integer (z : Z) : Money.round_half_up (inject_Z z) = z.
Proof.
  unfold Money.round_half_up. destruct (Qle_bool 0 (inject_Z z)).
  - apply Qfloor_half.
  - rewrite <- inject_Z_opp, Qfloor_half. lia.
Qed.

Lemma round_half_up_comp (x y : Q) :
  x == y -> Money.round_half_up x = Money.round_half_up y.
Proof.
  intros H. unfold Money.round_half_up.
  rewrite (Qleb_comp 0 0 (Qeq_refl 0) x y H).
  rewrite (Qfloor_comp (x + (1 # 2)) (y + (1 # 2))) by (rewrite H; reflexivity).
  rewrite (Qfloor_comp (- x + (1 # 2)) (- y + (1 # 2)))
    by (rewrite H; reflexivity).
  reflexivity.
Qed.

Lemma toUpperCase_char_idempotent (c : ascii) :
  Money.toUpperCase_char (Money.toUpperCase_char c) = Money.toUpperCase_char c.
Proof. destruct c as [[] [] [] [] [] [] [] []]; reflexivity. Qed.

Lemma toUpperCase_idempotent (s : string) :
  Money.toUpperCase (Money.toUpperCase s) = Money.toUpperCase s.
Proof.
  induction s as [| c s IH]; [reflexivity |].
  cbn [Money.toUpperCase]. now rewrite toUpperCase_char_idempotent, IH.
Qed.

(** For [Money], serializing, parsing and serializing again reproduces
    the serialized form. *)
Lemma money_round_trip (value : Q) (cur : string) :
  let m := Money.new_Money value cur in
  exists parsed,
    Money.parseFromJSON (Money.toJSON m) = Value parsed
    /\ Money.toJSON parsed = Money.toJSON m.
Proof.
  cbv zeta. unfold Money.parseFromJSON, Money.toJSON, Money.new_Money.
  cbn [Money.json_currency Money.json_amount Money.amount Money.currency].
  unfold Money.toFixed2.
  destruct (Decimal_of_fixed2 (Money.round_half_up (value * 100)))
    as (v & Hp & Hv).
  rewrite Hp. eexists. split; [reflexivity |].
  cbn [Money.json_currency Money.json_amount Money.amount Money.currency].
  rewrite toUpperCase_idempotent.
  assert (E : Money.round_half_up (v * 100) = Money.round_half_up (value * 100)).
  { transitivity
      (Money.round_half_up (inject_Z (Money.round_half_up (value * 100))));
      [| apply round_half_up_integer].
    apply round_half_up_comp. rewrite Hv. field. }
  now rewrite E.
Qed.

Example money_toJSON_example :
  Money.toJSON (Money.new_Money 1234.565 "php")
  = {| Money.json_amount := inl "1234.57"; Money.json_currency := Some "PHP" |}
  /\ Money.toCentavos (Money.new_Money 1.005 "PHP") = 101%Z.
Proof. split; reflexivity. Qed.

(** ** Insertion into a filing session *)

Section SessionFacts.

Context {R : Type}.
Variable getTime : string -> option Z.
Variable describe : string -> string.
Variable clear : R -> R.
Variable rebuild : BuwisFriendMetadata -> list DigitalInvoice -> R.

Local Abbreviation addInvoice := (Session.addInvoice getTime describe clear rebuild).
Local Abbreviation addInvoices := (Session.addInvoices getTime clear rebuild).
Local Abbreviation validate_batch := (Session.validate_batch getTime).

Lemma some_invoiceNumber_true (inv : DigitalInvoice) (s : BuwisFriend R) :
  Spec.number_in_session inv s ->
  some_invoiceNumber (Spec.number_of inv) s = true.
Proof.
  intros (held & Hin & Hnum). unfold some_invoiceNumber.
  apply existsb_exists. exists held. split; [exact Hin |].
  apply String.eqb_eq. exact Hnum.
Qed.

Lemma doesInvoiceExist_invoice (inv : DigitalInvoice) (s : BuwisFriend R) :
  (exists m, doesInvoiceExist (inr inv) s = Error m)
  \/ doesInvoiceExist (inr inv) s
     = Value (some_invoiceNumber (Spec.number_of inv) s).
Proof.
  unfold doesInvoiceExist, Spec.number_of.
  destruct (JS.truthy_string (invoiceNumber (metadata inv))
            && JS.truthy_string (JS.trim (invoiceNumber (metadata inv))));
    [right; reflexivity | left; eexists; reflexivity].
Qed.

Lemma outside_range_true (t a b : Z) :
  (t < a \/ b < t)%Z -> outside_range (Some t) (a, b) = true.
Proof.
  intros H. unfold outside_range. cbn [fst snd].
  apply orb_true_iff. destruct H; [left | right]; now apply Z.ltb_lt.
Qed.

(** Every [throw] of [addInvoice] comes before the first assignment. *)
Lemma addInvoice_throws_unchanged (inv : DigitalInvoice) (s : BuwisFriend R) :
  throws (addInvoice inv s) = true -> state_after (addInvoice inv s) = s.
Proof.
  unfold Session.addInvoice.
  destruct (doesInvoiceExist (inr inv) s) as [[|] | m]; cbn; try reflexivity.
  destruct (getQuarterDateRange _ _) as [range | m]; cbn; try reflexivity.
  destruct (outside_range _ range); cbn; [reflexivity | discriminate].
Qed.

Lemma addInvoice_rejects (inv : DigitalInvoice) (s : BuwisFriend R) :
  Spec.rejected getTime inv s -> throws (addInvoice inv s) = true.
Proof.
  intros Hrej. unfold Session.addInvoice.
  destruct (doesInvoiceExist_invoice inv s) as [[m Hm] | Hv]; [now rewrite Hm |].
  rewrite Hv.
  destruct Hrej as [Hdup | (t & a & b & Ht & Hq & Hout)].
  - now rewrite (some_invoiceNumber_true inv s Hdup).
  - destruct (some_invoiceNumber (Spec.number_of inv) s); [reflexivity |].
    rewrite Hq, Ht, (outside_range_true t a b Hout). reflexivity.
Qed.

(** What the validation loop has established when it runs to its end:
    every invoice of the batch is inside the period (or has no valid
    date), its number is neither in the session nor among the numbers
    seen before the loop, and no number occurs twice. *)
Lemma validate_batch_accepts (s : BuwisFriend R) (range : Z * Z)
    (batch : list DigitalInvoice) :
  forall seen : gset string,
    validate_batch s range seen batch = None ->
    (forall inv, In inv batch ->
       outside_range (getTime (timestamp inv)) range = false
       /\ some_invoiceNumber (Spec.number_of inv) s = false
       /\ Spec.number_of inv ∉ seen)
    /\ NoDup (List.map Spec.number_of batch).
Proof.
  induction batch as [| inv rest IH]; intros seen Hv.
  - split; [intros inv [] | constructor].
  - cbn [Session.validate_batch] in Hv. fold (Spec.number_of inv) in Hv.
    destruct (outside_range (getTime (timestamp inv)) range) eqn:Hout;
      [discriminate |].
    destruct (bool_decide (Spec.number_of inv ∈ seen)) eqn:Hseen;
      [discriminate |].
    apply bool_decide_eq_false in Hseen.
    destruct (doesInvoiceExist_invoice inv s) as [[m Hm] | Hd];
      [rewrite Hm in Hv; discriminate |].
    rewrite Hd in Hv.
    destruct (some_invoiceNumber (Spec.number_of inv) s) eqn:Hsome;
      [discriminate |].
    destruct (IH _ Hv) as [Hall Hnd].
    split.
    + intros inv' [<- | Hin]; [auto |].
      destruct (Hall inv' Hin) as (H1 & H2 & H3).
      repeat split; [exact H1 | exact H2 |].
      intros Hx. apply H3. apply elem_of_union_r. exact Hx.
    + cbn [List.map]. constructor; [| exact Hnd].
      intros Hin. apply list_elem_of_In, in_map_iff in Hin.
      destruct Hin as (inv' & Heq & Hin').
      destruct (Hall inv' Hin') as (_ & _ & H3).
      apply H3. rewrite Heq. apply elem_of_union_l, elem_of_singleton.
      reflexivity.
Qed.

(** Every [throw] of [addInvoices] comes before the assignment to
    [this.invoices]. *)
Lemma addInvoices_throws_unchanged (batch : list DigitalInvoice)
    (s : BuwisFriend R) :
  throws (addInvoices batch s) = true -> state_after (addInvoices batch s) = s.
Proof.
  unfold Session.addInvoices.
  destruct batch as [| inv rest]; [reflexivity |].
  destruct (getQuarterDateRange _ _) as [range | m]; [| reflexivity].
  destruct (validate_batch s range ∅ (inv :: rest)); [reflexivity | discriminate].
Qed.

Lemma addInvoices_rejects (batch : list DigitalInvoice) (s : BuwisFriend R) :
  Spec.rejected_batch getTime batch s -> throws (addInvoices batch s) = true.
Proof.
  intros Hrej. unfold Session.addInvoices.
  destruct batch as [| inv0 rest].
  { destruct Hrej as [(inv & [] & _) | Hnd]. exfalso. apply Hnd. constructor. }
  destruct (getQuarterDateRange _ _) as [range | m] eqn:Hq; [| reflexivity].
  destruct (validate_batch s range ∅ (inv0 :: rest)) eqn:Hv; [reflexivity |].
  exfalso. destruct (validate_batch_accepts s range _ _ Hv) as [Hall Hnd].
  destruct Hrej as [(inv & Hin & Hr) | Hdup]; [| exact (Hdup Hnd)].
  destruct (Hall inv Hin) as (Hout & Hsome & _).
  destruct Hr as [Hdup | (t & a & b & Ht & Hq' & Ho)].
  - rewrite (some_invoiceNumber_true inv s Hdup) in Hsome. discriminate.
  - rewrite Hq in Hq'. injection Hq' as ->.
    rewrite Ht, (outside_range_true t a b Ho) in Hout. discriminate.
Qed.

End SessionFacts.

(** C7.  Adding an invoice whose number is already in the session, or
    whose issue date falls outside the filing period, throws and leaves
    the session, hence its invoice list, as it was; so does adding a
    batch that holds such an invoice or the same number twice: nothing
    of a failing batch is applied. *)
Theorem rejected_insertion_leaves_session_unchanged
    {R : Type} (getTime : string -> option Z) (describe : string -> string)
    (clear : R -> R) (rebuild : BuwisFriendMetadata -> list DigitalInvoice -> R)
    (s : BuwisFriend R) (inv : DigitalInvoice) (batch : list DigitalInvoice) :
  Spec.rejected getTime inv s ->
  Spec.rejected_batch getTime batch s ->
  (throws (addInvoice getTime describe clear rebuild inv s) = true
   /\ state_after (addInvoice getTime describe clear rebuild inv s) = s
   /\ invoices (state_after (addInvoice getTime describe clear rebuild inv s))
      = invoices s)
  /\ (throws (addInvoices getTime clear rebuild batch s) = true
      /\ state_after (addInvoices getTime clear rebuild batch s) = s
      /\ invoices (state_after (addInvoices getTime clear rebuild batch s))
         = invoices s).
Proof.
  intros H1 H2.
  pose proof (addInvoice_rejects getTime describe clear rebuild inv s H1) as T1.
  pose proof (addInvoice_throws_unchanged getTime describe clear rebuild inv s T1)
    as U1.
  pose proof (addInvoices_rejects getTime clear rebuild batch s H2) as T2.
  pose proof (addInvoices_throws_unchanged getTime clear rebuild batch s T2)
    as U2.
  repeat split; try assumption; [now rewrite U1 | now rewrite U2].
Qed.

(** A session for 2025 Q1 holding invoice A-001: an invoice dated in
    July is refused, and so is a batch with the number B-001 twice. *)
Lemma rejected_insertion_leaves_session_unchanged_witness :
  let s := Examples.session_one in
  let late := Examples.issued "C-009" Examples.stamp_july in
  let batch := [ Examples.issued "B-001" Examples.stamp_march;
                 Examples.issued "B-001" Examples.stamp_february ] in
  let add := addInvoice Examples.getTime Examples.describe (fun _ => [])
               Examples.summary_numbers late s in
  let add_batch := addInvoices Examples.getTime (fun _ => [])
                     Examples.summary_numbers batch s in
  Spec.rejected Examples.getTime late s
  /\ Spec.rejected_batch Examples.getTime batch s
  /\ (throws add = true /\ state_after add = s
      /\ invoices (state_after add) = invoices s)
  /\ (throws add_batch = true /\ state_after add_batch = s
      /\ invoices (state_after add_batch) = invoices s).
Proof.
  cbv zeta.
  assert (H1 : Spec.rejected Examples.getTime
                 (Examples.issued "C-009" Examples.stamp_july)
                 Examples.session_one).
  { right. exists (Date_UTC 2025 7 1 0 0 0 0), (Date_UTC 2025 1 1 0 0 0 0),
      (Date_UTC 2025 3 31 23 59 59 999).
    split; [reflexivity | split; [reflexivity | right; reflexivity]]. }
  assert (H2 : Spec.rejected_batch Examples.getTime
                 [ Examples.issued "B-001" Examples.stamp_march;
                   Examples.issued "B-001" Examples.stamp_february ]
                 Examples.session_one).
  { right. intros Hnd. apply NoDup_cons in Hnd as [Hn _]. apply Hn. left. }
  split; [exact H1 | split; [exact H2 |]].
  exact (rejected_insertion_leaves_session_unchanged Examples.getTime
           Examples.describe (fun _ => []) Examples.summary_numbers
           Examples.session_one _ _ H1 H2).
Defined.

(** The messages of the three refusals, and an insertion that goes
    through: the list is kept sorted by issue date and the summary is
    rebuilt. *)
Example session_insertions :
  let s := Examples.session_one in
  let add := addInvoice Examples.getTime Examples.describe (fun _ => [])
               Examples.summary_numbers in
  add (Examples.issued "A-001" Examples.stamp_march) s
  = Thrown "Invoice A-001 already exists in this session" s
  /\ add (Examples.issued "C-009" Examples.stamp_july) s
     = Thrown "Invoice C-009 is not fileable for this period. This invoice is for 2025 Q3." s
  /\ addInvoices Examples.getTime (fun _ => []) Examples.summary_numbers
       [ Examples.issued "B-001" Examples.stamp_march;
         Examples.issued "B-001" Examples.stamp_february ] s
     = Thrown "Duplicate invoice number detected in batch: B-001" s
  /\ List.map Spec.number_of
       (invoices (state_after
          (add (Examples.issued "B-002" Examples.stamp_march) s
           >>> add (Examples.issued "B-003" Examples.stamp_february))))
     = ["A-001"; "B-003"; "B-002"]
  /\ summary (state_after (add (Examples.issued "B-002" Examples.stamp_march) s))
     = ["A-001"; "B-002"].
Proof. cbv zeta. repeat split; reflexivity. Qed.

(** ** Stability of the breakdown under recomputation *)

Lemma round_idempotent (x : Q) : round (round x) == round x.
Proof.
  symmetry. apply round_unique.
  destruct (round_half_up x) as [[k Hk] _].
  split; [exists k; exact Hk |]. split; lra.
Qed.

Lemma num_or_fixed (x d : Q) : ~ d == 0 -> JS.num_or (JS.num_or x d) d = JS.num_or x d.
Proof.
  intros Hd. unfold JS.num_or at 2 3.
  destruct (Qeq_bool x 0) eqn:E.
  - now apply num_or_nonzero.
  - apply num_or_nonzero. intros H. apply Qeq_bool_iff in H. congruence.
Qed.

Lemma stored_after_pass (inv : DigitalInvoice) :
  stored (computeBreakdown inv) = newBreakdown inv.
Proof. reflexivity. Qed.

Lemma isVAT_after_pass (inv : DigitalInvoice) :
  isVAT (computeBreakdown inv) = isVAT inv.
Proof. reflexivity. Qed.

Lemma orders_after_pass (inv : DigitalInvoice) :
  orders (order (computeBreakdown inv)) = orders (order inv).
Proof. reflexivity. Qed.

Lemma eligible_after_pass (inv : DigitalInvoice) :
  isEligibleForScPwdDiscount (computeBreakdown inv)
  = isEligibleForScPwdDiscount inv.
Proof. reflexivity. Qed.

Lemma newBreakdown_branch (inv : DigitalInvoice) :
  newBreakdown inv
  = match Eqv.branch_of inv with
    | Eqv.NoItems => breakdown_no_items inv
    | Eqv.NonVat => breakdown_non_vat inv
    | Eqv.Vat => breakdown_vat inv
    end.
Proof.
  unfold newBreakdown, Eqv.branch_of. destruct (orders (order inv)); [reflexivity |].
  destruct (isVAT inv); reflexivity.
Qed.

Lemma branch_after_pass (inv : DigitalInvoice) :
  Eqv.branch_of (computeBreakdown inv) = Eqv.branch_of inv.
Proof. reflexivity. Qed.
(** The breakdown depends on the stored one only through the quantities
    listed here. *)
Lemma newBreakdown_respects (inv inv' : DigitalInvoice) :
  type (metadata inv) = type (metadata inv') ->
  orders (order inv) = orders (order inv') ->
  Invoice.isVATInclusive (vat (stored inv))
  = Invoice.isVATInclusive (vat (stored inv')) ->
  Invoice.vatSubtype (vat (stored inv)) = Invoice.vatSubtype (vat (stored inv')) ->
  other (discount (stored inv)) == other (discount (stored inv')) ->
  discount_scPWD inv == discount_scPWD inv' ->
  vatRate inv == vatRate inv' ->
  ptRate inv == ptRate inv' ->
  whtRate inv == whtRate inv' ->
  wht_rate (withholdingTax (stored inv)) == wht_rate (withholdingTax (stored inv')) ->
  Eqv.breakdown_eqv (newBreakdown inv) (newBreakdown inv').
Proof.
  intros Ht Ho Hi Hs Hother Hd Hv Hp Hw Hws.
  assert (HT : Breakdown.totalSales inv = Breakdown.totalSales inv')
    by (unfold Breakdown.totalSales; now rewrite Ho).
  assert (Hn : netSales inv == netSales inv').
  { unfold netSales, otherDiscounts. rewrite HT, Hother. reflexivity. }
  assert (HV : isVAT inv = isVAT inv') by (unfold isVAT; now rewrite Ht).
  assert (Hl : Qle_bool (discount_scPWD inv) 0 = Qle_bool (discount_scPWD inv') 0)
    by (apply Qleb_comp; [exact Hd | reflexivity]).
  unfold newBreakdown. rewrite <- Ho, <- HV.
  destruct (orders (order inv)) as [| o os].
  - unfold Eqv.breakdown_eqv, Eqv.discount_eqv, Eqv.vat_eqv, breakdown_no_items,
      Breakdown.isVATInclusive.
    cbn. rewrite <- HV, Hi. repeat split; try reflexivity. exact Hws.
  - destruct (isVAT inv) eqn:EV; cbn [negb].
    + unfold Eqv.breakdown_eqv, Eqv.discount_eqv, Eqv.vat_eqv, breakdown_vat.
      cbn. rewrite Hs.
      unfold netReceivableVAT, totalAmountDuePayable, totalWithheldTaxVAT,
        Breakdown.totalSalesVATInclusive, vat_switch, Breakdown.vatSubtype,
        Breakdown.isVATInclusive, Breakdown.totalDiscount, discount_other,
        vatMultiplier, scPWDDiscount.
      rewrite Hs, Hi, HT.
      destruct (Invoice.vatSubtype (vat (stored inv'))) as [[| |] |];
        destruct (Invoice.isVATInclusive (vat (stored inv'))); cbn;
        repeat split; try reflexivity; try exact Hv;
        try (apply round_proper; rewrite ?num_or_zero, ?Hn, ?Hd, ?Hv, ?Hw, ?Hother;
             reflexivity);
        try (rewrite Hw; reflexivity).
    + unfold Eqv.breakdown_eqv, Eqv.discount_eqv, Eqv.vat_eqv, breakdown_non_vat.
      cbn. rewrite Hl, Hi.
      unfold netReceivableNonVAT, totalAmountPayableNonVAT, totalWithheldTaxNonVAT,
        Breakdown.totalPercentageTax, salesLessScPwdDiscounts,
        Breakdown.totalDiscount, discount_other.
      rewrite HT.
      destruct (negb (Qle_bool (discount_scPWD inv') 0));
        repeat split; try reflexivity; try exact Hp; try exact Hw;
        apply round_proper; rewrite ?Hn, ?Hd, ?Hp, ?Hw, ?Hother; reflexivity.
Qed.

Lemma whtRate_is_stored (inv : DigitalInvoice) :
  whtRate inv == wht_rate (withholdingTax (stored inv)).
Proof. apply num_or_zero. Qed.

Lemma stored_wht_after_pass (inv : DigitalInvoice) :
  wht_rate (withholdingTax (newBreakdown inv))
  == wht_rate (withholdingTax (stored inv)).
Proof.
  rewrite newBreakdown_branch.
  destruct (Eqv.branch_of inv); [reflexivity | apply num_or_zero ..].
Qed.

Lemma default_vat_nonzero : ~ default_vat defaultTaxRates == 0.
Proof. discriminate. Qed.

Lemma default_pt_nonzero : ~ default_percentageTax defaultTaxRates == 0.
Proof. discriminate. Qed.

(** From the first pass on, a further pass works with the same rates. *)
Lemma rates_after_second_pass (inv : DigitalInvoice) :
  let inv1 := computeBreakdown inv in
  let inv2 := computeBreakdown inv1 in
  vatRate inv2 = vatRate inv1 /\ ptRate inv2 = ptRate inv1
  /\ whtRate inv2 == whtRate inv1.
Proof.
  cbv zeta. split; [| split].
  - unfold vatRate. rewrite !isVAT_after_pass, !stored_after_pass.
    destruct (isVAT inv) eqn:EV; [| reflexivity].
    rewrite (newBreakdown_branch (computeBreakdown inv)), branch_after_pass.
    rewrite (newBreakdown_branch inv).
    unfold Eqv.branch_of. rewrite EV.
    destruct (orders (order inv)) eqn:EO; [reflexivity |].
    cbn [breakdown_vat vat vat_rate].
    assert (E : vatRate (computeBreakdown inv)
                = JS.num_or (vatRate inv) (default_vat defaultTaxRates)).
    { unfold vatRate at 1.
      rewrite isVAT_after_pass, EV, stored_after_pass, newBreakdown_branch.
      unfold Eqv.branch_of. rewrite EV, EO. reflexivity. }
    rewrite E. apply num_or_fixed, default_vat_nonzero.
  - unfold ptRate. rewrite !stored_after_pass.
    rewrite (newBreakdown_branch (computeBreakdown inv)), branch_after_pass.
    rewrite (newBreakdown_branch inv).
    destruct (Eqv.branch_of inv) eqn:EB;
      cbn [breakdown_no_items breakdown_vat breakdown_non_vat percentageTax pt_rate].
    + rewrite isVAT_after_pass. reflexivity.
    + assert (E : ptRate (computeBreakdown inv)
                  = JS.num_or (ptRate inv)
                              (default_percentageTax defaultTaxRates)).
      { unfold ptRate at 1.
        rewrite stored_after_pass, newBreakdown_branch, EB. reflexivity. }
      rewrite E. apply num_or_fixed, default_pt_nonzero.
    + reflexivity.
  - rewrite !whtRate_is_stored, !stored_after_pass. apply stored_wht_after_pass.
Qed.

Lemma other_after_second_pass (inv : DigitalInvoice) :
  other (discount (newBreakdown (computeBreakdown inv)))
  == other (discount (newBreakdown inv)).
Proof.
  rewrite (newBreakdown_branch (computeBreakdown inv)), branch_after_pass.
  rewrite (newBreakdown_branch inv).
  destruct (Eqv.branch_of inv) eqn:EB;
    cbn [breakdown_no_items breakdown_vat breakdown_non_vat discount other];
    [reflexivity | ..];
    unfold discount_other; rewrite stored_after_pass, newBreakdown_branch, EB;
    cbn [breakdown_vat breakdown_non_vat discount other];
    apply round_idempotent.
Qed.

Lemma netSales_after_second_pass (inv : DigitalInvoice) :
  netSales (computeBreakdown (computeBreakdown inv))
  == netSales (computeBreakdown inv).
Proof.
  unfold netSales, otherDiscounts. rewrite !stored_after_pass.
  rewrite other_after_second_pass. reflexivity.
Qed.

Lemma scPWD_after_second_pass (inv : DigitalInvoice) :
  discount_scPWD (computeBreakdown (computeBreakdown inv))
  == discount_scPWD (computeBreakdown inv).
Proof.
  destruct (rates_after_second_pass inv) as (Hv & _ & _). cbv zeta in Hv.
  pose proof (netSales_after_second_pass inv) as Hn.
  unfold discount_scPWD.
  rewrite !eligible_after_pass, !isVAT_after_pass.
  destruct (isEligibleForScPwdDiscount inv) eqn:EE.
  - assert (Hi : Breakdown.isVATInclusive (computeBreakdown (computeBreakdown inv))
                 = Breakdown.isVATInclusive (computeBreakdown inv))
      by apply (computeBreakdown_keeps_flag (computeBreakdown inv)).
    rewrite Hi, Hv.
    destruct (isVAT inv && Breakdown.isVATInclusive (computeBreakdown inv));
      cbv zeta; rewrite Hn; reflexivity.
  - rewrite !stored_after_pass.
    rewrite (newBreakdown_branch (computeBreakdown inv)), branch_after_pass.
    rewrite (newBreakdown_branch inv).
    destruct (Eqv.branch_of inv) eqn:EB;
      cbn [breakdown_no_items breakdown_vat breakdown_non_vat discount scPWD];
      [reflexivity | ..];
      unfold discount_scPWD; rewrite eligible_after_pass, EE;
      rewrite stored_after_pass, newBreakdown_branch, EB;
      cbn [breakdown_vat breakdown_non_vat discount scPWD];
      unfold discount_scPWD; rewrite EE; apply round_idempotent.
Qed.

Lemma flag_after_second_pass (inv : DigitalInvoice) :
  Invoice.isVATInclusive (vat (stored (computeBreakdown (computeBreakdown inv))))
  = Invoice.isVATInclusive (vat (stored (computeBreakdown inv))).
Proof. apply (computeBreakdown_keeps_flag (computeBreakdown inv)). Qed.

Lemma subtype_after_second_pass (inv : DigitalInvoice) :
  Invoice.vatSubtype (vat (stored (computeBreakdown (computeBreakdown inv))))
  = Invoice.vatSubtype (vat (stored (computeBreakdown inv))).
Proof.
  rewrite !stored_after_pass.
  rewrite (newBreakdown_branch (computeBreakdown inv)), branch_after_pass.
  rewrite (newBreakdown_branch inv).
  destruct (Eqv.branch_of inv) eqn:EB; try reflexivity.
  cbn [breakdown_vat vat Invoice.vatSubtype].
  rewrite stored_after_pass, newBreakdown_branch, EB. reflexivity.
Qed.

Lemma breakdown_eqv_trans (a b c : InvoiceBreakdown) :
  Eqv.breakdown_eqv a b -> Eqv.breakdown_eqv b c -> Eqv.breakdown_eqv a c.
Proof.
  unfold Eqv.breakdown_eqv, Eqv.discount_eqv, Eqv.vat_eqv.
  intros (A1 & A2 & (A3 & A4 & A5) & A6 & A7 & A8
          & (A9 & A10 & A11 & A12 & A13 & A14 & A15 & A16)
          & (A17 & A18) & (A19 & A20))
         (B1 & B2 & (B3 & B4 & B5) & B6 & B7 & B8
          & (B9 & B10 & B11 & B12 & B13 & B14 & B15 & B16)
          & (B17 & B18) & (B19 & B20)).
  repeat split;
    first [ congruence | eapply Qeq_trans; eassumption ].
Qed.

Lemma breakdown_eqv_refl (a : InvoiceBreakdown) : Eqv.breakdown_eqv a a.
Proof.
  unfold Eqv.breakdown_eqv, Eqv.discount_eqv, Eqv.vat_eqv.
  repeat split; reflexivity.
Qed.

(** A third pass reports what the second pass reported. *)
Lemma third_pass_changes_nothing (inv : DigitalInvoice) :
  Eqv.breakdown_eqv (newBreakdown (computeBreakdown (computeBreakdown inv)))
                    (newBreakdown (computeBreakdown inv)).
Proof.
  destruct (rates_after_second_pass inv) as (Hv & Hp & Hw). cbv zeta in Hv, Hp, Hw.
  apply newBreakdown_respects.
  - reflexivity.
  - reflexivity.
  - apply flag_after_second_pass.
  - apply subtype_after_second_pass.
  - rewrite !stored_after_pass. apply other_after_second_pass.
  - apply scPWD_after_second_pass.
  - rewrite Hv. reflexivity.
  - rewrite Hp. reflexivity.
  - exact Hw.
  - rewrite !stored_after_pass.
    rewrite (stored_wht_after_pass (computeBreakdown inv)), stored_after_pass.
    reflexivity.
Qed.


(** ** What the senior-citizen discount does not change *)

(** X2.  The amount due and the withheld tax of a non-VAT invoice, and of
    a VAT invoice priced VAT-inclusive, do not depend on the customer:
    replacing the customer, with or without an OSCA/PWD number, leaves
    both as they were.  The senior-citizen discount is reported in the
    discount object but is not taken off the amount the customer owes. *)
Theorem amount_due_ignores_scpwd (inv : DigitalInvoice) (c : LegalEntity) :
  type (metadata inv) = NON_VAT
  \/ Invoice.isVATInclusive (vat (stored inv)) = true ->
  totalAmountDue (newBreakdown (with_customer c inv))
  = totalAmountDue (newBreakdown inv)
  /\ totalWithheldTax (withholdingTax (newBreakdown (with_customer c inv)))
     = totalWithheldTax (withholdingTax (newBreakdown inv)).
Proof.
  intros H. unfold newBreakdown. cbn [with_customer order orders].
  destruct (orders (order inv)) as [| o os]; [split; reflexivity |].
  unfold isVAT. cbn [with_customer metadata].
  destruct (type (metadata inv)) eqn:ET; cbn [negb].
  - split; reflexivity.
  - destruct H as [H | H]; [discriminate |].
    unfold breakdown_vat; cbn [totalAmountDue withholdingTax totalWithheldTax].
    unfold totalAmountDuePayable, totalWithheldTaxVAT, totalSalesVATInclusive,
      vat_switch, Breakdown.isVATInclusive, Breakdown.vatSubtype.
    change (netSales (with_customer c inv)) with (netSales inv).
    change (vatMultiplier (with_customer c inv)) with (vatMultiplier inv).
    change (vatRate (with_customer c inv)) with (vatRate inv).
    change (whtRate (with_customer c inv)) with (whtRate inv).
    change (stored (with_customer c inv)) with (stored inv).
    rewrite H.
    destruct (Invoice.vatSubtype (vat (stored inv))) as [[| |] |];
      split; reflexivity.
Qed.

Lemma amount_due_ignores_scpwd_witness :
  let inv := Examples.invoice_of NON_VAT 1000 in
  type (metadata inv) = NON_VAT
  /\ scPWD (discount (stored Examples.osca_given)) == 200
  /\ totalAmountDue (stored Examples.osca_given) = totalAmountDue (stored inv).
Proof.
  cbv zeta. split; [reflexivity |]. split; [vm_compute; reflexivity |].
  exact (proj1 (amount_due_ignores_scpwd (Examples.invoice_of NON_VAT 1000)
                  (customer Examples.osca_given) (or_introl eq_refl))).
Defined.

(** ** Switching the VAT type *)

(** X3.  [setInvoiceVATType] changes the type and blanks the tax block of
    the other regime, but it does not recompute: the totals, the
    discounts and the withheld tax stored in the breakdown are those
    computed under the previous type.  What it blanks is lost for good:
    after a switch to Non-VAT and back, the next recomputation works with
    the default VAT rate and the Standard subtype whatever had been
    configured, and after a switch to VAT and back with the default
    percentage-tax rate. *)
Theorem vat_type_switch_keeps_totals_and_drops_settings :
  (forall (t : InvoiceVATType) (inv : DigitalInvoice),
     let s := state_after (Setters.setInvoiceVATType t inv) in
     type (metadata s) = t
     /\ totalAmountDue (stored s) = totalAmountDue (stored inv)
     /\ netReceivable (stored s) = netReceivable (stored inv)
     /\ Invoice.totalSales (stored s) = Invoice.totalSales (stored inv)
     /\ discount (stored s) = discount (stored inv)
     /\ withholdingTax (stored s) = withholdingTax (stored inv))
  /\ (forall inv : DigitalInvoice,
        let s := state_after (Returned inv
                              >>> Setters.setInvoiceVATType NON_VAT
                              >>> Setters.setInvoiceVATType VAT) in
        vatRate s = default_vat defaultTaxRates
        /\ Breakdown.vatSubtype s = STANDARD)
  /\ (forall inv : DigitalInvoice,
        let s := state_after (Returned inv
                              >>> Setters.setInvoiceVATType VAT
                              >>> Setters.setInvoiceVATType NON_VAT) in
        ptRate s = default_percentageTax defaultTaxRates).
Proof.
  split; [| split].
  - intros [|] inv; cbv zeta; repeat split; reflexivity.
  - intros inv. cbv zeta. split; reflexivity.
  - intros inv. reflexivity.
Qed.

(** ** Payment details *)

Lemma setPaymentMethod_details (m : InvoicePaymentMethod) (inv : DigitalInvoice) :
  Setters.details_match_method
    (payment (state_after (Setters.setPaymentMethod m inv))).
Proof. destruct m; cbn; repeat split; reflexivity. Qed.

Lemma set_bank_field_cash (what : string)
    (assign : string -> BankInformation -> BankInformation)
    (input : string) (inv : DigitalInvoice) :
  method (payment inv) = CASH ->
  Setters.details_match_method (payment inv) ->
  throws (Setters.set_bank_field what assign input inv) = true
  /\ Setters.details_match_method
       (payment (state_after (Setters.set_bank_field what assign input inv))).
Proof.
  intros Hm. unfold Setters.details_match_method, Setters.set_bank_field.
  rewrite Hm. cbn. rewrite Hm. intros (Hb & Hc & Hr). repeat split; assumption.
Qed.

Lemma set_check_field_cash (clock : Clock)
    (assign : string -> CheckInformation -> CheckInformation)
    (input : string) (inv : DigitalInvoice) :
  method (payment inv) = CASH ->
  Setters.details_match_method (payment inv) ->
  throws (Setters.set_check_field clock assign input inv) = true
  /\ Setters.details_match_method
       (payment (state_after (Setters.set_check_field clock assign input inv))).
Proof.
  intros Hm. unfold Setters.details_match_method, Setters.set_check_field.
  rewrite Hm. cbn. rewrite Hm. intros (Hb & Hc & Hr). repeat split; assumption.
Qed.

(** X4.  [setPaymentMethod] leaves exactly the details that go with the
    method it sets.  On a cash invoice this lasts: every other payment
    setter throws and the invoice still holds no bank, no check and no
    reference number.  It does not last for the other methods, whose
    guards only turn cash away: after [setPaymentMethod(CHECK)] a call of
    [setPaymentBankName] returns and the check invoice holds a bank made
    of the given name and of the placeholder account 10000001. *)
Theorem cash_invoice_never_holds_payment_details :
  (forall (m : InvoicePaymentMethod) (inv : DigitalInvoice),
     Setters.details_match_method
       (payment (state_after (Setters.setPaymentMethod m inv))))
  /\ (forall (clock : Clock) (c : Setters.payment_call) (inv : DigitalInvoice),
        method (payment inv) = CASH ->
        Setters.details_match_method (payment inv) ->
        let r := Setters.call_payment clock c inv in
        Setters.details_match_method (payment (state_after r))
        /\ (throws r = false -> exists m, c = Setters.SetMethod m))
  /\ (let inv :=
        state_after (Returned (initialize Examples.clock NON_VAT)
                     >>> Setters.setPaymentMethod CHECK
                     >>> Setters.setPaymentBankName "BDO") in
      method (payment inv) = CHECK
      /\ bank (payment inv)
         = Some {| bank_name := "BDO"; bank_accountNumber := "10000001";
                   bank_branch := "Branch XYZ"; bank_code := "A0000Z";
                   bank_address := "123 DEF City" |}
      /\ ~ Setters.details_match_method (payment inv)).
Proof.
  split; [exact setPaymentMethod_details | split].
  - intros clock c inv Hm Hd. cbv zeta.
    destruct c as [m | s | s | s | s | s | s | s | s]; cbn [Setters.call_payment];
      [ split; [apply setPaymentMethod_details | intros _; now exists m]
      | unfold Setters.setPaymentBankName, Setters.setPaymentBankAccountNumber,
          Setters.setPaymentBankBranch, Setters.setPaymentBankCode,
          Setters.setPaymentBankAddress,
          Setters.setPaymentCheckNumber, Setters.setPaymentCheckDate;
        match goal with
        | |- context [Setters.set_bank_field ?w ?a ?i ?v] =>
            destruct (set_bank_field_cash w a i v Hm Hd) as [Ht Hk]
        | |- context [Setters.set_check_field ?k ?a ?i ?v] =>
            destruct (set_check_field_cash k a i v Hm Hd) as [Ht Hk]
        end;
        split; [exact Hk | intros Hx; rewrite Ht in Hx; discriminate Hx] ..
      | ].
    unfold Setters.setPaymentReferenceNumber, Setters.details_match_method in *.
    cbv zeta. rewrite Hm in Hd. rewrite Hm. cbn. rewrite Hm.
    destruct Hd as (Hb & Hc & Hr).
    split; [repeat split; assumption | discriminate].
  - cbv zeta. split; [reflexivity |]. split; [reflexivity |].
    unfold Setters.details_match_method. cbn. intros [H _]. discriminate.
Qed.

(** ** Taxpayer information *)

Lemma loadTaxpayerInfo_returns (input : Taxpayer.TaxpayerInfo) (b : DigitalInvoice) :
  Taxpayer.check_issuer (Taxpayer.info_issuer input) = None ->
  exists b',
    Taxpayer.loadTaxpayerInfo input b = Returned b'
    /\ issuer b' = Taxpayer.info_issuer input
    /\ rdo (metadata b') = rdo (Taxpayer.info_metadata input)
    /\ category (metadata b') = category (Taxpayer.info_metadata input)
    /\ companyLogo (metadata b') = companyLogo (Taxpayer.info_metadata input)
    /\ type (metadata b') = type (metadata b)
    /\ invoiceNumber (metadata b') = invoiceNumber (metadata b)
    /\ customer b' = customer b
    /\ totalAmountDue (stored b') = totalAmountDue (stored b)
    /\ match type (Taxpayer.info_metadata input) with
       | VAT =>
           vat_rate (vat (stored b')) = vat_rate (Taxpayer.tax_vat input)
           /\ percentageTax (stored b') = percentageTax (stored b)
       | NON_VAT =>
           pt_rate (percentageTax (stored b'))
           = pt_rate (Taxpayer.tax_percentageTax input)
           /\ vat (stored b') = vat (stored b)
       end.
Proof.
  intros H. unfold Taxpayer.loadTaxpayerInfo. rewrite H.
  eexists. split; [reflexivity |].
  destruct (type (Taxpayer.info_metadata input)); repeat split; reflexivity.
Qed.

(** X5.  The object that [exportTaxpayerInfo] returns can be loaded into
    any invoice: [loadTaxpayerInfo] then returns, and the invoice has the
    exporter's issuer, district office, category, logo and the rate of
    the exporter's tax regime.  Loaded into the exporting invoice itself
    it changes nothing.  The receiving invoice keeps its own VAT type,
    invoice number and customer, and its amount due is not recomputed:
    information exported by a VAT taxpayer and loaded into a Non-VAT
    invoice sets the VAT rate of an invoice that stays Non-VAT and keeps
    its percentage tax. *)
Theorem exported_taxpayer_info_loads (a b : DigitalInvoice)
    (info : Taxpayer.TaxpayerInfo) :
  Taxpayer.exportTaxpayerInfo a = Value info ->
  Taxpayer.loadTaxpayerInfo info a = Returned a
  /\ exists b',
       Taxpayer.loadTaxpayerInfo info b = Returned b'
       /\ issuer b' = issuer a
       /\ rdo (metadata b') = rdo (metadata a)
       /\ category (metadata b') = category (metadata a)
       /\ companyLogo (metadata b') = companyLogo (metadata a)
       /\ type (metadata b') = type (metadata b)
       /\ invoiceNumber (metadata b') = invoiceNumber (metadata b)
       /\ customer b' = customer b
       /\ totalAmountDue (stored b') = totalAmountDue (stored b)
       /\ match type (metadata a) with
          | VAT =>
              vat_rate (vat (stored b')) = vat_rate (vat (stored a))
              /\ percentageTax (stored b') = percentageTax (stored b)
          | NON_VAT =>
              pt_rate (percentageTax (stored b'))
              = pt_rate (percentageTax (stored a))
              /\ vat (stored b') = vat (stored b)
          end.
Proof.
  unfold Taxpayer.exportTaxpayerInfo.
  destruct (Taxpayer.check_issuer (issuer a)) eqn:Hc; [discriminate |].
  intros [= <-]. split.
  - unfold Taxpayer.loadTaxpayerInfo.
    cbn [Taxpayer.info_issuer Taxpayer.info_metadata Taxpayer.tax_vat
         Taxpayer.tax_percentageTax].
    rewrite Hc.
    destruct a as [i [f n s r t c l] cu iss [cur os [ts nr d tad sp es v p w]] pay tm].
    destruct v, p. destruct t; reflexivity.
  - exact (loadTaxpayerInfo_returns
             {| Taxpayer.info_issuer := issuer a;
                Taxpayer.info_metadata := metadata a;
                Taxpayer.tax_percentageTax := percentageTax (breakdown (order a));
                Taxpayer.tax_vat := vat (breakdown (order a)) |} b Hc).
Qed.

Lemma exported_taxpayer_info_loads_witness :
  let a := state_after (Returned (initialize Examples.clock VAT) >>> setRateVAT 0.10) in
  let b := Examples.invoice_of NON_VAT 1000 in
  exists info b',
    Taxpayer.exportTaxpayerInfo a = Value info
    /\ Taxpayer.loadTaxpayerInfo info b = Returned b'
    /\ type (metadata b') = NON_VAT
    /\ issuer b' = issuer a.
Proof.
  cbv zeta. eexists.
  destruct (exported_taxpayer_info_loads
              (state_after (Returned (initialize Examples.clock VAT) >>> setRateVAT 0.10))
              (Examples.invoice_of NON_VAT 1000) _ eq_refl)
    as (_ & b' & Hl & Hi & _ & _ & _ & Ht & _).
  exists b'. split; [reflexivity |]. split; [exact Hl |].
  split; [exact Ht | exact Hi].
Defined.

(** ** Validation *)

Lemma is_blank_enum_values :
  (forall t, Setters.is_blank (Taxpayer.InvoiceVATType_value t) = false)
  /\ (forall m, Setters.is_blank (Taxpayer.InvoicePaymentMethod_value m) = false).
Proof. split; intros []; reflexivity. Qed.

(** X6.  [validateSelf] never looks at the issuer: its answer is the same
    whatever the issuer of the invoice is, so an invoice whose taxpayer
    has no name, address, business name or TIN is found as valid as any
    other.  The four entries named after the taxpayer read the
    customer's fields a second time, after the entries named after the
    customer; none of them is ever the one reported, nor are the invoice
    type and the payment method, whose values are never blank. *)
Theorem validateSelf_ignores_the_issuer (Number_toString : Q -> string)
    (throwError : bool) (inv : DigitalInvoice) :
  (forall i : LegalEntity,
     Taxpayer.validateSelf Number_toString throwError (Setters.with_issuer i inv)
     = Taxpayer.validateSelf Number_toString throwError inv)
  /\ (forall name : string,
        Taxpayer.first_missing (Taxpayer.requiredFields Number_toString inv)
        = Some name ->
        In name ["ID"; "Form Number"; "Revenue District Office Number";
                 "Invoice Number"; "Customer's Name"; "Customer's Address";
                 "Customer's Business Name"; "Customer's Registered TIN";
                 "Currency"; "Total Amount Due"; "Total Sales"]).
Proof.
  split; [reflexivity |].
  intros name. unfold Taxpayer.requiredFields.
  destruct is_blank_enum_values as [Ht Hm].
  cbn [Taxpayer.first_missing]. rewrite Ht, Hm.
  repeat match goal with
         | |- context [if Setters.is_blank ?f then _ else _] =>
             destruct (Setters.is_blank f) eqn:?
         end;
    intros [= <-] || discriminate; cbn; tauto.
Qed.

(** ** Rates set before the order lines *)

Lemma breakdown_no_items_forgets_vat_rate (r : Q) (inv : DigitalInvoice) :
  breakdown_no_items (set_vat_rate r inv) = breakdown_no_items inv.
Proof. reflexivity. Qed.

Lemma breakdown_no_items_forgets_pt_rate (r : Q) (inv : DigitalInvoice) :
  breakdown_no_items (set_pt_rate r inv) = breakdown_no_items inv.
Proof. reflexivity. Qed.

(** X7.  On an invoice that has no order lines yet, the rate given to
    [setRateVAT] or to [setRatePercentageTax] is lost at once: whatever
    the rate, the call leaves the same invoice, with the default rate of
    its type in the breakdown, so that order lines added afterwards are
    taxed at the default rate.  The withholding rate is the exception:
    [setRateWithholding] on the same invoice stores the rate it is
    given. *)
Theorem rates_set_before_the_order_lines_are_lost
    (inv : DigitalInvoice) (r r' : Q) :
  orders (order inv) = [] ->
  setRateVAT r inv = setRateVAT r' inv
  /\ setRatePercentageTax r inv = setRatePercentageTax r' inv
  /\ (type (metadata inv) = VAT ->
      vat_rate (vat (stored (state_after (setRateVAT r inv))))
      = default_vat defaultTaxRates)
  /\ (type (metadata inv) = NON_VAT ->
      pt_rate (percentageTax (stored (state_after (setRatePercentageTax r inv))))
      = default_percentageTax defaultTaxRates)
  /\ wht_rate (withholdingTax (stored (state_after (setRateWithholding r inv))))
     = r.
Proof.
  intros Ho.
  assert (Hv : forall x, computeBreakdown (set_vat_rate x inv)
                         = with_breakdown (breakdown_no_items inv) inv).
  { intros x. unfold computeBreakdown.
    rewrite (newBreakdown_no_items (set_vat_rate x inv)) by exact Ho.
    reflexivity. }
  assert (Hp : forall x, computeBreakdown (set_pt_rate x inv)
                         = with_breakdown (breakdown_no_items inv) inv).
  { intros x. unfold computeBreakdown.
    rewrite (newBreakdown_no_items (set_pt_rate x inv)) by exact Ho.
    reflexivity. }
  assert (Hv2 : forall x y, computeBreakdown (set_vat_rate x (set_vat_rate y inv))
                            = with_breakdown (breakdown_no_items inv) inv).
  { intros x y. unfold computeBreakdown.
    rewrite (newBreakdown_no_items (set_vat_rate x (set_vat_rate y inv))) by exact Ho.
    reflexivity. }
  assert (Hp2 : forall x y, computeBreakdown (set_pt_rate x (set_pt_rate y inv))
                            = with_breakdown (breakdown_no_items inv) inv).
  { intros x y. unfold computeBreakdown.
    rewrite (newBreakdown_no_items (set_pt_rate x (set_pt_rate y inv))) by exact Ho.
    reflexivity. }
  unfold setRateVAT, setRatePercentageTax, setRateWithholding.
  repeat split.
  - destruct (type (metadata inv)); [reflexivity |].
    destruct (Qeq_bool r 0), (Qeq_bool r' 0); cbv zeta;
      rewrite ?Hv, ?Hv2; reflexivity.
  - destruct (type (metadata inv)); [| reflexivity].
    destruct (Qeq_bool r 0), (Qeq_bool r' 0); cbv zeta;
      rewrite ?Hp, ?Hp2; reflexivity.
  - intros Ht. rewrite Ht.
    destruct (Qeq_bool r 0); cbv zeta; rewrite ?Hv, ?Hv2;
      cbn; unfold isVAT; rewrite Ht; reflexivity.
  - intros Ht. rewrite Ht.
    destruct (Qeq_bool r 0); cbv zeta; rewrite ?Hp, ?Hp2;
      cbn; unfold isVAT; rewrite Ht; reflexivity.
  - destruct (Qeq_bool r 0); cbv zeta; cbn [state_after];
      unfold computeBreakdown;
      rewrite newBreakdown_no_items by exact Ho; reflexivity.
Qed.

Lemma rates_set_before_the_order_lines_are_lost_witness :
  let inv := initialize Examples.clock VAT in
  orders (order inv) = []
  /\ setRateVAT 0.10 inv = setRateVAT 0.12 inv
  /\ Invoice.totalVAT
       (vat (stored (state_after (Returned inv >>> setRateVAT 0.10
                                  >>> toggleVATInclusive (Some false)
                                  >>> setListOrders [Examples.line 1000]))))
     == 120.
Proof.
  cbv zeta. split; [reflexivity |]. split.
  - exact (proj1 (rates_set_before_the_order_lines_are_lost
                    (initialize Examples.clock VAT) 0.10 0.12 eq_refl)).
  - vm_compute. reflexivity.
Defined.

(** ** The invoice list of a session *)

Section SessionOpsFacts.

Context {R : Type}.
Variable getTime : string -> option Z.
Variable describe : string -> string.
Variable clear : R -> R.
Variable rebuild : BuwisFriendMetadata -> list DigitalInvoice -> R.

Local Abbreviation number := SessionOps.number.
Local Abbreviation sort := (Session.sort_by_date getTime).
Local Abbreviation insert := (Session.insert_sorted getTime).
Local Abbreviation refresh := (Session.refreshSummary clear rebuild).
Local Abbreviation call := (SessionOps.call_session getTime describe clear rebuild).

Lemma refreshSummary_invoices (s : BuwisFriend R) :
  invoices (refresh s) = invoices s.
Proof.
  unfold Session.refreshSummary.
  destruct (invoices s) eqn:E; cbn [with_summary invoices]; exact E.
Qed.

Lemma refreshSummary_metadata (s : BuwisFriend R) :
  session_metadata (refresh s) = session_metadata s.
Proof. unfold Session.refreshSummary. destruct (invoices s); reflexivity. Qed.

Lemma insert_sorted_perm (x : DigitalInvoice) (l : list DigitalInvoice) :
  insert x l ≡ₚ x :: l.
Proof.
  induction l as [| y l IH]; cbn; [reflexivity |].
  destruct (Session.later getTime y x); [reflexivity |].
  rewrite IH. apply perm_swap.
Qed.

Lemma fold_insert_perm (l acc : list DigitalInvoice) :
  fold_left (fun a x => insert x a) l acc ≡ₚ (acc ++ l)%list.
Proof.
  revert acc. induction l as [| x l IH]; intros acc; cbn.
  - now rewrite app_nil_r.
  - rewrite IH, insert_sorted_perm. cbn.
    now rewrite Permutation_middle.
Qed.

Lemma sort_by_date_perm (l : list DigitalInvoice) : sort l ≡ₚ l.
Proof. unfold Session.sort_by_date. now rewrite fold_insert_perm. Qed.

Lemma sort_by_date_snoc (l : list DigitalInvoice) (x : DigitalInvoice) :
  sort (l ++ [x]) = insert x (sort l).
Proof. unfold Session.sort_by_date. now rewrite fold_left_app. Qed.

Lemma some_invoiceNumber_false (n : string) (s : BuwisFriend R) :
  some_invoiceNumber n s = false -> n ∉ List.map number (invoices s).
Proof.
  unfold some_invoiceNumber, SessionOps.number. intros H Hin.
  apply list_elem_of_In, in_map_iff in Hin. destruct Hin as (y & Hy & Hin).
  assert (existsb (fun inv => String.eqb (number inv) n) (invoices s) = true).
  { apply existsb_exists. exists y. split; [exact Hin |]. now apply String.eqb_eq. }
  unfold SessionOps.number in *. congruence.
Qed.

(** What [addInvoice] has checked when it returns. *)
Lemma addInvoice_returns (inv : DigitalInvoice) (s s' : BuwisFriend R) :
  Session.addInvoice getTime describe clear rebuild inv s = Returned s' ->
  Setters.is_blank (number inv) = false
  /\ some_invoiceNumber (number inv) s = false
  /\ (exists range,
        getQuarterDateRange (quarter (session_metadata s))
                            (year (session_metadata s)) = Value range
        /\ outside_range (getTime (timestamp inv)) range = false)
  /\ s' = refresh (with_invoices (sort (invoices s ++ [inv])) s).
Proof.
  unfold Session.addInvoice, doesInvoiceExist, Setters.is_blank, SessionOps.number.
  destruct (JS.truthy_string (invoiceNumber (metadata inv)));
    cbn [andb negb orb]; [| discriminate].
  destruct (JS.truthy_string (JS.trim (invoiceNumber (metadata inv))));
    cbn [negb]; [| discriminate].
  destruct (some_invoiceNumber (invoiceNumber (metadata inv)) s); [discriminate |].
  destruct (getQuarterDateRange _ _) as [range | m]; [| discriminate].
  destruct (outside_range _ range) eqn:Ho; [discriminate |].
  intros [= <-]. repeat split. exists range. split; [reflexivity | exact Ho].
Qed.

Lemma addInvoice_state (inv : DigitalInvoice) (s : BuwisFriend R) :
  state_after (Session.addInvoice getTime describe clear rebuild inv s) = s
  \/ exists s', Session.addInvoice getTime describe clear rebuild inv s = Returned s'.
Proof.
  destruct (Session.addInvoice getTime describe clear rebuild inv s) as [s' | m s'] eqn:E.
  - right. now exists s'.
  - left. pose proof (addInvoice_throws_unchanged getTime describe clear rebuild inv s) as H.
    rewrite E in H. now apply H.
Qed.

(** What [addInvoices] has checked when it returns from a batch that is
    not empty. *)
Lemma addInvoices_returns (batch : list DigitalInvoice) (s s' : BuwisFriend R) :
  batch <> [] ->
  Session.addInvoices getTime clear rebuild batch s = Returned s' ->
  (exists range,
     getQuarterDateRange (quarter (session_metadata s))
                         (year (session_metadata s)) = Value range
     /\ Session.validate_batch getTime s range ∅ batch = None)
  /\ s' = refresh (with_invoices (sort (invoices s ++ batch)) s).
Proof.
  intros Hb. unfold Session.addInvoices.
  destruct batch as [| x rest]; [contradiction |].
  destruct (getQuarterDateRange _ _) as [range | m]; [| discriminate].
  destruct (Session.validate_batch getTime s range ∅ (x :: rest)) eqn:Hv;
    [discriminate |].
  intros [= <-]. split; [| reflexivity]. exists range. now split.
Qed.

Lemma addInvoices_state (batch : list DigitalInvoice) (s : BuwisFriend R) :
  state_after (Session.addInvoices getTime clear rebuild batch s) = s
  \/ (batch <> []
      /\ exists s', Session.addInvoices getTime clear rebuild batch s = Returned s').
Proof.
  destruct batch as [| x rest]; [left; reflexivity |].
  destruct (Session.addInvoices getTime clear rebuild (x :: rest) s) as [s' | m s'] eqn:E.
  - right. split; [discriminate | now exists s'].
  - left. pose proof (addInvoices_throws_unchanged getTime clear rebuild (x :: rest) s) as H.
    rewrite E in H. now apply H.
Qed.

(** What the loop of [updateInvoices] has established when it runs to
    its end. *)
Lemma validate_update_accepts (range : Z * Z) (batch : list DigitalInvoice) :
  forall seen : gset string,
    SessionOps.validate_update getTime describe range seen batch = None ->
    Forall (fun inv => outside_range (getTime (timestamp inv)) range = false) batch
    /\ (forall inv, In inv batch -> number inv ∉ seen)
    /\ NoDup (List.map number batch).
Proof.
  induction batch as [| inv rest IH]; intros seen Hv.
  - repeat split; [constructor | intros ? [] | constructor].
  - cbn [SessionOps.validate_update] in Hv. cbv zeta in Hv.
    fold (SessionOps.number inv) in Hv.
    destruct (outside_range (getTime (timestamp inv)) range) eqn:Ho; [discriminate |].
    destruct (bool_decide (number inv ∈ seen)) eqn:Hs; [discriminate |].
    apply bool_decide_eq_false in Hs.
    destruct (IH _ Hv) as (Hf & Hn & Hd).
    split; [constructor; assumption |]. split.
    + intros y [<- | Hy]; [exact Hs |].
      intros Hin. apply (Hn y Hy). apply elem_of_union_r. exact Hin.
    + cbn. apply NoDup_cons. split; [| exact Hd].
      intros Hin. apply list_elem_of_In, in_map_iff in Hin.
      destruct Hin as (y & Hy & Hin).
      apply (Hn y Hin). rewrite Hy. apply elem_of_union_l, elem_of_singleton.
      reflexivity.
Qed.

Lemma updateInvoices_state (batch : list DigitalInvoice) (s : BuwisFriend R) :
  state_after (SessionOps.updateInvoices getTime describe clear rebuild batch s) = s
  \/ exists range,
       getQuarterDateRange (quarter (session_metadata s))
                           (year (session_metadata s)) = Value range
       /\ SessionOps.validate_update getTime describe range ∅ batch = None
       /\ SessionOps.updateInvoices getTime describe clear rebuild batch s
          = Returned (refresh (with_invoices (sort batch) s)).
Proof.
  unfold SessionOps.updateInvoices.
  destruct batch as [| x rest]; [left; reflexivity |].
  destruct (getQuarterDateRange _ _) as [range | m]; [| left; reflexivity].
  destruct (SessionOps.validate_update getTime describe range ∅ (x :: rest)) eqn:Hv;
    [left; reflexivity |].
  right. exists range. split; [reflexivity |]. split; [exact Hv | reflexivity].
Qed.

(** [findIndex] and [splice]: the invoice taken out is the first one of
    that number. *)
Lemma remove_first_splits (n : string) (l l' : list DigitalInvoice) :
  SessionOps.remove_first n l = Some l' ->
  exists l1 x l2,
    l = (l1 ++ x :: l2)%list /\ l' = (l1 ++ l2)%list /\ number x = n
    /\ Forall (fun y => number y <> n) l1.
Proof.
  revert l'. induction l as [| y l IH]; intros l'; cbn; [discriminate |].
  fold (SessionOps.number y).
  destruct (String.eqb (number y) n) eqn:E.
  - intros [= <-]. apply String.eqb_eq in E.
    exists [], y, l. repeat split; [exact E | constructor].
  - destruct (SessionOps.remove_first n l) as [r |]; [| discriminate].
    intros [= <-]. destruct (IH r eq_refl) as (l1 & x & l2 & -> & -> & Hx & Hf).
    exists (y :: l1), x, l2. repeat split; [exact Hx |].
    constructor; [| exact Hf]. now apply String.eqb_neq.
Qed.

Lemma removeInvoiceByNumber_state (n : string) (s : BuwisFriend R) :
  state_after (SessionOps.removeInvoiceByNumber clear rebuild n s) = s
  \/ exists l',
       SessionOps.remove_first n (invoices s) = Some l'
       /\ SessionOps.removeInvoiceByNumber clear rebuild n s
          = Returned (refresh (with_invoices l' s)).
Proof.
  unfold SessionOps.removeInvoiceByNumber.
  destruct (Setters.is_blank n); [left; reflexivity |].
  destruct (invoices s) as [| x rest] eqn:El; [left; reflexivity |].
  destruct (SessionOps.remove_first n (x :: rest)) as [l' |] eqn:Er;
    [| left; reflexivity].
  right. exists l'. split; reflexivity.
Qed.

Lemma unique_numbers_perm (l l' : list DigitalInvoice) :
  l ≡ₚ l' -> NoDup (List.map number l') -> NoDup (List.map number l).
Proof. intros Hp Hn. now rewrite (Permutation_map number Hp). Qed.

Lemma numbers_stay_unique (c : SessionOps.session_call) (s : BuwisFriend R) :
  SessionOps.unique_numbers s ->
  SessionOps.unique_numbers (state_after (call c s)).
Proof.
  unfold SessionOps.unique_numbers. intros Hu.
  destruct c as [inv | batch | batch | | n | q | y]; cbn [SessionOps.call_session].
  - destruct (addInvoice_state inv s) as [-> | [s' Hs']]; [exact Hu |].
    rewrite Hs'. destruct (addInvoice_returns inv s s' Hs') as (_ & Hf & _ & ->).
    cbn [state_after]. rewrite refreshSummary_invoices. cbn [with_invoices invoices].
    apply (unique_numbers_perm _ _ (sort_by_date_perm _)).
    rewrite map_app. apply NoDup_app. split; [exact Hu |]. split.
    + intros x Hx Hin. cbn in Hin. apply list_elem_of_singleton in Hin. subst x.
      now apply (some_invoiceNumber_false _ s Hf).
    + cbn. apply NoDup_singleton.
  - destruct (addInvoices_state batch s) as [-> | [Hb [s' Hs']]]; [exact Hu |].
    rewrite Hs'.
    destruct (addInvoices_returns batch s s' Hb Hs') as ((range & _ & Hv) & ->).
    cbn [state_after]. rewrite refreshSummary_invoices. cbn [with_invoices invoices].
    apply (unique_numbers_perm _ _ (sort_by_date_perm _)).
    destruct (validate_batch_accepts getTime s range batch ∅ Hv) as [Hall Hnd].
    rewrite map_app. apply NoDup_app. split; [exact Hu |]. split; [| exact Hnd].
    intros x Hx Hin. apply list_elem_of_In, in_map_iff in Hin.
    destruct Hin as (inv & <- & Hin).
    destruct (Hall inv Hin) as (_ & Hf & _).
    now apply (some_invoiceNumber_false _ s Hf).
  - destruct (updateInvoices_state batch s) as [-> | (range & _ & Hv & ->)];
      [exact Hu |].
    cbn [state_after]. rewrite refreshSummary_invoices. cbn [with_invoices invoices].
    apply (unique_numbers_perm _ _ (sort_by_date_perm _)).
    now destruct (validate_update_accepts range batch ∅ Hv) as (_ & _ & Hnd).
  - unfold SessionOps.clearInvoices. cbn [state_after].
    rewrite refreshSummary_invoices. cbn. constructor.
  - destruct (removeInvoiceByNumber_state n s) as [-> | (l' & Hr & ->)]; [exact Hu |].
    cbn [state_after]. rewrite refreshSummary_invoices. cbn [with_invoices invoices].
    destruct (remove_first_splits n _ l' Hr) as (l1 & x & l2 & El & -> & _ & _).
    rewrite El in Hu. rewrite map_app in *. cbn in Hu.
    apply NoDup_app in Hu. destruct Hu as (H1 & H2 & H3).
    apply NoDup_cons in H3. destruct H3 as [_ H3].
    apply NoDup_app. split; [exact H1 |]. split; [| exact H3].
    intros z Hz Hin. apply (H2 z Hz). now right.
  - unfold SessionOps.setQuarter. cbn [state_after].
    rewrite refreshSummary_invoices. exact Hu.
  - unfold SessionOps.setYear.
    destruct ((y <? 1800)%Z || (3000 <? y)%Z); cbn [state_after]; [exact Hu |].
    rewrite refreshSummary_invoices. exact Hu.
Qed.

Lemma period_kept (c : SessionOps.session_call) (s : BuwisFriend R) :
  SessionOps.keeps_period c = true ->
  SessionOps.all_in_period getTime s ->
  SessionOps.all_in_period getTime (state_after (call c s)).
Proof.
  intros Hk (range & Hr & Hall). unfold SessionOps.all_in_period.
  destruct c as [inv | batch | batch | | n | q | y]; try discriminate Hk;
    cbn [SessionOps.call_session].
  - destruct (addInvoice_state inv s) as [-> | [s' Hs']];
      [exists range; now split |].
    rewrite Hs'.
    destruct (addInvoice_returns inv s s' Hs') as (_ & _ & (range' & Hr' & Ho) & ->).
    cbn [state_after]. rewrite refreshSummary_invoices, refreshSummary_metadata.
    cbn [with_invoices invoices session_metadata].
    exists range. split; [exact Hr |].
    rewrite Hr in Hr'. injection Hr' as <-.
    rewrite (sort_by_date_perm _). apply Forall_app. split; [exact Hall |].
    now constructor.
  - destruct (addInvoices_state batch s) as [-> | [Hb [s' Hs']]];
      [exists range; now split |].
    rewrite Hs'.
    destruct (addInvoices_returns batch s s' Hb Hs') as ((range' & Hr' & Hv) & ->).
    cbn [state_after]. rewrite refreshSummary_invoices, refreshSummary_metadata.
    cbn [with_invoices invoices session_metadata].
    exists range. split; [exact Hr |].
    rewrite Hr in Hr'. injection Hr' as <-.
    rewrite (sort_by_date_perm _). apply Forall_app. split; [exact Hall |].
    destruct (validate_batch_accepts getTime s range batch ∅ Hv) as [Hin _].
    apply Forall_forall. intros x Hx. apply list_elem_of_In in Hx.
    now destruct (Hin x Hx).
  - destruct (updateInvoices_state batch s) as [-> | (range' & Hr' & Hv & ->)];
      [exists range; now split |].
    cbn [state_after]. rewrite refreshSummary_invoices, refreshSummary_metadata.
    cbn [with_invoices invoices session_metadata].
    exists range. split; [exact Hr |].
    rewrite Hr in Hr'. injection Hr' as <-.
    rewrite (sort_by_date_perm _).
    now destruct (validate_update_accepts range batch ∅ Hv).
  - unfold SessionOps.clearInvoices. cbn [state_after].
    rewrite refreshSummary_invoices, refreshSummary_metadata.
    exists range. split; [exact Hr | constructor].
  - destruct (removeInvoiceByNumber_state n s) as [-> | (l' & Hrm & ->)];
      [exists range; now split |].
    cbn [state_after]. rewrite refreshSummary_invoices, refreshSummary_metadata.
    cbn [with_invoices invoices session_metadata].
    exists range. split; [exact Hr |].
    destruct (remove_first_splits n _ l' Hrm) as (l1 & x & l2 & El & -> & _ & _).
    rewrite El in Hall. apply Forall_app in Hall. destruct Hall as [H1 H2].
    apply Forall_app. split; [exact H1 |]. now inversion H2.
Qed.

(** ** Date order *)

Local Abbreviation not_after := (SessionOps.not_after getTime).

Lemma later_dated (a b : DigitalInvoice) :
  SessionOps.dated getTime a -> SessionOps.dated getTime b ->
  Session.later getTime a b
  = (SessionOps.time_of getTime b <? SessionOps.time_of getTime a)%Z.
Proof.
  unfold SessionOps.dated, Session.later, SessionOps.time_of.
  intros [ta ->] [tb ->]. reflexivity.
Qed.

Lemma insert_sorted_in_order (x : DigitalInvoice) (l : list DigitalInvoice) :
  SessionOps.dated getTime x -> Forall (SessionOps.dated getTime) l ->
  StronglySorted not_after l -> StronglySorted not_after (insert x l).
Proof.
  intros Hx Hd Hs. induction l as [| y l IH]; cbn.
  - constructor; constructor.
  - apply Forall_cons in Hd. destruct Hd as [Hy Hd].
    apply StronglySorted_inv in Hs. destruct Hs as [Hs Hle].
    rewrite (later_dated y x Hy Hx).
    destruct (SessionOps.time_of getTime x <? SessionOps.time_of getTime y)%Z eqn:E.
    + apply Z.ltb_lt in E. constructor; [constructor; assumption |].
      rewrite List.Forall_forall in Hle.
      apply List.Forall_forall. intros z [<- | Hz]; unfold SessionOps.not_after in *; [lia |].
      specialize (Hle z Hz). lia.
    + apply Z.ltb_ge in E. constructor; [now apply IH |].
      apply List.Forall_forall. intros z Hz.
      apply (Permutation_in _ (insert_sorted_perm x l)) in Hz.
      destruct Hz as [<- | Hz]; [exact E |].
      rewrite List.Forall_forall in Hle. now apply Hle.
Qed.

Lemma fold_insert_in_order (l acc : list DigitalInvoice) :
  Forall (SessionOps.dated getTime) l -> Forall (SessionOps.dated getTime) acc ->
  StronglySorted not_after acc ->
  StronglySorted not_after (fold_left (fun a x => insert x a) l acc).
Proof.
  revert acc. induction l as [| x l IH]; intros acc Hl Ha Hs; cbn; [exact Hs |].
  apply Forall_cons in Hl. destruct Hl as [Hx Hl].
  apply IH; [exact Hl | | now apply insert_sorted_in_order].
  rewrite (insert_sorted_perm x acc). now constructor.
Qed.

Lemma sort_by_date_in_order (l : list DigitalInvoice) :
  Forall (SessionOps.dated getTime) l -> StronglySorted not_after (sort l).
Proof.
  intros Hl. apply fold_insert_in_order; [exact Hl | constructor | constructor].
Qed.

Lemma insert_sorted_last (x : DigitalInvoice) (acc : list DigitalInvoice) :
  SessionOps.dated getTime x -> Forall (SessionOps.dated getTime) acc ->
  Forall (fun y => not_after y x) acc ->
  insert x acc = (acc ++ [x])%list.
Proof.
  intros Hx Hd Hle. induction acc as [| y acc IH]; cbn; [reflexivity |].
  apply Forall_cons in Hd. destruct Hd as [Hy Hd].
  apply Forall_cons in Hle. destruct Hle as [Hyx Hle].
  rewrite (later_dated y x Hy Hx).
  unfold SessionOps.not_after in Hyx.
  destruct (Z.ltb_spec (SessionOps.time_of getTime x) (SessionOps.time_of getTime y));
    [lia |].
  now rewrite IH.
Qed.

Lemma fold_insert_of_sorted (l acc : list DigitalInvoice) :
  Forall (SessionOps.dated getTime) (acc ++ l) ->
  StronglySorted not_after (acc ++ l) ->
  fold_left (fun a x => insert x a) l acc = (acc ++ l)%list.
Proof.
  revert acc. induction l as [| x l IH]; intros acc Hd Hs; cbn.
  - now rewrite app_nil_r.
  - assert (E : (acc ++ x :: l = (acc ++ [x]) ++ l)%list)
      by now rewrite <- app_assoc.
    rewrite E in Hd, Hs.
    rewrite insert_sorted_last.
    + rewrite (IH (acc ++ [x])%list Hd Hs). now rewrite <- app_assoc.
    + apply Forall_app in Hd. destruct Hd as [Hd _].
      apply Forall_app in Hd. destruct Hd as [_ Hd]. now inversion Hd.
    + apply Forall_app in Hd. destruct Hd as [Hd _].
      apply Forall_app in Hd. now destruct Hd.
    + clear IH Hd E. induction acc as [| y acc IHa]; [constructor |].
      cbn in Hs. apply StronglySorted_inv in Hs. destruct Hs as [Hs Hle].
      constructor; [| now apply IHa].
      rewrite List.Forall_forall in Hle. apply Hle.
      apply in_or_app. left. apply in_or_app. right. now left.
Qed.

(** Sorting a list that is in date order changes nothing. *)
Lemma sort_by_date_of_sorted (l : list DigitalInvoice) :
  Forall (SessionOps.dated getTime) l -> StronglySorted not_after l ->
  sort l = l.
Proof. intros Hd Hs. now apply (fold_insert_of_sorted l []). Qed.

Lemma remove_first_insert (n : string) (x : DigitalInvoice)
    (l : list DigitalInvoice) :
  number x = n -> Forall (fun y => number y <> n) l ->
  SessionOps.remove_first n (insert x l) = Some l.
Proof.
  intros Hx Hl. induction l as [| y l IH]; cbn.
  - fold (SessionOps.number x). rewrite Hx, String.eqb_refl. reflexivity.
  - apply Forall_cons in Hl. destruct Hl as [Hy Hl].
    destruct (Session.later getTime y x); cbn.
    + fold (SessionOps.number x). rewrite Hx, String.eqb_refl. reflexivity.
    + fold (SessionOps.number y). apply String.eqb_neq in Hy. rewrite Hy.
      now rewrite (IH Hl).
Qed.

Lemma insert_sorted_not_nil (x : DigitalInvoice) (l : list DigitalInvoice) :
  insert x l <> [].
Proof.
  destruct l as [| y l]; cbn; [discriminate |].
  destruct (Session.later getTime y x); discriminate.
Qed.

Lemma remove_after_add (inv : DigitalInvoice) (s s1 : BuwisFriend R) :
  Session.addInvoice getTime describe clear rebuild inv s = Returned s1 ->
  exists s2,
    SessionOps.removeInvoiceByNumber clear rebuild (number inv) s1 = Returned s2
    /\ invoices s2 = sort (invoices s)
    /\ session_metadata s2 = session_metadata s.
Proof.
  intros Ha. destruct (addInvoice_returns inv s s1 Ha) as (Hb & Hf & _ & ->).
  unfold SessionOps.removeInvoiceByNumber. rewrite Hb.
  rewrite refreshSummary_invoices. cbn [with_invoices invoices].
  rewrite sort_by_date_snoc.
  assert (Hr : SessionOps.remove_first (number inv) (insert inv (sort (invoices s)))
               = Some (sort (invoices s))).
  { apply remove_first_insert; [reflexivity |].
    apply Forall_forall. intros y Hy Heq.
    apply (some_invoiceNumber_false _ s Hf). rewrite <- Heq.
    apply list_elem_of_In, in_map. apply list_elem_of_In.
    now rewrite <- (sort_by_date_perm (invoices s)). }
  rewrite Hr.
  destruct (insert inv (sort (invoices s))) eqn:Ei;
    [now apply insert_sorted_not_nil in Ei |].
  eexists. split; [reflexivity |].
  rewrite refreshSummary_invoices, !refreshSummary_metadata. split; reflexivity.
Qed.

(** ** Invoices without a valid date *)

Lemma undated_invoice_is_added (inv : DigitalInvoice) (s : BuwisFriend R)
    (range : Z * Z) :
  getTime (timestamp inv) = None ->
  Setters.is_blank (number inv) = false ->
  some_invoiceNumber (number inv) s = false ->
  getQuarterDateRange (quarter (session_metadata s))
                      (year (session_metadata s)) = Value range ->
  Session.addInvoice getTime describe clear rebuild inv s
  = Returned (refresh (with_invoices (sort (invoices s ++ [inv])) s)).
Proof.
  intros Ht Hb Hf Hr. unfold Session.addInvoice, doesInvoiceExist.
  unfold Setters.is_blank, SessionOps.number in Hb.
  apply orb_false_iff in Hb. destruct Hb as [H1 H2].
  apply negb_false_iff in H1, H2. rewrite H1, H2. cbn [andb].
  unfold SessionOps.number in Hf. rewrite Hf, Hr, Ht. reflexivity.
Qed.

Lemma undated_invoice_is_not_filtered (squarter : R -> QuarterPeriod)
    (inv : DigitalInvoice) (s : BuwisFriend R) (q : option QuarterPeriod)
    (l : list DigitalInvoice) :
  getTime (timestamp inv) = None ->
  SessionOps.getInvoicesFromQuarter getTime squarter q s = Value l ->
  ~ In inv l.
Proof.
  intros Ht. unfold SessionOps.getInvoicesFromQuarter.
  destruct (getQuarterDateRange _ _) as [range | m]; [| discriminate].
  intros [= <-] Hin. apply list_elem_of_In, list_elem_of_filter in Hin.
  destruct Hin as [Hin _]. rewrite Ht in Hin. cbn in Hin. exact Hin.
Qed.

(** ** [updateInvoices] and [addInvoices] *)

Lemma validate_batch_stricter (s : BuwisFriend R) (range : Z * Z)
    (batch : list DigitalInvoice) :
  forall seen : gset string,
    Session.validate_batch getTime s range seen batch = None ->
    SessionOps.validate_update getTime describe range seen batch = None.
Proof.
  induction batch as [| inv rest IH]; intros seen;
    cbn [Session.validate_batch SessionOps.validate_update]; cbv zeta;
    [reflexivity |].
  destruct (outside_range (getTime (timestamp inv)) range); [discriminate |].
  destruct (bool_decide (invoiceNumber (metadata inv) ∈ seen)); [discriminate |].
  destruct (doesInvoiceExist (inr inv) s) as [[|] | m]; try discriminate.
  apply IH.
Qed.

End SessionOpsFacts.

(** X9.  No method of a session can make two of its invoices share a
    number: if the invoice numbers of a session are pairwise distinct,
    they still are after any call of [addInvoice], [addInvoices],
    [updateInvoices], [clearInvoices], [removeInvoiceByNumber],
    [setQuarter] or [setYear], whether the call returns or throws. *)
Theorem session_numbers_stay_unique
    {R : Type} (getTime : string -> option Z) (describe : string -> string)
    (clear : R -> R) (rebuild : BuwisFriendMetadata -> list DigitalInvoice -> R)
    (c : SessionOps.session_call) (s : BuwisFriend R) :
  SessionOps.unique_numbers s ->
  SessionOps.unique_numbers
    (state_after (SessionOps.call_session getTime describe clear rebuild c s)).
Proof. apply numbers_stay_unique. Qed.

Lemma session_numbers_stay_unique_witness :
  let s := Examples.session_one in
  let c := SessionOps.AddInvoices
             [Examples.issued "B-002" Examples.stamp_march;
              Examples.issued "B-003" Examples.stamp_february] in
  let s' := state_after (SessionOps.call_session Examples.getTime Examples.describe
                           (fun _ => []) Examples.summary_numbers c s) in
  List.map SessionOps.number (invoices s') = ["A-001"; "B-003"; "B-002"]
  /\ SessionOps.unique_numbers s'.
Proof.
  cbv zeta. split; [reflexivity |].
  apply session_numbers_stay_unique.
  unfold SessionOps.unique_numbers. cbn. apply NoDup_singleton.
Defined.

(** X10.  The methods that fill or empty the invoice list keep every
    invoice of a session inside its filing period: if no invoice is dated
    outside the quarter of the session, none is after a call of
    [addInvoice], [addInvoices], [updateInvoices], [clearInvoices] or
    [removeInvoiceByNumber].  The two methods that move the period do not
    look at the invoices: [setQuarter] (and likewise [setYear]) returns
    with the list untouched, so that the session for the first quarter of
    2025 that holds an invoice of February still holds it after
    [setQuarter(Q2)]. *)
Theorem invoices_stay_in_period_until_the_period_moves :
  (forall (R : Type) (getTime : string -> option Z) (describe : string -> string)
          (clear : R -> R)
          (rebuild : BuwisFriendMetadata -> list DigitalInvoice -> R)
          (c : SessionOps.session_call) (s : BuwisFriend R),
     SessionOps.keeps_period c = true ->
     SessionOps.all_in_period getTime s ->
     SessionOps.all_in_period getTime
       (state_after (SessionOps.call_session getTime describe clear rebuild c s)))
  /\ (let s := Examples.session_one in
      let s' := state_after
                  (SessionOps.setQuarter (fun _ => []) Examples.summary_numbers Q2 s) in
      SessionOps.all_in_period Examples.getTime s
      /\ invoices s' = invoices s
      /\ ~ SessionOps.all_in_period Examples.getTime s').
Proof.
  split.
  - intros R getTime describe clear rebuild c s. apply period_kept.
  - cbv zeta. split; [| split].
    + eexists. split; [reflexivity |]. repeat constructor.
    + reflexivity.
    + intros (range & Hr & Hall).
      assert (Hq : getQuarterDateRange Q2 2025 = Value range) by exact Hr.
      vm_compute in Hq. injection Hq as <-.
      apply Forall_cons in Hall. destruct Hall as [Hout _].
      vm_compute in Hout. discriminate Hout.
Qed.

(** X11.  When [addInvoice] returns, the invoice list is the previous list
    with the new invoice put in, nothing dropped and nothing doubled;
    [doesInvoiceExist] answers [true] for the number just added; and if
    the new invoice and the previous ones all have valid dates, the list
    is in date order, earliest first, however the previous list was
    ordered. *)
Theorem added_invoice_is_listed_in_date_order
    {R : Type} (getTime : string -> option Z) (describe : string -> string)
    (clear : R -> R) (rebuild : BuwisFriendMetadata -> list DigitalInvoice -> R)
    (inv : DigitalInvoice) (s s' : BuwisFriend R) :
  addInvoice getTime describe clear rebuild inv s = Returned s' ->
  invoices s' ≡ₚ inv :: invoices s
  /\ doesInvoiceExist (inl (SessionOps.number inv)) s' = Value true
  /\ (Forall (SessionOps.dated getTime) (inv :: invoices s) ->
      StronglySorted (SessionOps.not_after getTime) (invoices s')).
Proof.
  intros Ha.
  destruct (addInvoice_returns getTime describe clear rebuild inv s s' Ha)
    as (Hb & _ & _ & ->).
  rewrite refreshSummary_invoices. cbn [with_invoices invoices].
  assert (Hp : Session.sort_by_date getTime (invoices s ++ [inv]) ≡ₚ inv :: invoices s).
  { rewrite sort_by_date_perm. now rewrite Permutation_app_comm. }
  split; [exact Hp |]. split.
  - unfold doesInvoiceExist.
    unfold Setters.is_blank in Hb. apply orb_false_iff in Hb.
    destruct Hb as [_ Hb]. apply negb_false_iff in Hb. rewrite Hb.
    f_equal. unfold some_invoiceNumber. rewrite refreshSummary_invoices.
    cbn [with_invoices invoices]. apply existsb_exists. exists inv. split.
    + apply (Permutation_in _ (Permutation_sym Hp)). now left.
    + apply String.eqb_refl.
  - intros Hd. apply sort_by_date_in_order.
    apply Forall_app. apply Forall_cons in Hd. destruct Hd as [Hi Hd].
    split; [exact Hd | now constructor].
Qed.

Lemma added_invoice_is_listed_in_date_order_witness :
  let s := Examples.session_with
             [Examples.issued "A-001" Examples.stamp_march] in
  let inv := Examples.issued "B-002" Examples.stamp_february in
  exists s',
    addInvoice Examples.getTime Examples.describe (fun _ => [])
      Examples.summary_numbers inv s = Returned s'
    /\ List.map SessionOps.number (invoices s') = ["B-002"; "A-001"]
    /\ StronglySorted (SessionOps.not_after Examples.getTime) (invoices s').
Proof.
  cbv zeta. eexists. split; [reflexivity |]. split; [reflexivity |].
  refine (proj2 (proj2 (added_invoice_is_listed_in_date_order
                          Examples.getTime Examples.describe (fun _ => [])
                          Examples.summary_numbers
                          (Examples.issued "B-002" Examples.stamp_february)
                          (Examples.session_with
                             [Examples.issued "A-001" Examples.stamp_march])
                          _ eq_refl)) _).
  repeat constructor; eexists; reflexivity.
Defined.

(** X12.  An invoice whose timestamp is not a valid date passes the period
    check of [addInvoice]: with a number that is not blank and not yet in
    the session it is added, whatever the quarter of the session.  Once
    in the list it is never returned by [getInvoicesFromQuarter], for any
    quarter. *)
Theorem undated_invoice_is_added_and_never_listed
    {R : Type} (getTime : string -> option Z) (describe : string -> string)
    (clear : R -> R) (rebuild : BuwisFriendMetadata -> list DigitalInvoice -> R)
    (squarter : R -> QuarterPeriod)
    (inv : DigitalInvoice) (s : BuwisFriend R) (range : Z * Z) :
  getTime (timestamp inv) = None ->
  Setters.is_blank (SessionOps.number inv) = false ->
  some_invoiceNumber (SessionOps.number inv) s = false ->
  getQuarterDateRange (quarter (session_metadata s))
                      (year (session_metadata s)) = Value range ->
  exists s',
    addInvoice getTime describe clear rebuild inv s = Returned s'
    /\ In inv (invoices s')
    /\ forall q l,
         SessionOps.getInvoicesFromQuarter getTime squarter q s' = Value l ->
         ~ In inv l.
Proof.
  intros Ht Hb Hf Hr. eexists. split.
  - apply (undated_invoice_is_added getTime describe clear rebuild inv s range);
      assumption.
  - split.
    + rewrite refreshSummary_invoices. cbn [with_invoices invoices].
      apply (Permutation_in _ (Permutation_sym (sort_by_date_perm getTime _))).
      apply in_or_app. right. now left.
    + intros q l. now apply undated_invoice_is_not_filtered.
Qed.

Lemma undated_invoice_is_added_and_never_listed_witness :
  let inv := Examples.issued "Z-009" "next week" in
  exists s',
    addInvoice Examples.getTime Examples.describe (fun _ => [])
      Examples.summary_numbers inv Examples.session_one = Returned s'
    /\ In inv (invoices s')
    /\ forall q l,
         SessionOps.getInvoicesFromQuarter Examples.getTime (fun _ => Q1) q s'
         = Value l ->
         ~ In inv l.
Proof.
  cbv zeta.
  exact (undated_invoice_is_added_and_never_listed
           Examples.getTime Examples.describe (fun _ => [])
           Examples.summary_numbers (fun _ => Q1)
           (Examples.issued "Z-009" "next week") Examples.session_one
           _ eq_refl eq_refl eq_refl eq_refl).
Defined.

(** X13.  [removeInvoiceByNumber] undoes [addInvoice]: called with the
    number of the invoice that [addInvoice] has just added, it returns,
    and the session has its previous filing period and its previous
    invoices, none lost and none doubled.  If these invoices and the
    added one all have valid dates, the list is the previous one sorted
    by date; and where the previous list was dated and in date order
    already, it is the previous list itself. *)
Theorem removing_the_added_invoice_restores_the_list
    {R : Type} (getTime : string -> option Z) (describe : string -> string)
    (clear : R -> R) (rebuild : BuwisFriendMetadata -> list DigitalInvoice -> R)
    (inv : DigitalInvoice) (s s1 : BuwisFriend R) :
  addInvoice getTime describe clear rebuild inv s = Returned s1 ->
  exists s2,
    SessionOps.removeInvoiceByNumber clear rebuild (SessionOps.number inv) s1
    = Returned s2
    /\ session_metadata s2 = session_metadata s
    /\ invoices s2 ≡ₚ invoices s
    /\ (Forall (SessionOps.dated getTime) (inv :: invoices s) ->
        invoices s2 = Session.sort_by_date getTime (invoices s))
    /\ (Forall (SessionOps.dated getTime) (invoices s) ->
        StronglySorted (SessionOps.not_after getTime) (invoices s) ->
        invoices s2 = invoices s).
Proof.
  intros Ha.
  destruct (remove_after_add getTime describe clear rebuild inv s s1 Ha)
    as (s2 & Hr & Hi & Hm).
  exists s2. split; [exact Hr |]. split; [exact Hm |]. split; [| split].
  - rewrite Hi. apply sort_by_date_perm.
  - intros _. exact Hi.
  - intros Hd Hs. rewrite Hi. now apply sort_by_date_of_sorted.
Qed.

Lemma removing_the_added_invoice_restores_the_list_witness :
  let inv := Examples.issued "B-002" Examples.stamp_march in
  exists s1 s2,
    addInvoice Examples.getTime Examples.describe (fun _ => [])
      Examples.summary_numbers inv Examples.session_one = Returned s1
    /\ SessionOps.removeInvoiceByNumber (fun _ => []) Examples.summary_numbers
         "B-002" s1 = Returned s2
    /\ invoices s2 = invoices Examples.session_one.
Proof.
  cbv zeta. eexists.
  destruct (removing_the_added_invoice_restores_the_list
              Examples.getTime Examples.describe (fun _ => [])
              Examples.summary_numbers
              (Examples.issued "B-002" Examples.stamp_march)
              Examples.session_one _ eq_refl) as (s2 & Hr & _ & _ & _ & Hi).
  exists s2. split; [reflexivity |]. split; [exact Hr |].
  apply Hi; repeat constructor. eexists. reflexivity.
Defined.

(** X14.  [updateInvoices] accepts whatever [clearInvoices] followed by
    [addInvoices] accepts, and leaves the same invoice list, when the
    batch is not empty.  With an empty batch it differs: it returns
    without touching the session, so it cannot be used to empty the
    list.  It also accepts more: a batch holding an invoice whose number
    is blank is refused by [addInvoices] and taken by [updateInvoices]. *)
Theorem updateInvoices_takes_what_addInvoices_takes :
  (forall (R : Type) (getTime : string -> option Z) (describe : string -> string)
          (clear : R -> R)
          (rebuild : BuwisFriendMetadata -> list DigitalInvoice -> R)
          (batch : list DigitalInvoice) (s s1 : BuwisFriend R),
     batch <> [] ->
     (SessionOps.clearInvoices clear rebuild s
      >>> addInvoices getTime clear rebuild batch) = Returned s1 ->
     exists s2,
       SessionOps.updateInvoices getTime describe clear rebuild batch s
       = Returned s2
       /\ invoices s2 = invoices s1)
  /\ (forall (R : Type) (getTime : string -> option Z) (describe : string -> string)
             (clear : R -> R)
             (rebuild : BuwisFriendMetadata -> list DigitalInvoice -> R)
             (s : BuwisFriend R),
        SessionOps.updateInvoices getTime describe clear rebuild [] s = Returned s)
  /\ (let batch := [Examples.issued " " Examples.stamp_february] in
      let s := Examples.session_one in
      throws (addInvoices Examples.getTime (fun _ => []) Examples.summary_numbers
                batch s) = true
      /\ List.map SessionOps.number
           (invoices (state_after
                        (SessionOps.updateInvoices Examples.getTime Examples.describe
                           (fun _ => []) Examples.summary_numbers batch s)))
         = [" "]).
Proof.
  split; [| split].
  - intros R getTime describe clear rebuild batch s s1 Hb.
    unfold SessionOps.clearInvoices. cbn [and_then]. intros Ha.
    destruct (addInvoices_returns getTime clear rebuild batch _ s1 Hb Ha)
      as ((range & Hr & Hv) & ->).
    rewrite refreshSummary_metadata in Hr. cbn [with_invoices session_metadata] in Hr.
    apply (validate_batch_stricter getTime describe) in Hv.
    unfold SessionOps.updateInvoices.
    destruct batch as [| x rest]; [contradiction |].
    rewrite Hr, Hv. eexists. split; [reflexivity |].
    rewrite !refreshSummary_invoices. cbn [with_invoices invoices]. reflexivity.
  - reflexivity.
  - cbv zeta. split; reflexivity.
Qed.
